(** * WebAuthn passkey demo: the ceremony engine and its store

    A shallow embedding of the server side of the application:

    - [Base64Url]: Node's [Buffer] text codec used for keys and identifiers;
    - [Db]: [src/lib/database-server.ts] (second file of [unnamed/part_000]),
      the SQLite schema and the prepared statements of [dbQueries];
    - [Simplewebauthn]: the interface of [@simplewebauthn/server] as the
      sources use it, and the verifier the specification describes;
    - [Webauthn]: [src/lib/webauthn.ts];
    - [Part000]: the second copy of the same module (first file of
      [unnamed/part_000]);
    - [Routes]: the route handlers under [src/app/api];
    - [Properties] and [Scenario]: the notions the theorems are stated with
      and the concrete stores and requests they are tried on.

    State is passed explicitly: a statement that writes returns the new
    database next to its result, a thrown JavaScript exception is the left
    injection of a sum. *)

From Stdlib Require Import ZArith List String Ascii Bool Lia Permutation DecimalString.
From Stdlib.Strings Require Import Byte.
Import ListNotations.
Local Open Scope string_scope.
Local Open Scope list_scope.
Local Open Scope Z_scope.

(** JavaScript truthiness of a string: every string but the empty one. *)
Definition truthy (s : string) : bool := negb (String.eqb s "").

(** [a || b] on [string | undefined]. *)
Definition js_or (a : option string) (b : string) : string :=
  match a with
  | Some s => if truthy s then s else b
  | None => b
  end.

(** * Buffer and its base64url text form *)
Module Base64Url.

Definition alphabet : string :=
  "ABCDEFGHIJKLMNOPQRSTUVWXYZabcdefghijklmnopqrstuvwxyz0123456789-_".

Definition byteZ (b : byte) : Z := Z.of_N (Byte.to_N b).

Definition zbyte (z : Z) : byte :=
  match Byte.of_N (Z.to_N z) with
  | Some b => b
  | None => x00
  end.

(** The character of a 6-bit group. *)
Definition sextet (n : Z) : ascii :=
  match String.get (Z.to_nat (Z.land n 63)) alphabet with
  | Some c => c
  | None => "="%char
  end.

(** [buf.toString('base64url')]: three bytes give four characters, the last
    one or two bytes give two or three, and no padding is written. *)
Fixpoint encode (bs : list byte) : string :=
  match bs with
  | [] => ""
  | [a] =>
      let n := Z.shiftl (byteZ a) 16 in
      String (sextet (Z.shiftr n 18)) (String (sextet (Z.shiftr n 12)) "")
  | [a; b] =>
      let n := Z.lor (Z.shiftl (byteZ a) 16) (Z.shiftl (byteZ b) 8) in
      String (sextet (Z.shiftr n 18))
        (String (sextet (Z.shiftr n 12)) (String (sextet (Z.shiftr n 6)) ""))
  | a :: b :: c :: rest =>
      let n := Z.lor (Z.lor (Z.shiftl (byteZ a) 16) (Z.shiftl (byteZ b) 8)) (byteZ c) in
      String (sextet (Z.shiftr n 18))
        (String (sextet (Z.shiftr n 12))
           (String (sextet (Z.shiftr n 6)) (String (sextet n) (encode rest))))
  end.

(** Position of a character in the alphabet. *)
Fixpoint index_of (c : ascii) (s : string) (i : Z) : option Z :=
  match s with
  | EmptyString => None
  | String d rest => if Ascii.eqb c d then Some i else index_of c rest (i + 1)
  end.

(** The 6-bit value of a character; the decoder also reads the two
    characters of plain base64. *)
Definition sextet_value (c : ascii) : option Z :=
  if Ascii.eqb c "+"%char then Some 62
  else if Ascii.eqb c "/"%char then Some 63
  else index_of c alphabet 0.

(** [Buffer.from(text, 'base64url')]: the bits of the alphabet characters are
    concatenated and cut into bytes; a character outside the alphabet is
    skipped, padding ends the text, bits left over are dropped. *)
Fixpoint decode_from (s : string) (acc nbits : Z) : list byte :=
  match s with
  | EmptyString => []
  | String c rest =>
      if Ascii.eqb c "="%char then []
      else
        match sextet_value c with
        | None => decode_from rest acc nbits
        | Some v =>
            let acc' := Z.lor (Z.shiftl acc 6) v in
            let nbits' := nbits + 6 in
            if 8 <=? nbits'
            then zbyte (Z.land (Z.shiftr acc' (nbits' - 8)) 255)
                   :: decode_from rest (Z.land acc' (Z.ones (nbits' - 8))) (nbits' - 8)
            else decode_from rest acc' nbits'
        end
  end.

Definition decode (s : string) : list byte := decode_from s 0 0.

(** What [Buffer.from(x)] accepts in the sources: a string (its UTF-8 bytes,
    which are the characters of a Rocq string) or a byte array. *)
Inductive BufferSource :=
| OfString (s : string)
| OfBytes (bs : list byte).

Definition Buffer_from (x : BufferSource) : list byte :=
  match x with
  | OfString s => list_byte_of_string s
  | OfBytes bs => bs
  end.

End Base64Url.

(** * The store: database-server.ts *)
Module Db.

(** Clock readings are milliseconds since the epoch ([Date.now()]).
    [CURRENT_TIMESTAMP] is the text [YYYY-MM-DD HH:MM:SS] of the same instant:
    it is kept as its count of seconds. *)
Definition CURRENT_TIMESTAMP (now : Z) : Z := now / 1000.

(** [new Date(ms).toISOString()], the text [YYYY-MM-DDTHH:MM:SS.sssZ], kept
    as its count of milliseconds. *)
Definition toISOString (ms : Z) : Z := ms.

(** [expires_at > CURRENT_TIMESTAMP] as SQLite evaluates it on the two texts
    (both operands are TEXT, compared byte by byte): the ten characters of the
    date decide, and on equal dates the eleventh does, where the [T] of the
    ISO text is above the blank of [CURRENT_TIMESTAMP]. The ISO text is
    therefore the greater one exactly when its date is not before the current
    date (years of four digits). *)
Definition expires_after (expires_at now : Z) : bool :=
  CURRENT_TIMESTAMP now / 86400 <=? expires_at / 86400000.

Inductive SqliteError :=
| SQLITE_CONSTRAINT_UNIQUE (column : string)
| SQLITE_CONSTRAINT_PRIMARYKEY (column : string)
| SQLITE_CONSTRAINT_FOREIGNKEY.

(** Table [users]. *)
Record User := {
  u_id : Z;
  u_username : string;
  u_password_hash : string;
  u_created_at : Z
}.

(** Table [passkeys]. [p_transports] is the decoded form of the TEXT column:
    the column holds [JSON.stringify] of the array the client sent and every
    reader applies [JSON.parse] to it, [None] is SQL NULL. *)
Record Passkey := {
  p_id : Z;
  p_user_id : Z;
  p_credential_id : string;
  p_public_key : string;
  p_counter : Z;
  p_device_type : string;
  p_backed_up : Z;
  p_transports : option (list string);
  p_created_at : Z;
  p_last_used_at : option Z
}.

(** Table [webauthn_sessions]. *)
Record Session := {
  s_id : string;
  s_user_id : Z;
  s_challenge : string;
  s_created_at : Z;
  s_expires_at : Z
}.

(** The three tables, rows in insertion order, and the AUTOINCREMENT
    sequence of [passkeys]. *)
Record Database := {
  users : list User;
  passkeys : list Passkey;
  webauthn_sessions : list Session;
  passkeys_seq : Z
}.

(** Rows of the two JOIN queries: the row and [u.username]. *)
Record PasskeyWithUser := { pk_row : Passkey; pk_username : string }.
Record SessionWithUser := { ss_row : Session; ss_username : string }.

Definition getUserByUsername (username : string) (db : Database) : option User :=
  find (fun u => String.eqb (u_username u) username) (users db).

Definition getUserById (id : Z) (db : Database) : option User :=
  find (fun u => u_id u =? id) (users db).

(** [INSERT INTO passkeys ...]: [credential_id] is UNIQUE (checked as the row
    is written), [user_id] references [users] with foreign keys enabled
    (checked when the statement ends); a failed statement changes nothing. *)
Definition createPasskey (now : Z) (user_id : Z) (credential_id public_key : string)
    (counter : Z) (device_type : string) (backed_up : Z)
    (transports : option (list string)) (db : Database)
  : (SqliteError + unit) * Database :=
  if existsb (fun p => String.eqb (p_credential_id p) credential_id) (passkeys db)
  then (inl (SQLITE_CONSTRAINT_UNIQUE "passkeys.credential_id"), db)
  else if negb (existsb (fun u => u_id u =? user_id) (users db))
  then (inl SQLITE_CONSTRAINT_FOREIGNKEY, db)
  else
    let row := {| p_id := passkeys_seq db + 1;
                  p_user_id := user_id;
                  p_credential_id := credential_id;
                  p_public_key := public_key;
                  p_counter := counter;
                  p_device_type := device_type;
                  p_backed_up := backed_up;
                  p_transports := transports;
                  p_created_at := CURRENT_TIMESTAMP now;
                  p_last_used_at := None |} in
    (inr tt, {| users := users db;
                passkeys := passkeys db ++ [row];
                webauthn_sessions := webauthn_sessions db;
                passkeys_seq := passkeys_seq db + 1 |}).

(** [ORDER BY created_at DESC]: insertion of a row before the first one that
    is older. SQLite leaves the order of rows of the same second open; here
    the row inserted last comes first. *)
Fixpoint insert_desc (p : Passkey) (l : list Passkey) : list Passkey :=
  match l with
  | [] => [p]
  | q :: rest =>
      if p_created_at q <? p_created_at p then p :: l
      else q :: insert_desc p rest
  end.

Definition order_by_created_at_desc (l : list Passkey) : list Passkey :=
  fold_right insert_desc [] l.

(** [SELECT * FROM passkeys WHERE user_id = ? ORDER BY created_at DESC]. *)
Definition getPasskeysByUserId (user_id : Z) (db : Database) : list Passkey :=
  order_by_created_at_desc (filter (fun p => p_user_id p =? user_id) (passkeys db)).

(** [SELECT p.*, u.username FROM passkeys p JOIN users u ON p.user_id = u.id
    WHERE p.credential_id = ?], first row. *)
Definition getPasskeyByCredentialId (credential_id : string) (db : Database)
  : option PasskeyWithUser :=
  match find (fun p => String.eqb (p_credential_id p) credential_id) (passkeys db) with
  | Some p =>
      match getUserById (p_user_id p) db with
      | Some u => Some {| pk_row := p; pk_username := u_username u |}
      | None => None
      end
  | None => None
  end.

Definition set_counter (now counter : Z) (credential_id : string) (p : Passkey) : Passkey :=
  if String.eqb (p_credential_id p) credential_id
  then {| p_id := p_id p;
          p_user_id := p_user_id p;
          p_credential_id := p_credential_id p;
          p_public_key := p_public_key p;
          p_counter := counter;
          p_device_type := p_device_type p;
          p_backed_up := p_backed_up p;
          p_transports := p_transports p;
          p_created_at := p_created_at p;
          p_last_used_at := Some (CURRENT_TIMESTAMP now) |}
  else p.

(** [UPDATE passkeys SET counter = ?, last_used_at = CURRENT_TIMESTAMP
    WHERE credential_id = ?]. *)
Definition updatePasskeyCounter (now counter : Z) (credential_id : string)
    (db : Database) : Database :=
  {| users := users db;
     passkeys := map (set_counter now counter credential_id) (passkeys db);
     webauthn_sessions := webauthn_sessions db;
     passkeys_seq := passkeys_seq db |}.

(** [INSERT INTO webauthn_sessions (id, user_id, challenge, expires_at)]:
    [id] is the PRIMARY KEY, [user_id] references [users]. *)
Definition createSession (now : Z) (id : string) (user_id : Z) (challenge : string)
    (expires_at : Z) (db : Database) : (SqliteError + unit) * Database :=
  if existsb (fun s => String.eqb (s_id s) id) (webauthn_sessions db)
  then (inl (SQLITE_CONSTRAINT_PRIMARYKEY "webauthn_sessions.id"), db)
  else if negb (existsb (fun u => u_id u =? user_id) (users db))
  then (inl SQLITE_CONSTRAINT_FOREIGNKEY, db)
  else
    let row := {| s_id := id;
                  s_user_id := user_id;
                  s_challenge := challenge;
                  s_created_at := CURRENT_TIMESTAMP now;
                  s_expires_at := expires_at |} in
    (inr tt, {| users := users db;
                passkeys := passkeys db;
                webauthn_sessions := webauthn_sessions db ++ [row];
                passkeys_seq := passkeys_seq db |}).

(** [SELECT s.*, u.username FROM webauthn_sessions s JOIN users u
    ON s.user_id = u.id WHERE s.id = ? AND s.expires_at > CURRENT_TIMESTAMP],
    first row. *)
Definition getSession (now : Z) (id : string) (db : Database) : option SessionWithUser :=
  match find (fun s => String.eqb (s_id s) id && expires_after (s_expires_at s) now)
             (webauthn_sessions db) with
  | Some s =>
      match getUserById (s_user_id s) db with
      | Some u => Some {| ss_row := s; ss_username := u_username u |}
      | None => None
      end
  | None => None
  end.

(** [DELETE FROM webauthn_sessions WHERE id = ?]. *)
Definition deleteSession (id : string) (db : Database) : Database :=
  {| users := users db;
     passkeys := passkeys db;
     webauthn_sessions := filter (fun s => negb (String.eqb (s_id s) id)) (webauthn_sessions db);
     passkeys_seq := passkeys_seq db |}.

(** [DELETE FROM passkeys WHERE id = ? AND user_id = ?]: the number of rows
    deleted ([changes]) and the new database. *)
Definition deletePasskey (id user_id : Z) (db : Database) : Z * Database :=
  let doomed := fun p => (p_id p =? id) && (p_user_id p =? user_id) in
  (Z.of_nat (List.length (filter doomed (passkeys db))),
   {| users := users db;
      passkeys := filter (fun p => negb (doomed p)) (passkeys db);
      webauthn_sessions := webauthn_sessions db;
      passkeys_seq := passkeys_seq db |}).

(** [DELETE FROM webauthn_sessions WHERE expires_at <= CURRENT_TIMESTAMP],
    run once when the module is loaded: the rows that stay are those whose
    [expires_at] is above [CURRENT_TIMESTAMP]. *)
Definition cleanupExpiredSessions (now : Z) (db : Database) : Database :=
  {| users := users db;
     passkeys := passkeys db;
     webauthn_sessions :=
       filter (fun s => expires_after (s_expires_at s) now) (webauthn_sessions db);
     passkeys_seq := passkeys_seq db |}.

End Db.

(** * @simplewebauthn/server as the sources use it *)
Module Simplewebauthn.
Import Base64Url.

(** The rejections the specification names for a ceremony. *)
Inductive CeremonyError :=
| ChallengeMismatch
| OriginMismatch
| RpIdMismatch
| InvalidSignature
| CounterRegression.

(** What a [throw] carries: [new Error(message)], an error of the SQLite
    driver, or a rejection raised by the library. *)
Inductive Exception :=
| Error (message : string)
| SqliteException (e : Db.SqliteError)
| CeremonyException (e : CeremonyError).

(** The payloads of a client response. On the wire they are base64url text
    over JSON and CBOR; only the library decodes them, so the model keeps
    their decoded form. *)
Record ClientData := {
  cd_type : string;
  cd_challenge : string;
  cd_origin : string
}.

Record AuthenticatorData := {
  rpIdHash : list byte;
  signCount : Z;
  backupState : bool
}.

Record AttestationObject := {
  fmt : string;
  authData : AuthenticatorData;
  aaguid : string;
  credentialId : list byte;
  credentialPublicKey : list byte;
  attStmt : list byte
}.

Record AuthenticatorAttestationResponseJSON := {
  attestationObject : AttestationObject;
  reg_clientDataJSON : ClientData;
  transports : option (list string)
}.

(** The body of a registration-verify request: the credential the browser
    created, and the [challenge] field the page adds to the same object. *)
Record RegistrationResponseJSON := {
  reg_id : string;
  reg_rawId : string;
  reg_type : string;
  reg_response : AuthenticatorAttestationResponseJSON;
  reg_challenge : option string
}.

Record AuthenticatorAssertionResponseJSON := {
  authenticatorData : AuthenticatorData;
  clientDataJSON : ClientData;
  signature : list byte;
  userHandle : option string
}.

(** The body of an authentication-verify request. *)
Record AuthenticationResponseJSON := {
  auth_id : string;
  auth_rawId : string;
  auth_type : string;
  auth_response : AuthenticatorAssertionResponseJSON;
  auth_challenge : option string
}.

(** [WebAuthnCredential]. The sources hand [id] and [publicKey] to
    [Buffer.from] or fill them from a string or a byte array. *)
Record WebAuthnCredential := {
  cred_id : BufferSource;
  cred_publicKey : BufferSource;
  cred_counter : Z
}.

Record VerifyRegistrationResponseOpts := {
  vr_response : RegistrationResponseJSON;
  vr_expectedChallenge : string;
  vr_expectedOrigin : string;
  vr_expectedRPID : string
}.

(** The fields of [registrationInfo] the sources read. *)
Record RegistrationInfo := {
  ri_aaguid : string;
  ri_credential : WebAuthnCredential;
  ri_credentialBackedUp : bool
}.

Record VerifiedRegistrationResponse := {
  reg_verified : bool;
  registrationInfo : option RegistrationInfo
}.

Record VerifyAuthenticationResponseOpts := {
  va_response : AuthenticationResponseJSON;
  va_expectedChallenge : string;
  va_expectedOrigin : string;
  va_expectedRPID : string;
  va_credential : WebAuthnCredential
}.

(** The field of [authenticationInfo] the sources read. *)
Record AuthenticationInfo := { newCounter : Z }.

Record VerifiedAuthenticationResponse := {
  verified : bool;
  authenticationInfo : option AuthenticationInfo
}.

(** An entry of an exclude- or allow-list. *)
Record CredentialDescriptor := {
  desc_id : string;
  desc_type : string;
  desc_transports : option (list string)
}.

Record AuthenticatorSelection := {
  authenticatorAttachment : string;
  sel_userVerification : string;
  residentKey : string
}.

Record GenerateRegistrationOptionsOpts := {
  gr_rpName : string;
  gr_rpID : string;
  gr_userID : list byte;
  gr_userName : string;
  gr_userDisplayName : string;
  gr_attestationType : string;
  gr_authenticatorSelection : AuthenticatorSelection;
  gr_supportedAlgorithmIDs : list Z;
  gr_excludeCredentials : list CredentialDescriptor;
  gr_timeout : Z
}.

Record PublicKeyCredentialCreationOptionsJSON := {
  creation_challenge : string;
  creation_rpId : string;
  creation_excludeCredentials : list CredentialDescriptor;
  creation_attestation : string;
  creation_timeout : Z
}.

Record GenerateAuthenticationOptionsOpts := {
  ga_rpID : string;
  ga_allowCredentials : option (list CredentialDescriptor);
  ga_userVerification : string;
  ga_timeout : Z
}.

Record PublicKeyCredentialRequestOptionsJSON := {
  request_challenge : string;
  request_rpId : string;
  request_allowCredentials : option (list CredentialDescriptor);
  request_userVerification : string;
  request_timeout : Z
}.

(** The four functions the sources import. An [async] function that rejects
    is a function that throws at its [await]. *)
Record Server := {
  generateRegistrationOptions :
    GenerateRegistrationOptionsOpts -> Exception + PublicKeyCredentialCreationOptionsJSON;
  verifyRegistrationResponse :
    VerifyRegistrationResponseOpts -> Exception + VerifiedRegistrationResponse;
  generateAuthenticationOptions :
    GenerateAuthenticationOptionsOpts -> Exception + PublicKeyCredentialRequestOptionsJSON;
  verifyAuthenticationResponse :
    VerifyAuthenticationResponseOpts -> Exception + VerifiedAuthenticationResponse
}.

(** The cryptography under the library: the hash of a relying-party id and
    the two signature checks. *)
Record Crypto := {
  rpIdHashOf : string -> list byte;
  verifyAssertionSignature :
    list byte -> AuthenticatorData -> ClientData -> list byte -> bool;
  verifyAttestationSignature : AttestationObject -> ClientData -> bool
}.

Fixpoint bytes_eqb (a b : list byte) : bool :=
  match a, b with
  | [], [] => true
  | x :: a', y :: b' => Byte.eqb x y && bytes_eqb a' b'
  | _, _ => false
  end.

(** Modelled from the spec: the library's [verifyAuthenticationResponse] is
    not under src/. Section 4.3, [verifyAuthentication] steps 2 to 5: the
    challenge, the origin and the relying-party id are compared with the
    expected ones and the signature is checked under the stored key, a
    failure giving [verified = false] (section 7); then the counter check: a
    stored counter other than zero and a reported counter not above it is
    the rejection [CounterRegression], raised apart from a signature
    failure; otherwise the response is verified and reports the counter of
    the assertion. *)
Definition spec_verifyAuthenticationResponse (crypto : Crypto)
    (opts : VerifyAuthenticationResponseOpts)
  : Exception + VerifiedAuthenticationResponse :=
  let r := auth_response (va_response opts) in
  let cd := clientDataJSON r in
  let ad := authenticatorData r in
  let stored := cred_counter (va_credential opts) in
  let rejected := {| verified := false; authenticationInfo := None |} in
  if negb (String.eqb (cd_challenge cd) (va_expectedChallenge opts)) then inr rejected
  else if negb (String.eqb (cd_origin cd) (va_expectedOrigin opts)) then inr rejected
  else if negb (bytes_eqb (rpIdHash ad) (rpIdHashOf crypto (va_expectedRPID opts)))
  then inr rejected
  else if negb (verifyAssertionSignature crypto
                  (Buffer_from (cred_publicKey (va_credential opts))) ad cd (signature r))
  then inr rejected
  else if negb (stored =? 0) && (signCount ad <=? stored)
  then inl (CeremonyException CounterRegression)
  else inr {| verified := true;
              authenticationInfo := Some {| newCounter := signCount ad |} |}.

(** Modelled from the spec: the library's [verifyRegistrationResponse] is not
    under src/. Section 4.3, [verifyRegistration] steps 2 to 6: challenge,
    origin and relying-party id as above, the attestation signature (format
    [none] carries no signature to check), then the credential id, the
    public key, the initial counter and the backup flag are extracted from
    the attestation. *)
Definition spec_verifyRegistrationResponse (crypto : Crypto)
    (opts : VerifyRegistrationResponseOpts)
  : Exception + VerifiedRegistrationResponse :=
  let r := reg_response (vr_response opts) in
  let cd := reg_clientDataJSON r in
  let att := attestationObject r in
  let rejected := {| reg_verified := false; registrationInfo := None |} in
  if negb (String.eqb (cd_challenge cd) (vr_expectedChallenge opts)) then inr rejected
  else if negb (String.eqb (cd_origin cd) (vr_expectedOrigin opts)) then inr rejected
  else if negb (bytes_eqb (rpIdHash (authData att)) (rpIdHashOf crypto (vr_expectedRPID opts)))
  then inr rejected
  else if negb (String.eqb (fmt att) "none" || verifyAttestationSignature crypto att cd)
  then inr rejected
  else inr {| reg_verified := true;
              registrationInfo :=
                Some {| ri_aaguid := aaguid att;
                        ri_credential :=
                          {| cred_id := OfBytes (credentialId att);
                             cred_publicKey := OfBytes (credentialPublicKey att);
                             cred_counter := signCount (authData att) |};
                        ri_credentialBackedUp := backupState (authData att) |} |}.

(** Modelled from the spec: the library's [generateRegistrationOptions] is
    not under src/. Section 4.1: the options carry the relying party, the
    exclusion list, the attestation preference and the timeout it was given,
    and a fresh random challenge, here the one drawn for this call. *)
Definition spec_generateRegistrationOptions (fresh : string)
    (opts : GenerateRegistrationOptionsOpts)
  : Exception + PublicKeyCredentialCreationOptionsJSON :=
  inr {| creation_challenge := fresh;
         creation_rpId := gr_rpID opts;
         creation_excludeCredentials := gr_excludeCredentials opts;
         creation_attestation := gr_attestationType opts;
         creation_timeout := gr_timeout opts |}.

(** Modelled from the spec: the library's [generateAuthenticationOptions] is
    not under src/. Section 4.1: relying-party id, a fresh challenge, the
    user-verification preference, the timeout and the optional allow-list it
    was given. *)
Definition spec_generateAuthenticationOptions (fresh : string)
    (opts : GenerateAuthenticationOptionsOpts)
  : Exception + PublicKeyCredentialRequestOptionsJSON :=
  inr {| request_challenge := fresh;
         request_rpId := ga_rpID opts;
         request_allowCredentials := ga_allowCredentials opts;
         request_userVerification := ga_userVerification opts;
         request_timeout := ga_timeout opts |}.

(** The library of the specification, for one drawn challenge. *)
Definition spec_server (crypto : Crypto) (fresh : string) : Server :=
  {| generateRegistrationOptions := spec_generateRegistrationOptions fresh;
     verifyRegistrationResponse := spec_verifyRegistrationResponse crypto;
     generateAuthenticationOptions := spec_generateAuthenticationOptions fresh;
     verifyAuthenticationResponse := spec_verifyAuthenticationResponse crypto |}.

End Simplewebauthn.

(** * src/lib/webauthn.ts *)
Module Webauthn.
Import Base64Url Simplewebauthn.

(** The environment variables the configuration reads. *)
Record Env := {
  WEBAUTHN_RP_ID : option string;
  WEBAUTHN_RP_NAME : option string;
  WEBAUTHN_ORIGIN : option string;
  NODE_ENV : option string
}.

Definition production (env : Env) : bool :=
  match NODE_ENV env with
  | Some v => String.eqb v "production"
  | None => false
  end.

Definition RP_ID (env : Env) : string :=
  js_or (WEBAUTHN_RP_ID env) (if production env then "yourdomain.com" else "localhost").

Definition RP_NAME (env : Env) : string :=
  js_or (WEBAUTHN_RP_NAME env) "WebAuthn Test Demo".

Definition ORIGIN (env : Env) : string :=
  js_or (WEBAUTHN_ORIGIN env)
    (if production env then "https://yourdomain.com" else "http://localhost:3200").

Inductive LogType := log_info | log_success | log_warning | log_error.

(** An entry of the debugger: its step and its type. The timestamp, the
    message and the data copy are not modelled. *)
Record DebugLog := { step : string; type : LogType }.

Definition log (s : string) (t : LogType) : DebugLog := {| step := s; type := t |}.

(** The class [WebAuthnDebugger]: its state is the array [logs]. [log]
    pushes an entry, [getLogs] returns a copy, [clearLogs] empties the array,
    [getLastError] is [logs.filter(error).pop() || null]. *)
Definition WebAuthnDebugger : Type := list DebugLog.

Definition push (step : string) (type : LogType) (logs : WebAuthnDebugger)
  : WebAuthnDebugger :=
  logs ++ [log step type].

Definition getLogs (logs : WebAuthnDebugger) : list DebugLog := logs.

Definition clearLogs (logs : WebAuthnDebugger) : WebAuthnDebugger := [].

Definition is_error (entry : DebugLog) : bool :=
  match type entry with
  | log_error => true
  | _ => false
  end.

Definition getLastError (logs : WebAuthnDebugger) : option DebugLog :=
  match rev (filter is_error logs) with
  | entry :: _ => Some entry
  | [] => None
  end.

(** The module has one debugger, [webauthnDebugger], which every call of an
    exported function uses. Each function starts with [clearLogs], so what
    the debugger held before the call does not matter; but while a call
    awaits the library, other calls run, and each of their [clearLogs] and
    [log] acts on the same array. [meanwhile others logs] is the array when
    the call resumes, [logs] being the array when it was suspended. The two
    verification functions take these calls as a parameter; the two options
    generators, and the functions of the part_000 copy with its debugger,
    are given for a call during whose await no other call logs. *)
Inductive DebuggerCall :=
| OtherClearLogs
| OtherLog (step : string) (type : LogType).

Definition meanwhile (others : list DebuggerCall) (logs : WebAuthnDebugger)
  : WebAuthnDebugger :=
  fold_left (fun logs call =>
               match call with
               | OtherClearLogs => clearLogs logs
               | OtherLog step type => push step type logs
               end)
            others logs.

Definition descriptor (passkey : Db.Passkey) : CredentialDescriptor :=
  {| desc_id := Db.p_credential_id passkey;
     desc_type := "public-key";
     desc_transports := Db.p_transports passkey |}.

Record RegistrationOptionsResult := {
  ro_options : PublicKeyCredentialCreationOptionsJSON;
  ro_challenge : string;
  ro_debugLogs : list DebugLog
}.

Definition registrationOptions (env : Env) (userId : Z) (username : string)
    (existingPasskeys : list Db.Passkey) : GenerateRegistrationOptionsOpts :=
  {| gr_rpName := RP_NAME env;
     gr_rpID := RP_ID env;
     gr_userID := list_byte_of_string (DecimalString.NilZero.string_of_int (Z.to_int userId));
     gr_userName := username;
     gr_userDisplayName := username;
     gr_attestationType := "none";
     gr_authenticatorSelection :=
       {| authenticatorAttachment := "platform";
          sel_userVerification := "preferred";
          residentKey := "preferred" |};
     gr_supportedAlgorithmIDs := [-7; -257];
     gr_excludeCredentials := map descriptor existingPasskeys;
     gr_timeout := 60000 |}.

Definition generatePasskeyRegistrationOptions (lib : Server) (env : Env)
    (userId : Z) (username : string) (db : Db.Database)
  : Exception + RegistrationOptionsResult :=
  let existingPasskeys := Db.getPasskeysByUserId userId db in
  let options := registrationOptions env userId username existingPasskeys in
  match generateRegistrationOptions lib options with
  | inl e => inl e
  | inr registrationOptions =>
      inr {| ro_options := registrationOptions;
             ro_challenge := creation_challenge registrationOptions;
             ro_debugLogs :=
               [log "registration-start" log_info;
                log "registration-query" log_info;
                log "registration-options" log_info;
                log "registration-generated" log_success] |}
  end.

Record RegistrationResult := {
  rr_verified : bool;
  rr_credentialId : string;
  rr_debugLogs : list DebugLog
}.

Definition deviceTypeOf (aaguid : string) : string :=
  if String.eqb aaguid "00000000-0000-0000-0000-000000000000"
  then "platform"
  else "cross-platform".

(** The argument of [verifyRegistrationResponse]. *)
Definition registrationRequest (env : Env) (body : RegistrationResponseJSON)
    (expectedChallenge : string) : VerifyRegistrationResponseOpts :=
  {| vr_response := body;
     vr_expectedChallenge := expectedChallenge;
     vr_expectedOrigin := ORIGIN env;
     vr_expectedRPID := RP_ID env |}.

(** [verifyPasskeyRegistration], with what the other calls do to the
    debugger while this one awaits [verifyRegistrationResponse]. The entries
    logged after the await and [getLogs()] follow it without another
    suspension. *)
Definition verifyPasskeyRegistration_interleaved (others : list DebuggerCall)
    (lib : Server) (env : Env) (now : Z)
    (body : RegistrationResponseJSON) (expectedChallenge : string) (userId : Z)
    (db : Db.Database) : (Exception + RegistrationResult) * Db.Database :=
  let logs0 :=
    [log "verification-start" log_info;
     log "verification-input" log_info;
     log "verification-params" log_info] in
  match verifyRegistrationResponse lib (registrationRequest env body expectedChallenge) with
  | inl e => (inl e, db)
  | inr verification =>
      let logs1 :=
        meanwhile others logs0
              ++ [log "verification-result" log_info]
              ++ (if reg_verified verification then []
                  else [log "verification-failed" log_error]) in
      match reg_verified verification, registrationInfo verification with
      | true, Some info =>
          let credentialId := reg_id body in
          let deviceType := deviceTypeOf (ri_aaguid info) in
          let transports := transports (reg_response body) in
          match Db.createPasskey now userId credentialId
                  (encode (Buffer_from (cred_publicKey (ri_credential info))))
                  (cred_counter (ri_credential info))
                  deviceType
                  (if ri_credentialBackedUp info then 1 else 0)
                  transports db with
          | (inl e, db') => (inl (SqliteException e), db')
          | (inr _, db') =>
              (inr {| rr_verified := true;
                      rr_credentialId := reg_id body;
                      rr_debugLogs := logs1 ++ [log "verification-stored" log_success] |},
               db')
          end
      | v, _ =>
          (inr {| rr_verified := v;
                  rr_credentialId := if v then reg_id body else "";
                  rr_debugLogs := logs1 |},
           db)
      end
  end.

(** The call during whose await no other call uses the debugger. *)
Definition verifyPasskeyRegistration (lib : Server) (env : Env) (now : Z)
    (body : RegistrationResponseJSON) (expectedChallenge : string) (userId : Z)
    (db : Db.Database) : (Exception + RegistrationResult) * Db.Database :=
  verifyPasskeyRegistration_interleaved [] lib env now body expectedChallenge userId db.

Record AuthenticationOptionsResult := {
  ao_options : PublicKeyCredentialRequestOptionsJSON;
  ao_challenge : string;
  ao_debugLogs : list DebugLog
}.

(** The local [allowCredentials] and the log entry written while it is
    filled. A [username] that is [undefined] or empty is falsy. *)
Definition allowCredentialsFor (username : option string) (db : Db.Database)
  : list CredentialDescriptor * list DebugLog :=
  match username with
  | Some name =>
      if truthy name then
        match Db.getUserByUsername name db with
        | Some user =>
            (map descriptor (Db.getPasskeysByUserId (Db.u_id user) db),
             [log "auth-credentials" log_info])
        | None => ([], [])
        end
      else ([], [])
  | None => ([], [])
  end.

Definition authenticationOptions (env : Env) (allowCredentials : list CredentialDescriptor)
  : GenerateAuthenticationOptionsOpts :=
  {| ga_rpID := RP_ID env;
     ga_allowCredentials :=
       if (0 <? Z.of_nat (List.length allowCredentials)) then Some allowCredentials else None;
     ga_userVerification := "preferred";
     ga_timeout := 60000 |}.

Definition generatePasskeyAuthenticationOptions (lib : Server) (env : Env)
    (username : option string) (db : Db.Database)
  : Exception + AuthenticationOptionsResult :=
  let '(allowCredentials, found) := allowCredentialsFor username db in
  let options := authenticationOptions env allowCredentials in
  match generateAuthenticationOptions lib options with
  | inl e => inl e
  | inr authenticationOptions =>
      inr {| ao_options := authenticationOptions;
             ao_challenge := request_challenge authenticationOptions;
             ao_debugLogs :=
               [log "auth-start" log_info] ++ found
               ++ [log "auth-options" log_info; log "auth-generated" log_success] |}
  end.

Record AuthenticationResult := {
  ar_verified : bool;
  ar_userId : Z;
  ar_username : string;
  ar_debugLogs : list DebugLog
}.

(** The argument of [verifyAuthenticationResponse]: the stored identifier,
    the stored key decoded from its base64url text, the stored counter. *)
Definition authenticationRequest (env : Env) (body : AuthenticationResponseJSON)
    (expectedChallenge : string) (passkey : Db.PasskeyWithUser)
  : VerifyAuthenticationResponseOpts :=
  {| va_response := body;
     va_expectedChallenge := expectedChallenge;
     va_expectedOrigin := ORIGIN env;
     va_expectedRPID := RP_ID env;
     va_credential :=
       {| cred_id := OfString (Db.p_credential_id (Db.pk_row passkey));
          cred_publicKey := OfBytes (decode (Db.p_public_key (Db.pk_row passkey)));
          cred_counter := Db.p_counter (Db.pk_row passkey) |} |}.

(** [verifyPasskeyAuthentication], with what the other calls do to the
    debugger while this one awaits [verifyAuthenticationResponse]. *)
Definition verifyPasskeyAuthentication_interleaved (others : list DebuggerCall)
    (lib : Server) (env : Env) (now : Z)
    (body : AuthenticationResponseJSON) (expectedChallenge : string)
    (db : Db.Database) : (Exception + AuthenticationResult) * Db.Database :=
  let logs0 :=
    [log "auth-verify-start" log_info; log "auth-verify-input" log_info] in
  let credentialId := auth_id body in
  match Db.getPasskeyByCredentialId credentialId db with
  | None => (inl (Error "Passkey not found"), db)
  | Some passkey =>
      let logs1 :=
        logs0 ++ [log "auth-verify-found" log_info; log "auth-verify-params" log_info] in
      match verifyAuthenticationResponse lib
              (authenticationRequest env body expectedChallenge passkey) with
      | inl e => (inl e, db)
      | inr verification =>
          let logs2 :=
            meanwhile others logs1
                  ++ [log "auth-verify-result" log_info]
                  ++ (if verified verification then []
                      else [log "auth-verify-failed" log_error]) in
          match verified verification, authenticationInfo verification with
          | true, Some info =>
              let newCounter := newCounter info in
              let db' := Db.updatePasskeyCounter now newCounter credentialId db in
              (inr {| ar_verified := true;
                      ar_userId := Db.p_user_id (Db.pk_row passkey);
                      ar_username := Db.pk_username passkey;
                      ar_debugLogs := logs2 ++ [log "auth-verify-updated" log_success] |},
               db')
          | v, _ =>
              (inr {| ar_verified := v;
                      ar_userId := Db.p_user_id (Db.pk_row passkey);
                      ar_username := Db.pk_username passkey;
                      ar_debugLogs := logs2 |},
               db)
          end
      end
  end.

(** The call during whose await no other call uses the debugger. *)
Definition verifyPasskeyAuthentication (lib : Server) (env : Env) (now : Z)
    (body : AuthenticationResponseJSON) (expectedChallenge : string)
    (db : Db.Database) : (Exception + AuthenticationResult) * Db.Database :=
  verifyPasskeyAuthentication_interleaved [] lib env now body expectedChallenge db.

(** [buf.toString('hex')]: two lowercase digits per byte. *)
Definition hex_digit (n : Z) : ascii :=
  match String.get (Z.to_nat n) "0123456789abcdef" with
  | Some c => c
  | None => "0"%char
  end.

Fixpoint toHex (bs : list byte) : string :=
  match bs with
  | [] => ""
  | b :: rest =>
      String (hex_digit (byteZ b / 16)) (String (hex_digit (byteZ b mod 16)) (toHex rest))
  end.

(** [Buffer.from] of a string does not throw, so the [catch] is never
    entered. *)
Definition formatCredentialId (credentialId : string) : string :=
  toHex (decode credentialId).

End Webauthn.

(** * The second copy of the module: first file of unnamed/part_000 *)
Module Part000.
Import Base64Url Simplewebauthn.

Definition RP_ID (env : Webauthn.Env) : string :=
  if Webauthn.production env then "yourdomain.com" else "localhost".

Definition ORIGIN (env : Webauthn.Env) : string :=
  if Webauthn.production env then "https://yourdomain.com" else "http://localhost:3000".

Definition registrationRequest (env : Webauthn.Env) (body : RegistrationResponseJSON)
    (expectedChallenge : string) : VerifyRegistrationResponseOpts :=
  {| vr_response := body;
     vr_expectedChallenge := expectedChallenge;
     vr_expectedOrigin := ORIGIN env;
     vr_expectedRPID := RP_ID env |}.

(** A value bound to the [backed_up] parameter of a statement: webauthn.ts
    binds a number, this copy the JavaScript boolean. *)
Inductive JsValue :=
| JsNumber (n : Z)
| JsBoolean (b : bool).

(** [dbQueries.createPasskey.run(...)] of better-sqlite3. The statement binds
    numbers, strings, bigints, buffers and [null]; for any other argument, a
    boolean among them, [run] throws a [TypeError] before the INSERT is
    executed. *)
Definition run_createPasskey (now : Z) (user_id : Z) (credential_id public_key : string)
    (counter : Z) (device_type : string) (backed_up : JsValue)
    (transports : option (list string)) (db : Db.Database)
  : (Exception + unit) * Db.Database :=
  match backed_up with
  | JsBoolean _ =>
      (inl (Error "SQLite3 can only bind numbers, strings, bigints, buffers, and null"), db)
  | JsNumber n =>
      match Db.createPasskey now user_id credential_id public_key counter device_type n
              transports db with
      | (inl e, db') => (inl (SqliteException e), db')
      | (inr u, db') => (inr u, db')
      end
  end.

(** This copy checks against its own [ORIGIN] and [RP_ID] and writes fewer
    log entries. The statement it runs differs in three arguments: the
    identifier is the base64url text of
    [Buffer.from(registrationInfo.credential.id)], the counter is the literal
    [0], and [credentialBackedUp] is passed as the boolean it is. *)
Definition verifyPasskeyRegistration (lib : Server) (env : Webauthn.Env) (now : Z)
    (body : RegistrationResponseJSON) (expectedChallenge : string) (userId : Z)
    (db : Db.Database) : (Exception + Webauthn.RegistrationResult) * Db.Database :=
  let logs0 :=
    [Webauthn.log "verification-start" Webauthn.log_info;
     Webauthn.log "verification-input" Webauthn.log_info] in
  match verifyRegistrationResponse lib (registrationRequest env body expectedChallenge) with
  | inl e => (inl e, db)
  | inr verification =>
      let logs1 := logs0 ++ [Webauthn.log "verification-result" Webauthn.log_info] in
      match reg_verified verification, registrationInfo verification with
      | true, Some info =>
          let credentialId := encode (Buffer_from (cred_id (ri_credential info))) in
          let deviceType := Webauthn.deviceTypeOf (ri_aaguid info) in
          let transports := transports (reg_response body) in
          match run_createPasskey now userId credentialId
                  (encode (Buffer_from (cred_publicKey (ri_credential info))))
                  0
                  deviceType
                  (JsBoolean (ri_credentialBackedUp info))
                  transports db with
          | (inl e, db') => (inl e, db')
          | (inr _, db') =>
              (inr {| Webauthn.rr_verified := true;
                      Webauthn.rr_credentialId :=
                        encode (Buffer_from (cred_id (ri_credential info)));
                      Webauthn.rr_debugLogs :=
                        logs1 ++ [Webauthn.log "verification-stored" Webauthn.log_success] |},
               db')
          end
      | v, _ =>
          (inr {| Webauthn.rr_verified := v;
                  Webauthn.rr_credentialId := "";
                  Webauthn.rr_debugLogs := logs1 |},
           db)
      end
  end.

(** The argument of [verifyAuthenticationResponse] in this copy: the stored
    key is passed as the text the column holds. *)
Definition authenticationRequest (env : Webauthn.Env) (body : AuthenticationResponseJSON)
    (expectedChallenge : string) (passkey : Db.PasskeyWithUser)
  : VerifyAuthenticationResponseOpts :=
  {| va_response := body;
     va_expectedChallenge := expectedChallenge;
     va_expectedOrigin := ORIGIN env;
     va_expectedRPID := RP_ID env;
     va_credential :=
       {| cred_id := OfString (Db.p_credential_id (Db.pk_row passkey));
          cred_publicKey := OfString (Db.p_public_key (Db.pk_row passkey));
          cred_counter := Db.p_counter (Db.pk_row passkey) |} |}.

(** This copy looks the credential up under the re-encoded [body.rawId],
    and on a verified response stores the stored counter plus one. *)
Definition verifyPasskeyAuthentication (lib : Server) (env : Webauthn.Env) (now : Z)
    (body : AuthenticationResponseJSON) (expectedChallenge : string)
    (db : Db.Database) : (Exception + Webauthn.AuthenticationResult) * Db.Database :=
  let logs0 :=
    [Webauthn.log "auth-verify-start" Webauthn.log_info;
     Webauthn.log "auth-verify-input" Webauthn.log_info] in
  let credentialId := encode (decode (auth_rawId body)) in
  match Db.getPasskeyByCredentialId credentialId db with
  | None => (inl (Error "Passkey not found"), db)
  | Some passkey =>
      match verifyAuthenticationResponse lib
              (authenticationRequest env body expectedChallenge passkey) with
      | inl e => (inl e, db)
      | inr verification =>
          let logs1 :=
            logs0 ++ [Webauthn.log "auth-verify-found" Webauthn.log_info;
                      Webauthn.log "auth-verify-result" Webauthn.log_info] in
          if verified verification
          then
            (inr {| Webauthn.ar_verified := true;
                    Webauthn.ar_userId := Db.p_user_id (Db.pk_row passkey);
                    Webauthn.ar_username := Db.pk_username passkey;
                    Webauthn.ar_debugLogs :=
                      logs1 ++ [Webauthn.log "auth-verify-updated" Webauthn.log_success] |},
             Db.updatePasskeyCounter now (Db.p_counter (Db.pk_row passkey) + 1)
               credentialId db)
          else
            (inr {| Webauthn.ar_verified := false;
                    Webauthn.ar_userId := Db.p_user_id (Db.pk_row passkey);
                    Webauthn.ar_username := Db.pk_username passkey;
                    Webauthn.ar_debugLogs := logs1 |},
             db)
      end
  end.

End Part000.

(** * The route handlers: src/app/api *)
Module Routes.
Import Simplewebauthn.

(** The JSON bodies the handlers answer with. *)
Inductive Payload :=
| ErrorPayload (error : string) (details : option string)
| RegistrationOptionsPayload (options : PublicKeyCredentialCreationOptionsJSON)
    (challenge : string) (debugLogs : list Webauthn.DebugLog)
| RegistrationVerifyPayload (success : bool) (message : string) (credentialId : string)
    (debugLogs : list Webauthn.DebugLog)
| AuthenticationOptionsPayload (options : PublicKeyCredentialRequestOptionsJSON)
    (challenge : string) (debugLogs : list Webauthn.DebugLog)
| AuthenticationFailedPayload (message : string) (debugLogs : list Webauthn.DebugLog)
| AuthenticationPayload (message : string) (userId : Z) (username : string)
    (debugLogs : list Webauthn.DebugLog).

Record Response := {
  status : Z;
  payload : Payload;
  session_cookie : option string
}.

Definition json (status : Z) (payload : Payload) : Response :=
  {| status := status; payload := payload; session_cookie := None |}.

(** [error instanceof Error ? error.message : String(error)]. *)
Definition message_of (e : Exception) : string :=
  match e with
  | Error m => m
  | SqliteException (Db.SQLITE_CONSTRAINT_UNIQUE column) =>
      String.append "UNIQUE constraint failed: " column
  | SqliteException (Db.SQLITE_CONSTRAINT_PRIMARYKEY column) =>
      String.append "UNIQUE constraint failed: " column
  | SqliteException Db.SQLITE_CONSTRAINT_FOREIGNKEY => "FOREIGN KEY constraint failed"
  | CeremonyException ChallengeMismatch => "ChallengeMismatch"
  | CeremonyException OriginMismatch => "OriginMismatch"
  | CeremonyException RpIdMismatch => "RpIdMismatch"
  | CeremonyException InvalidSignature => "InvalidSignature"
  | CeremonyException CounterRegression => "CounterRegression"
  end.

(** A string field or cookie that passes the [if (!x)] guard. *)
Definition present (v : option string) : option string :=
  match v with
  | Some s => if truthy s then Some s else None
  | None => None
  end.

(** The session row a registration challenge is kept under. *)
Definition challenge_key (sessionId : string) : string :=
  String.append "challenge-" sessionId.

(** passkeys/register/options/route.ts. Every clock reading of one request
    is the same instant [now]. *)
Module RegisterOptions.

Definition POST (lib : Server) (env : Webauthn.Env) (now : Z)
    (cookie : option string) (username : option string) (db : Db.Database)
  : Response * Db.Database :=
  match present cookie with
  | None => (json 401 (ErrorPayload "Not authenticated" None), db)
  | Some sessionId =>
      match Db.getSession now sessionId db with
      | None => (json 401 (ErrorPayload "Invalid session" None), db)
      | Some session =>
          match present username with
          | None => (json 400 (ErrorPayload "Username is required" None), db)
          | Some username =>
              match Webauthn.generatePasskeyRegistrationOptions lib env
                      (Db.s_user_id (Db.ss_row session)) username db with
              | inl e =>
                  (json 500 (ErrorPayload "Failed to generate registration options"
                               (Some (message_of e))), db)
              | inr result =>
                  match Db.createSession now (challenge_key sessionId)
                          (Db.s_user_id (Db.ss_row session))
                          (Webauthn.ro_challenge result)
                          (Db.toISOString (now + 5 * 60 * 1000)) db with
                  | (inl e, db') =>
                      (json 500 (ErrorPayload "Failed to generate registration options"
                                   (Some (message_of (SqliteException e)))), db')
                  | (inr _, db') =>
                      (json 200 (RegistrationOptionsPayload
                                   (Webauthn.ro_options result)
                                   (Webauthn.ro_challenge result)
                                   (Webauthn.ro_debugLogs result)), db')
                  end
              end
          end
      end
  end.

End RegisterOptions.

(** passkeys/register/verify/route.ts. *)
Module RegisterVerify.

Definition POST (lib : Server) (env : Webauthn.Env) (now : Z)
    (cookie : option string) (body : RegistrationResponseJSON) (db : Db.Database)
  : Response * Db.Database :=
  match present cookie with
  | None => (json 401 (ErrorPayload "Not authenticated" None), db)
  | Some sessionId =>
      match Db.getSession now sessionId db with
      | None => (json 401 (ErrorPayload "Invalid session" None), db)
      | Some session =>
          match present (reg_challenge body) with
          | None => (json 400 (ErrorPayload "Challenge is required" None), db)
          | Some challenge =>
              match Db.getSession now (challenge_key sessionId) db with
              | None => (json 400 (ErrorPayload "Invalid challenge" None), db)
              | Some challengeSession =>
                  if negb (String.eqb (Db.s_challenge (Db.ss_row challengeSession)) challenge)
                  then (json 400 (ErrorPayload "Invalid challenge" None), db)
                  else
                    match Webauthn.verifyPasskeyRegistration lib env now body challenge
                            (Db.s_user_id (Db.ss_row session)) db with
                    | (inl e, db') =>
                        (json 500 (ErrorPayload "Failed to verify passkey registration"
                                     (Some (message_of e))), db')
                    | (inr result, db') =>
                        (json 200 (RegistrationVerifyPayload
                                     (Webauthn.rr_verified result)
                                     (if Webauthn.rr_verified result
                                      then "Passkey registered successfully"
                                      else "Passkey registration failed")
                                     (Webauthn.rr_credentialId result)
                                     (Webauthn.rr_debugLogs result)),
                         Db.deleteSession (challenge_key sessionId) db')
                    end
              end
          end
      end
  end.

End RegisterVerify.

(** The authentication-options handler (second file of
    passkeys/delete/route.ts): the challenge is returned to the client and
    not stored. *)
Module AuthenticateOptions.

Definition POST (lib : Server) (env : Webauthn.Env) (username : option string)
    (db : Db.Database) : Response * Db.Database :=
  match Webauthn.generatePasskeyAuthenticationOptions lib env username db with
  | inl e =>
      (json 500 (ErrorPayload "Failed to generate authentication options"
                   (Some (message_of e))), db)
  | inr result =>
      (json 200 (AuthenticationOptionsPayload
                   (Webauthn.ao_options result)
                   (Webauthn.ao_challenge result)
                   (Webauthn.ao_debugLogs result)), db)
  end.

End AuthenticateOptions.

(** passkeys/authenticate/verify/route.ts. [sessionId] is the value
    [generateSessionId()] draws for this request. *)
Module AuthenticateVerify.

Definition POST (lib : Server) (env : Webauthn.Env) (now : Z) (sessionId : string)
    (body : AuthenticationResponseJSON) (db : Db.Database)
  : Response * Db.Database :=
  match present (auth_challenge body) with
  | None => (json 400 (ErrorPayload "Challenge is required" None), db)
  | Some challenge =>
      match Webauthn.verifyPasskeyAuthentication lib env now body challenge db with
      | (inl e, db') =>
          (json 500 (ErrorPayload "Failed to verify passkey authentication"
                       (Some (message_of e))), db')
      | (inr result, db') =>
          if negb (Webauthn.ar_verified result)
          then (json 200 (AuthenticationFailedPayload "Passkey authentication failed"
                            (Webauthn.ar_debugLogs result)), db')
          else
            match Db.createSession now sessionId (Webauthn.ar_userId result)
                    "passkey-login"
                    (Db.toISOString (now + 24 * 60 * 60 * 1000)) db' with
            | (inl e, db'') =>
                (json 500 (ErrorPayload "Failed to verify passkey authentication"
                             (Some (message_of (SqliteException e)))), db'')
            | (inr _, db'') =>
                ({| status := 200;
                    payload := AuthenticationPayload "Passkey authentication successful"
                                 (Webauthn.ar_userId result)
                                 (Webauthn.ar_username result)
                                 (Webauthn.ar_debugLogs result);
                    session_cookie := Some sessionId |}, db'')
            end
      end
  end.

(** [success: true] in the answer. *)
Definition succeeded (r : Response) : bool :=
  match payload r with
  | AuthenticationPayload _ _ _ _ => true
  | _ => false
  end.

End AuthenticateVerify.

(** The account and passkey-management handlers answer with bodies of their
    own, and some of them change the [session] cookie. *)
Record PasskeyView := {
  pv_id : Z;
  pv_credentialId : string;
  pv_deviceType : string;
  pv_backedUp : Z;
  pv_transports : option (list string);
  pv_createdAt : Z;
  pv_lastUsedAt : option Z
}.

Inductive AccountPayload :=
| AccountError (error : string)
| AccountMessage (message : string)
| LoginPayload (message : string) (userId : Z) (username : string)
| SessionUser (user : option (Z * string))
| PasskeyList (passkeys : list PasskeyView).

Inductive CookieChange :=
| CookieKept
| CookieSet (value : string)
| CookieDeleted.

Record AccountResponse := {
  a_status : Z;
  a_payload : AccountPayload;
  a_cookie : CookieChange
}.

Definition answer (status : Z) (payload : AccountPayload) : AccountResponse :=
  {| a_status := status; a_payload := payload; a_cookie := CookieKept |}.

(** auth/login/route.ts. [verifyPassword] is [bcrypt.compareSync], and
    [sessionId] the value [generateSessionId()] draws for this request. *)
Module Login.

Definition POST (verifyPassword : string -> string -> bool) (now : Z) (sessionId : string)
    (username password : option string) (db : Db.Database)
  : AccountResponse * Db.Database :=
  match present username, present password with
  | Some username, Some password =>
      match Db.getUserByUsername username db with
      | None => (answer 401 (AccountError "Invalid username or password"), db)
      | Some user =>
          if negb (verifyPassword password (Db.u_password_hash user))
          then (answer 401 (AccountError "Invalid username or password"), db)
          else
            match Db.createSession now sessionId (Db.u_id user) "password-login"
                    (Db.toISOString (now + 24 * 60 * 60 * 1000)) db with
            | (inl e, db') => (answer 500 (AccountError "Internal server error"), db')
            | (inr _, db') =>
                ({| a_status := 200;
                    a_payload := LoginPayload "Login successful" (Db.u_id user)
                                   (Db.u_username user);
                    a_cookie := CookieSet sessionId |}, db')
            end
      end
  | _, _ => (answer 400 (AccountError "Username and password are required"), db)
  end.

End Login.

(** auth/logout/route.ts. *)
Module Logout.

Definition POST (cookie : option string) (db : Db.Database)
  : AccountResponse * Db.Database :=
  ({| a_status := 200;
      a_payload := AccountMessage "Logged out successfully";
      a_cookie := CookieDeleted |},
   match present cookie with
   | Some sessionId => Db.deleteSession sessionId db
   | None => db
   end).

End Logout.

(** auth/session/route.ts. *)
Module SessionCheck.

Definition GET (now : Z) (cookie : option string) (db : Db.Database) : AccountResponse :=
  match present cookie with
  | None => answer 200 (SessionUser None)
  | Some sessionId =>
      match Db.getSession now sessionId db with
      | None => answer 200 (SessionUser None)
      | Some session =>
          answer 200 (SessionUser (Some (Db.s_user_id (Db.ss_row session),
                                         Db.ss_username session)))
      end
  end.

End SessionCheck.

(** passkeys/delete/route.ts. [passkeyId] is a number of the request body;
    a missing one and [0] are falsy. *)
Module Delete.

Definition DELETE (now : Z) (cookie : option string) (passkeyId : option Z)
    (db : Db.Database) : AccountResponse * Db.Database :=
  match present cookie with
  | None => (answer 401 (AccountError "Not authenticated"), db)
  | Some sessionId =>
      match Db.getSession now sessionId db with
      | None => (answer 401 (AccountError "Invalid session"), db)
      | Some session =>
          match passkeyId with
          | None => (answer 400 (AccountError "Passkey ID is required"), db)
          | Some passkeyId =>
              if passkeyId =? 0
              then (answer 400 (AccountError "Passkey ID is required"), db)
              else
                let '(changes, db') :=
                  Db.deletePasskey passkeyId (Db.s_user_id (Db.ss_row session)) db in
                if changes =? 0
                then (answer 404 (AccountError "Passkey not found or not owned by user"), db')
                else (answer 200 (AccountMessage "Passkey deleted successfully"), db')
          end
      end
  end.

End Delete.

(** The handler that lists the passkeys of the session's user
    (unnamed/part_001). *)
Module ListPasskeys.

Definition view (passkey : Db.Passkey) : PasskeyView :=
  {| pv_id := Db.p_id passkey;
     pv_credentialId := Db.p_credential_id passkey;
     pv_deviceType := Db.p_device_type passkey;
     pv_backedUp := Db.p_backed_up passkey;
     pv_transports := Db.p_transports passkey;
     pv_createdAt := Db.p_created_at passkey;
     pv_lastUsedAt := Db.p_last_used_at passkey |}.

Definition GET (now : Z) (cookie : option string) (db : Db.Database) : AccountResponse :=
  match present cookie with
  | None => answer 401 (AccountError "Not authenticated")
  | Some sessionId =>
      match Db.getSession now sessionId db with
      | None => answer 401 (AccountError "Invalid session")
      | Some session =>
          answer 200
            (PasskeyList (map view (Db.getPasskeysByUserId
                                      (Db.s_user_id (Db.ss_row session)) db)))
      end
  end.

End ListPasskeys.

End Routes.

(** * Notions the properties are stated with *)
Module Properties.
Import Base64Url Simplewebauthn.

(** The outcome of a verification counts as verified when it is a result
    whose [verified] is true; a thrown exception does not. *)
Definition is_verified (outcome : Exception + Webauthn.AuthenticationResult) : bool :=
  match outcome with
  | inr result => Webauthn.ar_verified result
  | inl _ => false
  end.

(** An assertion that passes every check before the counter check: the
    challenge, the origin, the relying-party id and the signature under the
    stored key. *)
Definition assertion_checks_pass (crypto : Crypto) (env : Webauthn.Env)
    (body : AuthenticationResponseJSON) (expectedChallenge : string)
    (passkey : Db.PasskeyWithUser) : bool :=
  let r := auth_response body in
  String.eqb (cd_challenge (clientDataJSON r)) expectedChallenge
  && String.eqb (cd_origin (clientDataJSON r)) (Webauthn.ORIGIN env)
  && bytes_eqb (rpIdHash (authenticatorData r)) (rpIdHashOf crypto (Webauthn.RP_ID env))
  && verifyAssertionSignature crypto (decode (Db.p_public_key (Db.pk_row passkey)))
       (authenticatorData r) (clientDataJSON r) (signature r).

(** The counter an assertion reports. *)
Definition reported_counter (body : AuthenticationResponseJSON) : Z :=
  signCount (authenticatorData (auth_response body)).

(** The counter stored for a credential id. *)
Definition stored_counter (credentialId : string) (db : Db.Database) : option Z :=
  option_map (fun p => Db.p_counter (Db.pk_row p)) (Db.getPasskeyByCredentialId credentialId db).

(** The allow-list of the options, an absent list read as the empty one. *)
Definition allowList (options : PublicKeyCredentialRequestOptionsJSON)
  : list CredentialDescriptor :=
  match request_allowCredentials options with
  | Some l => l
  | None => []
  end.

(** The stored credentials of a user, in insertion order. *)
Definition credentials_of (user_id : Z) (db : Db.Database) : list Db.Passkey :=
  filter (fun p => Db.p_user_id p =? user_id) (Db.passkeys db).

(** The registration challenges of a user that [getSession] still returns
    at [now]: the rows of the user under a [challenge-] key. *)
Definition live_challenges (now : Z) (user_id : Z) (db : Db.Database) : list Db.Session :=
  filter (fun s => (Db.s_user_id s =? user_id)
                   && String.prefix "challenge-" (Db.s_id s)
                   && Db.expires_after (Db.s_expires_at s) now)
         (Db.webauthn_sessions db).

(** The rows kept under one session key. *)
Definition rows_with_id (id : string) (db : Db.Database) : list Db.Session :=
  filter (fun s => String.eqb (Db.s_id s) id) (Db.webauthn_sessions db).

(** The primary key of [webauthn_sessions] and the UNIQUE column of
    [passkeys], as invariants of a database. *)
Definition session_ids_unique (db : Db.Database) : Prop :=
  NoDup (map Db.s_id (Db.webauthn_sessions db)).

Definition credential_ids_unique (db : Db.Database) : Prop :=
  NoDup (map Db.p_credential_id (Db.passkeys db)).

(** The row ids of [passkeys] are pairwise distinct and none is above the
    AUTOINCREMENT sequence. *)
Definition passkey_ids_fresh (db : Db.Database) : Prop :=
  NoDup (map Db.p_id (Db.passkeys db))
  /\ forall p, In p (Db.passkeys db) -> Db.p_id p <= Db.passkeys_seq db.

(** The foreign keys: every passkey and every session belongs to a stored
    user. *)
Definition owners_exist (db : Db.Database) : Prop :=
  (forall p, In p (Db.passkeys db) ->
     existsb (fun u => Db.u_id u =? Db.p_user_id p) (Db.users db) = true)
  /\ (forall s, In s (Db.webauthn_sessions db) ->
        existsb (fun u => Db.u_id u =? Db.s_user_id s) (Db.users db) = true).

(** The constraints of the schema, as one invariant. *)
Definition well_formed (db : Db.Database) : Prop :=
  credential_ids_unique db
  /\ session_ids_unique db
  /\ passkey_ids_fresh db
  /\ owners_exist db.

(** A row of [passkeys] is stored under a credential id. *)
Definition stored (credentialId : string) (db : Db.Database) : bool :=
  existsb (fun p => String.eqb (Db.p_credential_id p) credentialId) (Db.passkeys db).

(** A 6-bit value is read back from the character written for it, which is
    not the padding character. *)
Definition sextet_ok (n : Z) : bool :=
  match Base64Url.sextet_value (Base64Url.sextet n) with
  | Some m => (m =? n) && negb (Ascii.eqb (Base64Url.sextet n) "="%char)
  | None => false
  end.

(** The request carries the cookie of a session that [getSession] returns. *)
Definition authenticated (now : Z) (cookie : option string) (db : Db.Database) : bool :=
  match Routes.present cookie with
  | Some sessionId =>
      match Db.getSession now sessionId db with
      | Some _ => true
      | None => false
      end
  | None => false
  end.

End Properties.

(** * Concrete stores and requests *)
Module Scenario.
Import Base64Url Simplewebauthn.

(** A development deployment (no variable set) and a production one. *)
Definition dev : Webauthn.Env :=
  {| Webauthn.WEBAUTHN_RP_ID := None;
     Webauthn.WEBAUTHN_RP_NAME := None;
     Webauthn.WEBAUTHN_ORIGIN := None;
     Webauthn.NODE_ENV := None |}.

Definition prod : Webauthn.Env :=
  {| Webauthn.WEBAUTHN_RP_ID := None;
     Webauthn.WEBAUTHN_RP_NAME := None;
     Webauthn.WEBAUTHN_ORIGIN := None;
     Webauthn.NODE_ENV := Some "production" |}.

(** A stand-in for the cryptography: the hash of a relying-party id is its
    text, an assertion signature is accepted when it repeats the key. *)
Definition crypto : Crypto :=
  {| rpIdHashOf := list_byte_of_string;
     verifyAssertionSignature := fun key _ _ sig => bytes_eqb sig key;
     verifyAttestationSignature := fun _ _ => false |}.

Definition lib (fresh : string) : Server := spec_server crypto fresh.

Definition t0 : Z := 1700000000000.

Definition alice : Db.User :=
  {| Db.u_id := 1; Db.u_username := "alice";
     Db.u_password_hash := "$2a$12$alice"; Db.u_created_at := 1699999000 |}.

Definition bob : Db.User :=
  {| Db.u_id := 2; Db.u_username := "bob";
     Db.u_password_hash := "$2a$12$bob"; Db.u_created_at := 1699999500 |}.

Definition empty : Db.Database :=
  {| Db.users := [alice; bob];
     Db.passkeys := [];
     Db.webauthn_sessions := [];
     Db.passkeys_seq := 0 |}.

Definition key : list byte := list_byte_of_string "alice-public-key".

(** The identifier [cred-1] in base64url. *)
Definition cred1 : string := encode (list_byte_of_string "cred-1").

(** Alice owns [cred1] with the given stored counter. *)
Definition with_counter (counter : Z) : Db.Database :=
  snd (Db.createPasskey t0 1 cred1 (encode key) counter "platform" 0
         (Some ["internal"]) empty).

(** An assertion of [cred1] for challenge [c-1] on the development origin,
    reporting the given counter. *)
Definition assertion (counter : Z) : AuthenticationResponseJSON :=
  {| auth_id := cred1;
     auth_rawId := cred1;
     auth_type := "public-key";
     auth_response :=
       {| authenticatorData :=
            {| rpIdHash := list_byte_of_string "localhost";
               signCount := counter;
               backupState := false |};
          clientDataJSON :=
            {| cd_type := "webauthn.get";
               cd_challenge := "c-1";
               cd_origin := "http://localhost:3200" |};
          signature := key;
          userHandle := None |};
     auth_challenge := Some "c-1" |}.

(** The same assertion with a signature that does not verify. *)
Definition forged (counter : Z) : AuthenticationResponseJSON :=
  {| auth_id := cred1;
     auth_rawId := cred1;
     auth_type := "public-key";
     auth_response :=
       {| authenticatorData := authenticatorData (auth_response (assertion counter));
          clientDataJSON := clientDataJSON (auth_response (assertion counter));
          signature := [];
          userHandle := None |};
     auth_challenge := Some "c-1" |}.

(** A registration response: the client declares [declared] as the id, the
    attestation (format [none]) carries the raw id [raw], the key of Alice
    and the initial counter. *)
Definition attestation (env : Webauthn.Env) (declared : string) (raw : list byte)
    (counter : Z) : RegistrationResponseJSON :=
  {| reg_id := declared;
     reg_rawId := declared;
     reg_type := "public-key";
     reg_response :=
       {| attestationObject :=
            {| fmt := "none";
               authData :=
                 {| rpIdHash := list_byte_of_string (Webauthn.RP_ID env);
                    signCount := counter;
                    backupState := false |};
               aaguid := "00000000-0000-0000-0000-000000000000";
               credentialId := raw;
               credentialPublicKey := key;
               attStmt := [] |};
          reg_clientDataJSON :=
            {| cd_type := "webauthn.create";
               cd_challenge := "c-1";
               cd_origin := Webauthn.ORIGIN env |};
          transports := Some ["internal"] |};
     reg_challenge := Some "c-1" |}.

(** Alice logged in once (auth/login/route.ts stores the session row), and
    logged in from a second browser as well. *)
Definition logged_in : Db.Database :=
  snd (Db.createSession t0 "s1" 1 "password-login"
         (Db.toISOString (t0 + 24 * 60 * 60 * 1000)) empty).

Definition logged_in_twice : Db.Database :=
  snd (Db.createSession t0 "s2" 1 "password-login"
         (Db.toISOString (t0 + 24 * 60 * 60 * 1000)) logged_in).

(** Alice requested registration options in her first session. *)
Definition challenged : Db.Database :=
  snd (Routes.RegisterOptions.POST (lib "c-1") dev t0 (Some "s1") (Some "alice") logged_in).

(** Alice owns two credentials, registered a minute apart. *)
Definition two_credentials : Db.Database :=
  snd (Db.createPasskey (t0 + 60000) 1 "Y3JlZC0y" (encode key) 0 "cross-platform" 0
         None (with_counter 0)).

(** Alice, logged in twice, requests registration options in her first
    session and then in her second one. *)
Definition first_request : Routes.Response * Db.Database :=
  Routes.RegisterOptions.POST (lib "c-1") dev (t0 + 1000) (Some "s1") (Some "alice")
    logged_in_twice.

Definition second_request : Routes.Response * Db.Database :=
  Routes.RegisterOptions.POST (lib "c-2") dev (t0 + 2000) (Some "s2") (Some "alice")
    (snd first_request).

(** The registration response Alice sends for the challenge of [challenged],
    and the store after the handler has answered it. *)
Definition registration : RegistrationResponseJSON :=
  attestation dev cred1 (list_byte_of_string "cred-1") 7.

Definition registered : Routes.Response * Db.Database :=
  Routes.RegisterVerify.POST (lib "c-2") dev (t0 + 3000) (Some "s1") registration challenged.

(** Alice signs in with an authenticator that does not count: the stored
    counter and the reported one are both 0. *)
Definition first_login : Routes.Response * Db.Database :=
  Routes.AuthenticateVerify.POST (lib "c-2") dev (t0 + 1000) "login-1" (assertion 0)
    (with_counter 0).

(** A registration response in production whose attestation declares the
    initial counter 7, handled by each of the two implementations. *)
Definition counted : RegistrationResponseJSON :=
  attestation prod cred1 (list_byte_of_string "cred-1") 7.

Definition counted_by_webauthn
  : (Exception + Webauthn.RegistrationResult) * Db.Database :=
  Webauthn.verifyPasskeyRegistration (lib "c-2") prod t0 counted "c-1" 1 empty.


(** The store of [challenged] in which Bob already owns [cred1]. *)
Definition challenged_id_taken : Db.Database :=
  snd (Db.createPasskey t0 2 cred1 (encode key) 0 "platform" 0 None challenged).

(** Alice, logged in, owns [cred1] (row 1); Bob owns a second credential
    (row 2). *)
Definition shared : Db.Database :=
  snd (Db.createPasskey (t0 + 500) 2 "Ym9iLTE" (encode key) 0 "cross-platform" 0 None
         (snd (Db.createPasskey t0 1 cred1 (encode key) 5 "platform" 0
                 (Some ["internal"]) logged_in))).

End Scenario.

(** * Requests that can write *)
Module Traffic.
Import Simplewebauthn.

(** A request to one of the handlers that write to the store, together with
    what the environment supplies while it is served: the library, the
    configuration, the clock, the session id that is drawn, the password
    check. *)
Inductive Request :=
| LoginRequest (verifyPassword : string -> string -> bool) (now : Z) (sessionId : string)
    (username password : option string)
| LogoutRequest (cookie : option string)
| RegisterOptionsRequest (lib : Server) (env : Webauthn.Env) (now : Z)
    (cookie : option string) (username : option string)
| RegisterVerifyRequest (lib : Server) (env : Webauthn.Env) (now : Z)
    (cookie : option string) (body : RegistrationResponseJSON)
| AuthenticateVerifyRequest (lib : Server) (env : Webauthn.Env) (now : Z)
    (sessionId : string) (body : AuthenticationResponseJSON)
| DeleteRequest (now : Z) (cookie : option string) (passkeyId : option Z).

(** The store after the handler has served the request. *)
Definition handle (request : Request) (db : Db.Database) : Db.Database :=
  match request with
  | LoginRequest verifyPassword now sessionId username password =>
      snd (Routes.Login.POST verifyPassword now sessionId username password db)
  | LogoutRequest cookie => snd (Routes.Logout.POST cookie db)
  | RegisterOptionsRequest lib env now cookie username =>
      snd (Routes.RegisterOptions.POST lib env now cookie username db)
  | RegisterVerifyRequest lib env now cookie body =>
      snd (Routes.RegisterVerify.POST lib env now cookie body db)
  | AuthenticateVerifyRequest lib env now sessionId body =>
      snd (Routes.AuthenticateVerify.POST lib env now sessionId body db)
  | DeleteRequest now cookie passkeyId =>
      snd (Routes.Delete.DELETE now cookie passkeyId db)
  end.

(** Requests are served one after the other. *)
Definition serve (requests : list Request) (db : Db.Database) : Db.Database :=
  fold_left (fun db request => handle request db) requests db.

End Traffic.

(** * The text codec on known values *)
Import Base64Url Simplewebauthn Properties.

Example encode_foobar :
  encode (list_byte_of_string "foobar") = "Zm9vYmFy"
  /\ encode (list_byte_of_string "fooba") = "Zm9vYmE"
  /\ encode (list_byte_of_string "foob") = "Zm9vYg"
  /\ encode [xfb; xff] = "-_8".
Proof. vm_compute. repeat split; reflexivity. Qed.

Example decode_foobar :
  decode "Zm9vYmFy" = list_byte_of_string "foobar"
  /\ decode "Zm9vYmE" = list_byte_of_string "fooba"
  /\ decode "Zm9vYg==" = list_byte_of_string "foob"
  /\ decode "-_8" = [xfb; xff].
Proof. vm_compute. repeat split; reflexivity. Qed.

(** * Properties of the store *)

Lemma set_counter_credential_id now counter credential_id p :
  Db.p_credential_id (Db.set_counter now counter credential_id p) = Db.p_credential_id p.
Proof. unfold Db.set_counter. destruct (String.eqb _ _); reflexivity. Qed.

Lemma set_counter_user_id now counter credential_id p :
  Db.p_user_id (Db.set_counter now counter credential_id p) = Db.p_user_id p.
Proof. unfold Db.set_counter. destruct (String.eqb _ _); reflexivity. Qed.

Lemma set_counter_public_key now counter credential_id p :
  Db.p_public_key (Db.set_counter now counter credential_id p) = Db.p_public_key p.
Proof. unfold Db.set_counter. destruct (String.eqb _ _); reflexivity. Qed.

Lemma set_counter_hit now counter p :
  Db.p_counter (Db.set_counter now counter (Db.p_credential_id p) p) = counter.
Proof. unfold Db.set_counter. rewrite String.eqb_refl. reflexivity. Qed.

(** The UPDATE keeps every row where it is: a lookup by credential id finds
    the updated image of the row it found before. *)
Lemma find_after_update now counter credential_id k l :
  find (fun p => String.eqb (Db.p_credential_id p) k)
       (map (Db.set_counter now counter credential_id) l)
  = option_map (Db.set_counter now counter credential_id)
      (find (fun p => String.eqb (Db.p_credential_id p) k) l).
Proof.
  induction l as [|p l IH]; simpl; [reflexivity|].
  rewrite set_counter_credential_id.
  destruct (String.eqb (Db.p_credential_id p) k); [reflexivity | exact IH].
Qed.

Lemma find_credential_id k l p :
  find (fun p => String.eqb (Db.p_credential_id p) k) l = Some p ->
  Db.p_credential_id p = k.
Proof.
  intros H. apply find_some in H. destruct H as [_ H].
  now apply String.eqb_eq.
Qed.

Lemma lookup_credential_id k db passkey :
  Db.getPasskeyByCredentialId k db = Some passkey ->
  Db.p_credential_id (Db.pk_row passkey) = k.
Proof.
  unfold Db.getPasskeyByCredentialId.
  destruct (find _ _) as [p|] eqn:F; [|discriminate].
  destruct (Db.getUserById _ _); [|discriminate].
  intros [= <-]. simpl. eapply find_credential_id; eauto.
Qed.

(** After [updatePasskeyCounter] the credential is found again, with the
    same owner and the new counter. *)
Lemma lookup_after_update now counter k db passkey :
  Db.getPasskeyByCredentialId k db = Some passkey ->
  Db.getPasskeyByCredentialId k (Db.updatePasskeyCounter now counter k db)
  = Some {| Db.pk_row := Db.set_counter now counter k (Db.pk_row passkey);
            Db.pk_username := Db.pk_username passkey |}.
Proof.
  unfold Db.getPasskeyByCredentialId, Db.updatePasskeyCounter, Db.getUserById. simpl.
  rewrite find_after_update.
  destruct (find _ (Db.passkeys db)) as [p|] eqn:F; [|discriminate]. simpl.
  rewrite set_counter_user_id.
  destruct (find _ (Db.users db)) as [u|]; [|discriminate].
  intros [= <-]. reflexivity.
Qed.

Lemma stored_counter_after_update now counter k db passkey :
  Db.getPasskeyByCredentialId k db = Some passkey ->
  stored_counter k (Db.updatePasskeyCounter now counter k db) = Some counter.
Proof.
  intros H. unfold stored_counter.
  rewrite (lookup_after_update now counter k db passkey H). simpl.
  rewrite <- (lookup_credential_id _ _ _ H) at 1.
  now rewrite set_counter_hit.
Qed.

(** * Properties of verifyPasskeyAuthentication *)

(** What the function does once the credential is found and the library has
    answered. *)
Lemma authentication_found lib env now body expectedChallenge db passkey :
  Db.getPasskeyByCredentialId (auth_id body) db = Some passkey ->
  Webauthn.verifyPasskeyAuthentication lib env now body expectedChallenge db
  = match verifyAuthenticationResponse lib
            (Webauthn.authenticationRequest env body expectedChallenge passkey) with
    | inl e => (inl e, db)
    | inr verification =>
        let logs :=
          [Webauthn.log "auth-verify-start" Webauthn.log_info;
           Webauthn.log "auth-verify-input" Webauthn.log_info;
           Webauthn.log "auth-verify-found" Webauthn.log_info;
           Webauthn.log "auth-verify-params" Webauthn.log_info;
           Webauthn.log "auth-verify-result" Webauthn.log_info]
          ++ (if verified verification then []
              else [Webauthn.log "auth-verify-failed" Webauthn.log_error]) in
        match verified verification, authenticationInfo verification with
        | true, Some info =>
            (inr {| Webauthn.ar_verified := true;
                    Webauthn.ar_userId := Db.p_user_id (Db.pk_row passkey);
                    Webauthn.ar_username := Db.pk_username passkey;
                    Webauthn.ar_debugLogs :=
                      logs ++ [Webauthn.log "auth-verify-updated" Webauthn.log_success] |},
             Db.updatePasskeyCounter now (newCounter info) (auth_id body) db)
        | v, _ =>
            (inr {| Webauthn.ar_verified := v;
                    Webauthn.ar_userId := Db.p_user_id (Db.pk_row passkey);
                    Webauthn.ar_username := Db.pk_username passkey;
                    Webauthn.ar_debugLogs := logs |},
             db)
        end
    end.
Proof.
  intros H. unfold Webauthn.verifyPasskeyAuthentication,
    Webauthn.verifyPasskeyAuthentication_interleaved. rewrite H.
  destruct (verifyAuthenticationResponse lib _) as [e|v]; [reflexivity|].
  destruct (verified v), (authenticationInfo v); reflexivity.
Qed.

(** C10, as stated, fails: the credential of an assertion that reports the
    counter 3 is stored, with counter 5, for alice; the library throws
    [CounterRegression], the function throws it too, and no result, hence no
    owner, is returned. *)
Lemma C10_no_owner_when_the_library_throws :
  option_map Db.pk_username
    (Db.getPasskeyByCredentialId (auth_id (Scenario.assertion 3)) (Scenario.with_counter 5))
  = Some "alice"
  /\ Webauthn.verifyPasskeyAuthentication (Scenario.lib "c-2") Scenario.dev
       (Scenario.t0 + 1000) (Scenario.assertion 3) "c-1" (Scenario.with_counter 5)
     = (inl (CeremonyException CounterRegression), Scenario.with_counter 5).
Proof. vm_compute. split; reflexivity. Qed.

(** C10, amended: when the credential id of the response is in the store and
    the library returns a verification, whatever its [verified], the result
    carries the user id and the username of the owner of the stored passkey,
    and with [verified] false nothing is written; when the library throws,
    the function throws the same exception, writes nothing and returns no
    result. *)
Theorem C10_owner_returned_when_unverified lib env now body expectedChallenge db passkey :
  Db.getPasskeyByCredentialId (auth_id body) db = Some passkey ->
  (forall verification,
     verifyAuthenticationResponse lib
       (Webauthn.authenticationRequest env body expectedChallenge passkey)
     = inr verification ->
     exists result db',
       Webauthn.verifyPasskeyAuthentication lib env now body expectedChallenge db
       = (inr result, db')
       /\ Webauthn.ar_verified result = verified verification
       /\ Webauthn.ar_userId result = Db.p_user_id (Db.pk_row passkey)
       /\ Webauthn.ar_username result = Db.pk_username passkey
       /\ (verified verification = false -> db' = db))
  /\ (forall e,
        verifyAuthenticationResponse lib
          (Webauthn.authenticationRequest env body expectedChallenge passkey)
        = inl e ->
        Webauthn.verifyPasskeyAuthentication lib env now body expectedChallenge db
        = (inl e, db)).
Proof.
  intros Hfound. split.
  - intros verification Hlib.
    rewrite (authentication_found _ _ _ _ _ _ _ Hfound), Hlib. cbv zeta.
    destruct (verified verification) eqn:V, (authenticationInfo verification) as [info|];
      eexists; eexists; (split; [reflexivity|]); simpl; repeat split; congruence.
  - intros e Hlib.
    now rewrite (authentication_found _ _ _ _ _ _ _ Hfound), Hlib.
Qed.

Lemma C10_owner_returned_when_unverified_witness :
  (exists result db',
     Webauthn.verifyPasskeyAuthentication (Scenario.lib "c-2") Scenario.dev
       (Scenario.t0 + 1000) (Scenario.forged 6) "c-1" (Scenario.with_counter 5)
     = (inr result, db')
     /\ Webauthn.ar_verified result = false
     /\ Webauthn.ar_userId result = 1
     /\ Webauthn.ar_username result = "alice"
     /\ db' = Scenario.with_counter 5)
  /\ Webauthn.verifyPasskeyAuthentication (Scenario.lib "c-2") Scenario.dev
       (Scenario.t0 + 1000) (Scenario.assertion 3) "c-1" (Scenario.with_counter 5)
     = (inl (CeremonyException CounterRegression), Scenario.with_counter 5).
Proof.
  split.
  - edestruct (C10_owner_returned_when_unverified (Scenario.lib "c-2") Scenario.dev
                 (Scenario.t0 + 1000) (Scenario.forged 6) "c-1" (Scenario.with_counter 5))
      as [Hreturned _]; [vm_compute; reflexivity|].
    edestruct Hreturned as (result & db' & Hcall & Hverified & Hid & Hname & Hsame);
      [vm_compute; reflexivity|].
    exists result, db'. repeat split; try assumption. now apply Hsame.
  - edestruct (C10_owner_returned_when_unverified (Scenario.lib "c-2") Scenario.dev
                 (Scenario.t0 + 1000) (Scenario.assertion 3) "c-1" (Scenario.with_counter 5))
      as [_ Hthrown]; [vm_compute; reflexivity|].
    apply Hthrown. vm_compute. reflexivity.
Defined.

(** C2: a call whose outcome is not verified (an exception, or a result with
    [verified] false) leaves the database as it was, and the only write the
    function can make is the counter update after the library has verified
    the response. *)
Theorem C2_unverified_leaves_store lib env now body expectedChallenge db outcome db' :
  Webauthn.verifyPasskeyAuthentication lib env now body expectedChallenge db
  = (outcome, db') ->
  (is_verified outcome = false -> db' = db)
  /\ (db' = db
      \/ exists passkey verification info,
           Db.getPasskeyByCredentialId (auth_id body) db = Some passkey
           /\ verifyAuthenticationResponse lib
                (Webauthn.authenticationRequest env body expectedChallenge passkey)
              = inr verification
           /\ verified verification = true
           /\ authenticationInfo verification = Some info
           /\ is_verified outcome = true
           /\ db' = Db.updatePasskeyCounter now (newCounter info) (auth_id body) db).
Proof.
  destruct (Db.getPasskeyByCredentialId (auth_id body) db) as [passkey|] eqn:Hfound.
  - rewrite (authentication_found _ _ _ _ _ _ _ Hfound).
    destruct (verifyAuthenticationResponse lib _) as [e|v] eqn:Hlib.
    + intros [= <- <-]. split; [reflexivity | now left].
    + cbv zeta.
      destruct (verified v) eqn:V, (authenticationInfo v) as [info|] eqn:I;
        intros [= <- <-]; simpl.
      * split; [discriminate|]. right. exists passkey, v, info. repeat split; assumption.
      * split; [reflexivity | now left].
      * split; [reflexivity | now left].
      * split; [reflexivity | now left].
  - unfold Webauthn.verifyPasskeyAuthentication,
    Webauthn.verifyPasskeyAuthentication_interleaved. rewrite Hfound.
    intros [= <- <-]. split; [reflexivity | now left].
Qed.

Lemma C2_unverified_leaves_store_witness :
  snd (Webauthn.verifyPasskeyAuthentication (Scenario.lib "c-2") Scenario.dev
         (Scenario.t0 + 1000) (Scenario.forged 6) "c-1" (Scenario.with_counter 5))
  = Scenario.with_counter 5
  /\ snd (Webauthn.verifyPasskeyAuthentication (Scenario.lib "c-2") Scenario.dev
            (Scenario.t0 + 1000) (Scenario.assertion 5) "c-1" (Scenario.with_counter 5))
     = Scenario.with_counter 5.
Proof.
  split.
  - apply (C2_unverified_leaves_store (Scenario.lib "c-2") Scenario.dev
             (Scenario.t0 + 1000) (Scenario.forged 6) "c-1" (Scenario.with_counter 5)
             (fst (Webauthn.verifyPasskeyAuthentication (Scenario.lib "c-2") Scenario.dev
                     (Scenario.t0 + 1000) (Scenario.forged 6) "c-1"
                     (Scenario.with_counter 5))));
      [apply surjective_pairing | vm_compute; reflexivity].
  - apply (C2_unverified_leaves_store (Scenario.lib "c-2") Scenario.dev
             (Scenario.t0 + 1000) (Scenario.assertion 5) "c-1" (Scenario.with_counter 5)
             (fst (Webauthn.verifyPasskeyAuthentication (Scenario.lib "c-2") Scenario.dev
                     (Scenario.t0 + 1000) (Scenario.assertion 5) "c-1"
                     (Scenario.with_counter 5))));
      [apply surjective_pairing | vm_compute; reflexivity].
Defined.

(** The verifier of the specification on an assertion that passes the checks
    before the counter check. *)
Lemma spec_verification_when_checks_pass crypto env body expectedChallenge passkey :
  assertion_checks_pass crypto env body expectedChallenge passkey = true ->
  spec_verifyAuthenticationResponse crypto
    (Webauthn.authenticationRequest env body expectedChallenge passkey)
  = if negb (Db.p_counter (Db.pk_row passkey) =? 0)
       && (reported_counter body <=? Db.p_counter (Db.pk_row passkey))
    then inl (CeremonyException CounterRegression)
    else inr {| verified := true;
                authenticationInfo := Some {| newCounter := reported_counter body |} |}.
Proof.
  unfold assertion_checks_pass, spec_verifyAuthenticationResponse, reported_counter.
  intros H. apply andb_prop in H as [H Hsig]. apply andb_prop in H as [H Hrp].
  apply andb_prop in H as [Hch Hor]. simpl.
  rewrite Hch, Hor, Hrp, Hsig. reflexivity.
Qed.

(** The verifier of the specification never verifies a reported counter that
    is not above a stored counter other than zero. *)
Lemma spec_verification_regression crypto opts :
  cred_counter (va_credential opts) <> 0 ->
  signCount (authenticatorData (auth_response (va_response opts)))
    <= cred_counter (va_credential opts) ->
  match spec_verifyAuthenticationResponse crypto opts with
  | inl _ => True
  | inr verification => verified verification = false
  end.
Proof.
  intros Hnz Hle. unfold spec_verifyAuthenticationResponse.
  repeat match goal with
         | |- context [if negb ?c then _ else _] => destruct c; simpl; try reflexivity
         end.
  apply Z.eqb_neq in Hnz. apply Z.leb_le in Hle. rewrite Hnz, Hle. simpl. exact I.
Qed.

(** C1: for a stored credential whose counter is not zero, an assertion that
    reports a counter at or below the stored one is not verified and leaves
    the database unchanged, and when it passes the earlier checks it fails
    with CounterRegression; an assertion that passes the checks and reports a
    counter above the stored one is verified, and the stored counter becomes
    the reported one. *)
Theorem C1_counter_check crypto fresh env now body expectedChallenge db passkey :
  Db.getPasskeyByCredentialId (auth_id body) db = Some passkey ->
  Db.p_counter (Db.pk_row passkey) <> 0 ->
  let call :=
    Webauthn.verifyPasskeyAuthentication (spec_server crypto fresh) env now body
      expectedChallenge db in
  (reported_counter body <= Db.p_counter (Db.pk_row passkey) ->
     is_verified (fst call) = false
     /\ snd call = db
     /\ (assertion_checks_pass crypto env body expectedChallenge passkey = true ->
         call = (inl (CeremonyException CounterRegression), db)))
  /\ (Db.p_counter (Db.pk_row passkey) < reported_counter body ->
      assertion_checks_pass crypto env body expectedChallenge passkey = true ->
      is_verified (fst call) = true
      /\ snd call = Db.updatePasskeyCounter now (reported_counter body) (auth_id body) db
      /\ stored_counter (auth_id body) (snd call) = Some (reported_counter body)).
Proof.
  intros Hfound Hnz call. subst call.
  rewrite (authentication_found _ _ _ _ _ _ _ Hfound). simpl verifyAuthenticationResponse.
  split.
  - intros Hle.
    pose proof (spec_verification_regression crypto
                  (Webauthn.authenticationRequest env body expectedChallenge passkey)
                  Hnz Hle) as Hreg.
    split; [|split].
    + destruct (spec_verifyAuthenticationResponse crypto _) as [e|v]; [reflexivity|].
      cbv zeta. rewrite Hreg. destruct (authenticationInfo v); reflexivity.
    + destruct (spec_verifyAuthenticationResponse crypto _) as [e|v]; [reflexivity|].
      cbv zeta. rewrite Hreg. destruct (authenticationInfo v); reflexivity.
    + intros Hpass. rewrite (spec_verification_when_checks_pass _ _ _ _ _ Hpass).
      apply Z.eqb_neq in Hnz. apply Z.leb_le in Hle. rewrite Hnz, Hle. reflexivity.
  - intros Hgt Hpass. rewrite (spec_verification_when_checks_pass _ _ _ _ _ Hpass).
    assert ((reported_counter body <=? Db.p_counter (Db.pk_row passkey)) = false) as ->
      by (apply Z.leb_gt; exact Hgt).
    rewrite andb_false_r. simpl.
    split; [reflexivity | split; [reflexivity|]].
    eapply stored_counter_after_update; eassumption.
Qed.

Lemma C1_counter_check_witness :
  Webauthn.verifyPasskeyAuthentication (Scenario.lib "c-2") Scenario.dev
    (Scenario.t0 + 1000) (Scenario.assertion 3) "c-1" (Scenario.with_counter 5)
  = (inl (CeremonyException CounterRegression), Scenario.with_counter 5)
  /\ Webauthn.verifyPasskeyAuthentication (Scenario.lib "c-2") Scenario.dev
       (Scenario.t0 + 1000) (Scenario.assertion 5) "c-1" (Scenario.with_counter 5)
     = (inl (CeremonyException CounterRegression), Scenario.with_counter 5)
  /\ stored_counter Scenario.cred1
       (snd (Webauthn.verifyPasskeyAuthentication (Scenario.lib "c-2") Scenario.dev
               (Scenario.t0 + 1000) (Scenario.assertion 6) "c-1" (Scenario.with_counter 5)))
     = Some 6.
Proof.
  split; [|split].
  - eapply (C1_counter_check Scenario.crypto "c-2" Scenario.dev (Scenario.t0 + 1000)
              (Scenario.assertion 3) "c-1" (Scenario.with_counter 5));
      [vm_compute; reflexivity | vm_compute; discriminate
       | vm_compute; discriminate | vm_compute; reflexivity].
  - eapply (C1_counter_check Scenario.crypto "c-2" Scenario.dev (Scenario.t0 + 1000)
              (Scenario.assertion 5) "c-1" (Scenario.with_counter 5));
      [vm_compute; reflexivity | vm_compute; discriminate
       | vm_compute; discriminate | vm_compute; reflexivity].
  - eapply (C1_counter_check Scenario.crypto "c-2" Scenario.dev (Scenario.t0 + 1000)
              (Scenario.assertion 6) "c-1" (Scenario.with_counter 5));
      [vm_compute; reflexivity | vm_compute; discriminate
       | vm_compute; reflexivity | vm_compute; reflexivity].
Defined.

(** * Properties of createPasskey *)

Lemma existsb_false_not_in {A} (f : A -> string) k l :
  existsb (fun x => String.eqb (f x) k) l = false -> ~ In k (map f l).
Proof.
  induction l as [|x l IH]; simpl; [tauto|].
  intros H. apply orb_false_elim in H as [Hx Hl].
  intros [E|I]; [|exact (IH Hl I)].
  rewrite E, String.eqb_refl in Hx. discriminate.
Qed.

Lemma nodup_snoc {A} (l : list A) x : NoDup l -> ~ In x l -> NoDup (l ++ [x]).
Proof.
  intros Hl Hx. induction Hl as [|y l Hy Hl IH]; simpl.
  - constructor; [tauto | constructor].
  - constructor.
    + rewrite in_app_iff. simpl. intros [I|[E|[]]]; [tauto|].
      subst. apply Hx. now left.
    + apply IH. intros I. apply Hx. now right.
Qed.

(** While a row with the identifier is stored, the INSERT is refused. *)
Lemma createPasskey_duplicate now user_id credential_id public_key counter device_type
    backed_up transports db :
  existsb (fun p => String.eqb (Db.p_credential_id p) credential_id) (Db.passkeys db) = true ->
  Db.createPasskey now user_id credential_id public_key counter device_type backed_up
    transports db
  = (inl (Db.SQLITE_CONSTRAINT_UNIQUE "passkeys.credential_id"), db).
Proof. intros H. unfold Db.createPasskey. rewrite H. reflexivity. Qed.

(** An INSERT that succeeds appended exactly one row, with the values it was
    given. *)
Lemma createPasskey_inserted now user_id credential_id public_key counter device_type
    backed_up transports db out db' :
  Db.createPasskey now user_id credential_id public_key counter device_type backed_up
    transports db = (inr out, db') ->
  existsb (fun p => String.eqb (Db.p_credential_id p) credential_id) (Db.passkeys db) = false
  /\ exists row,
       Db.passkeys db' = Db.passkeys db ++ [row]
       /\ Db.p_credential_id row = credential_id
       /\ Db.p_user_id row = user_id
       /\ Db.p_counter row = counter
       /\ Db.users db' = Db.users db
       /\ Db.webauthn_sessions db' = Db.webauthn_sessions db.
Proof.
  unfold Db.createPasskey.
  destruct (existsb _ (Db.passkeys db)) eqn:U; [discriminate|].
  destruct (negb _); [discriminate|].
  intros [= _ <-]. split; [reflexivity|].
  eexists. simpl. repeat split; reflexivity.
Qed.

(** C6: once an INSERT of a credential id has succeeded, every further
    [createPasskey] with that id, for the same or any other user and whatever
    the other values, fails on the UNIQUE constraint and leaves the database
    unchanged; the stored credential ids stay pairwise distinct. *)
Theorem C6_duplicate_credential_rejected now1 user1 credential_id key1 counter1 type1
    backed1 transports1 db out db1 :
  Db.createPasskey now1 user1 credential_id key1 counter1 type1 backed1 transports1 db
  = (inr out, db1) ->
  (forall now2 user2 key2 counter2 type2 backed2 transports2,
     Db.createPasskey now2 user2 credential_id key2 counter2 type2 backed2 transports2 db1
     = (inl (Db.SQLITE_CONSTRAINT_UNIQUE "passkeys.credential_id"), db1))
  /\ (credential_ids_unique db -> credential_ids_unique db1).
Proof.
  intros H. apply createPasskey_inserted in H as (Hnew & row & Hrows & Hid & _).
  split.
  - intros. apply createPasskey_duplicate.
    rewrite Hrows, existsb_app. simpl. rewrite Hid, String.eqb_refl.
    now rewrite orb_true_r.
  - unfold credential_ids_unique. intros Hu.
    rewrite Hrows, map_app. simpl. apply nodup_snoc; [exact Hu|].
    rewrite Hid. now apply existsb_false_not_in.
Qed.

Lemma C6_duplicate_credential_rejected_witness :
  Db.createPasskey (Scenario.t0 + 5000) 1 Scenario.cred1 "AAAA" 9 "cross-platform" 1 None
    (Scenario.with_counter 5)
  = (inl (Db.SQLITE_CONSTRAINT_UNIQUE "passkeys.credential_id"), Scenario.with_counter 5)
  /\ Db.createPasskey (Scenario.t0 + 5000) 2 Scenario.cred1 "AAAA" 9 "cross-platform" 1 None
       (Scenario.with_counter 5)
     = (inl (Db.SQLITE_CONSTRAINT_UNIQUE "passkeys.credential_id"), Scenario.with_counter 5).
Proof.
  assert (Db.createPasskey Scenario.t0 1 Scenario.cred1 (encode Scenario.key) 5 "platform" 0
            (Some ["internal"]) Scenario.empty = (inr tt, Scenario.with_counter 5)) as H
    by (vm_compute; reflexivity).
  split; apply (C6_duplicate_credential_rejected _ _ _ _ _ _ _ _ _ _ _ H).
Defined.

(** * Properties of generatePasskeyAuthenticationOptions *)

Lemma insert_desc_perm p l : Permutation (Db.insert_desc p l) (p :: l).
Proof.
  induction l as [|q l IH]; simpl; [reflexivity|].
  destruct (Db.p_created_at q <? Db.p_created_at p); [reflexivity|].
  rewrite IH. apply perm_swap.
Qed.

Lemma order_by_created_at_desc_perm l : Permutation (Db.order_by_created_at_desc l) l.
Proof.
  unfold Db.order_by_created_at_desc.
  induction l as [|p l IH]; simpl; [reflexivity|].
  rewrite insert_desc_perm. now constructor.
Qed.

(** The query returns the stored credentials of the user, each once. *)
Lemma getPasskeysByUserId_perm user_id db :
  Permutation (Db.getPasskeysByUserId user_id db) (credentials_of user_id db).
Proof. apply order_by_created_at_desc_perm. Qed.

(** The options handed to the library keep a list that is not empty and drop
    an empty one. *)
Lemma allowList_of_options fresh env allowCredentials :
  exists options,
    spec_generateAuthenticationOptions fresh
      (Webauthn.authenticationOptions env allowCredentials) = inr options
    /\ allowList options = allowCredentials
    /\ (request_allowCredentials options = None <-> allowCredentials = []).
Proof.
  eexists. split; [reflexivity|]. unfold allowList. simpl.
  destruct allowCredentials as [|d l]; simpl.
  - split; [reflexivity | tauto].
  - split; [reflexivity | split; discriminate].
Qed.

(** [users.username] is UNIQUE: the lookup by name returns the stored user
    of that name, and nothing for a name no user has. *)
Lemma getUserByUsername_unique user db :
  In user (Db.users db) ->
  NoDup (map Db.u_username (Db.users db)) ->
  Db.getUserByUsername (Db.u_username user) db = Some user.
Proof.
  unfold Db.getUserByUsername.
  induction (Db.users db) as [|u l IH]; intros Hin Hnodup; [destruct Hin|].
  simpl in Hnodup. inversion Hnodup as [|x xs Hfresh Hrest]; subst.
  simpl. destruct (String.eqb (Db.u_username u) (Db.u_username user)) eqn:E.
  - destruct Hin as [->|Hin]; [reflexivity|].
    apply String.eqb_eq in E. exfalso. apply Hfresh. rewrite E.
    now apply in_map.
  - destruct Hin as [->|Hin]; [now rewrite String.eqb_refl in E|].
    now apply IH.
Qed.

Lemma getUserByUsername_absent name db :
  ~ In name (map Db.u_username (Db.users db)) ->
  Db.getUserByUsername name db = None.
Proof.
  unfold Db.getUserByUsername. intros Habsent.
  destruct (find _ (Db.users db)) as [u|] eqn:F; [|reflexivity].
  apply find_some in F as [Hin E]. apply String.eqb_eq in E.
  exfalso. apply Habsent. rewrite <- E. now apply in_map.
Qed.

(** C7: with the username of a stored user, the allow-list handed to the
    library lists exactly the stored credentials of that user, each under
    its stored id with its stored transports, and the options returned are
    the library's answer to it; with the library of the specification, which
    passes the list on, the returned options list exactly these credentials
    (as many entries as credentials; without any credential the list is
    absent). With no username, an empty one, or one that no user has, no
    allow-list is handed over and the returned options carry none. *)
Theorem C7_allow_list env db :
  (forall user,
     In user (Db.users db) ->
     NoDup (map Db.u_username (Db.users db)) ->
     truthy (Db.u_username user) = true ->
     (forall lib,
        exists opts,
          ga_rpID opts = Webauthn.RP_ID env
          /\ Permutation
               (match ga_allowCredentials opts with Some l => l | None => [] end)
               (map (fun p => {| desc_id := Db.p_credential_id p;
                                 desc_type := "public-key";
                                 desc_transports := Db.p_transports p |})
                    (filter (fun p => Db.p_user_id p =? Db.u_id user) (Db.passkeys db)))
          /\ (forall result,
                Webauthn.generatePasskeyAuthenticationOptions lib env
                  (Some (Db.u_username user)) db = inr result ->
                generateAuthenticationOptions lib opts = inr (Webauthn.ao_options result))
          /\ (forall options,
                generateAuthenticationOptions lib opts = inr options ->
                exists result,
                  Webauthn.generatePasskeyAuthenticationOptions lib env
                    (Some (Db.u_username user)) db = inr result
                  /\ Webauthn.ao_options result = options))
     /\ (forall crypto fresh,
           exists result,
             Webauthn.generatePasskeyAuthenticationOptions (spec_server crypto fresh) env
               (Some (Db.u_username user)) db = inr result
             /\ Permutation (allowList (Webauthn.ao_options result))
                  (map (fun p => {| desc_id := Db.p_credential_id p;
                                    desc_type := "public-key";
                                    desc_transports := Db.p_transports p |})
                       (filter (fun p => Db.p_user_id p =? Db.u_id user) (Db.passkeys db)))
             /\ List.length (allowList (Webauthn.ao_options result))
                = List.length
                    (filter (fun p => Db.p_user_id p =? Db.u_id user) (Db.passkeys db))
             /\ (request_allowCredentials (Webauthn.ao_options result) = None
                 <-> filter (fun p => Db.p_user_id p =? Db.u_id user) (Db.passkeys db)
                     = [])))
  /\ (forall username,
        username = None
        \/ (exists name,
              username = Some name
              /\ (truthy name = false
                  \/ ~ In name (map Db.u_username (Db.users db)))) ->
        (forall lib result,
           Webauthn.generatePasskeyAuthenticationOptions lib env username db = inr result ->
           exists opts,
             ga_allowCredentials opts = None
             /\ generateAuthenticationOptions lib opts = inr (Webauthn.ao_options result))
        /\ (forall crypto fresh,
              exists result,
                Webauthn.generatePasskeyAuthenticationOptions (spec_server crypto fresh) env
                  username db = inr result
                /\ request_allowCredentials (Webauthn.ao_options result) = None)).
Proof.
  split.
  - intros user Hin Hunique Htruthy.
    pose proof (getUserByUsername_unique user db Hin Hunique) as Huser.
    pose proof (getPasskeysByUserId_perm (Db.u_id user) db) as P.
    unfold credentials_of in P.
    assert (Webauthn.allowCredentialsFor (Some (Db.u_username user)) db
            = (map (fun p => {| desc_id := Db.p_credential_id p;
                                desc_type := "public-key";
                                desc_transports := Db.p_transports p |})
                   (Db.getPasskeysByUserId (Db.u_id user) db),
               [Webauthn.log "auth-credentials" Webauthn.log_info])) as Hlist.
    { unfold Webauthn.allowCredentialsFor. now rewrite Htruthy, Huser. }
    split.
    + intros lib.
      exists (Webauthn.authenticationOptions env
                (map (fun p => {| desc_id := Db.p_credential_id p;
                                  desc_type := "public-key";
                                  desc_transports := Db.p_transports p |})
                     (Db.getPasskeysByUserId (Db.u_id user) db))).
      split; [reflexivity|]. split; [|split].
      * simpl. rewrite length_map.
        destruct (Db.getPasskeysByUserId (Db.u_id user) db) as [|q l] eqn:Q.
        -- simpl. apply Permutation_nil in P. now rewrite P.
        -- cbn [List.length Z.of_nat Z.ltb Z.compare]. simpl Z.ltb.
           now apply Permutation_map.
      * intros result.
        unfold Webauthn.generatePasskeyAuthenticationOptions. rewrite Hlist.
        destruct (generateAuthenticationOptions lib _) as [e|o]; [discriminate|].
        now intros [= <-].
      * intros options Hlib.
        unfold Webauthn.generatePasskeyAuthenticationOptions. rewrite Hlist, Hlib.
        eexists. split; reflexivity.
    + intros crypto fresh.
      unfold Webauthn.generatePasskeyAuthenticationOptions. rewrite Hlist.
      simpl generateAuthenticationOptions.
      destruct (allowList_of_options fresh env
                  (map (fun p => {| desc_id := Db.p_credential_id p;
                                    desc_type := "public-key";
                                    desc_transports := Db.p_transports p |})
                       (Db.getPasskeysByUserId (Db.u_id user) db)))
        as (options & E & A & N).
      rewrite E. eexists. split; [reflexivity|]. simpl Webauthn.ao_options.
      rewrite A. split; [|split].
      * now apply Permutation_map.
      * rewrite length_map. now apply Permutation_length.
      * rewrite N. split.
        -- intros E0. apply map_eq_nil in E0. rewrite E0 in P.
           now apply Permutation_nil.
        -- intros E0. rewrite E0 in P. apply Permutation_sym, Permutation_nil in P.
           now rewrite P.
  - intros username H.
    assert (Webauthn.allowCredentialsFor username db = ([], [])) as Hnone.
    { unfold Webauthn.allowCredentialsFor.
      destruct H as [-> | (name & -> & [Hfalsy | Hnouser])]; [reflexivity | |].
      - now rewrite Hfalsy.
      - rewrite (getUserByUsername_absent name db Hnouser). now destruct (truthy name). }
    split.
    + intros lib result.
      unfold Webauthn.generatePasskeyAuthenticationOptions. rewrite Hnone.
      destruct (generateAuthenticationOptions lib _) as [e|o] eqn:Hlib; [discriminate|].
      intros [= <-]. eexists. split; [|exact Hlib]. reflexivity.
    + intros crypto fresh.
      unfold Webauthn.generatePasskeyAuthenticationOptions. rewrite Hnone.
      simpl. eexists. split; reflexivity.
Qed.

Lemma C7_allow_list_witness :
  (exists result,
     Webauthn.generatePasskeyAuthenticationOptions (Scenario.lib "c-9") Scenario.dev
       (Some "alice") Scenario.two_credentials = inr result
     /\ Permutation (allowList (Webauthn.ao_options result))
          [{| desc_id := "Y3JlZC0x"; desc_type := "public-key";
              desc_transports := Some ["internal"] |};
           {| desc_id := "Y3JlZC0y"; desc_type := "public-key";
              desc_transports := None |}]
     /\ List.length (allowList (Webauthn.ao_options result)) = 2%nat)
  /\ (exists result,
        Webauthn.generatePasskeyAuthenticationOptions (Scenario.lib "c-9") Scenario.dev
          None Scenario.two_credentials = inr result
        /\ request_allowCredentials (Webauthn.ao_options result) = None)
  /\ (exists result,
        Webauthn.generatePasskeyAuthenticationOptions (Scenario.lib "c-9") Scenario.dev
          (Some "carol") Scenario.two_credentials = inr result
        /\ request_allowCredentials (Webauthn.ao_options result) = None).
Proof.
  destruct (C7_allow_list Scenario.dev Scenario.two_credentials) as [Hknown Hunknown].
  split; [|split].
  - destruct (Hknown Scenario.alice) as [_ Hspec].
    + simpl. now left.
    + simpl. repeat constructor; simpl; intuition discriminate.
    + reflexivity.
    + destruct (Hspec Scenario.crypto "c-9") as (result & E & P & L & _).
      exists result. split; [exact E|]. split; [exact P | exact L].
  - destruct (Hunknown None) as [_ Hspec]; [now left|].
    apply Hspec.
  - destruct (Hunknown (Some "carol")) as [_ Hspec].
    + right. exists "carol". split; [reflexivity|]. right.
      simpl. intuition discriminate.
    + apply Hspec.
Defined.

(** * Properties of the session table *)

Lemma find_after_delete (f : Db.Session -> bool) id l :
  find (fun s => String.eqb (Db.s_id s) id && f s)
       (filter (fun s => negb (String.eqb (Db.s_id s) id)) l) = None.
Proof.
  induction l as [|s l IH]; simpl; [reflexivity|].
  destruct (String.eqb (Db.s_id s) id) eqn:E; simpl; [exact IH|].
  rewrite E. exact IH.
Qed.

(** The expiry test compares dates: the challenge of [challenged], written
    with an expiry five minutes ahead, is still returned an hour later on the
    same day, and is not returned on the next day. *)
Example challenge_expires_with_the_day :
  option_map (fun s => Db.s_challenge (Db.ss_row s))
    (Db.getSession (Scenario.t0 + 60 * 60 * 1000) (Routes.challenge_key "s1")
       Scenario.challenged) = Some "c-1"
  /\ Db.getSession (Scenario.t0 + 2 * 60 * 60 * 1000) (Routes.challenge_key "s1")
       Scenario.challenged = None.
Proof. vm_compute. split; reflexivity. Qed.

(** A deleted session is not found any more, at any time. *)
Lemma getSession_after_delete now id db :
  Db.getSession now id (Db.deleteSession id db) = None.
Proof.
  unfold Db.getSession, Db.deleteSession. simpl.
  now rewrite find_after_delete.
Qed.

(** What an INSERT into [webauthn_sessions] that succeeds has checked and
    written. *)
Lemma createSession_inserted now id user_id challenge expires_at db out db' :
  Db.createSession now id user_id challenge expires_at db = (inr out, db') ->
  existsb (fun s => String.eqb (Db.s_id s) id) (Db.webauthn_sessions db) = false
  /\ existsb (fun u => Db.u_id u =? user_id) (Db.users db) = true
  /\ Db.users db' = Db.users db
  /\ Db.passkeys db' = Db.passkeys db
  /\ Db.webauthn_sessions db'
     = Db.webauthn_sessions db
       ++ [{| Db.s_id := id; Db.s_user_id := user_id; Db.s_challenge := challenge;
              Db.s_created_at := Db.CURRENT_TIMESTAMP now; Db.s_expires_at := expires_at |}].
Proof.
  unfold Db.createSession.
  destruct (existsb _ (Db.webauthn_sessions db)); [discriminate|].
  destruct (existsb _ (Db.users db)); [|discriminate]. simpl.
  intros [= _ <-]. repeat split; reflexivity.
Qed.

Lemma createSession_refused now id user_id challenge expires_at db e db' :
  Db.createSession now id user_id challenge expires_at db = (inl e, db') -> db' = db.
Proof.
  unfold Db.createSession.
  destruct (existsb _ (Db.webauthn_sessions db)); [now intros [= _ <-]|].
  destruct (negb _); [now intros [= _ <-] | discriminate].
Qed.

(** The primary key is kept by every INSERT. *)
Lemma createSession_unique now id user_id challenge expires_at db out db' :
  session_ids_unique db ->
  Db.createSession now id user_id challenge expires_at db = (out, db') ->
  session_ids_unique db'.
Proof.
  intros Hu H. destruct out as [e|u].
  - apply createSession_refused in H. now subst.
  - apply createSession_inserted in H as (Hnew & _ & _ & _ & Hrows).
    unfold session_ids_unique. rewrite Hrows, map_app. simpl.
    apply nodup_snoc; [exact Hu|]. now apply existsb_false_not_in.
Qed.

Lemma filter_absent id (l : list Db.Session) :
  ~ In id (map Db.s_id l) -> filter (fun s => String.eqb (Db.s_id s) id) l = [].
Proof.
  induction l as [|s l IH]; simpl; [reflexivity|].
  intros H. destruct (String.eqb (Db.s_id s) id) eqn:E.
  - apply String.eqb_eq in E. tauto.
  - apply IH. tauto.
Qed.

(** Under the primary key at most one row answers to an id. *)
Lemma at_most_one_row id db :
  session_ids_unique db -> (List.length (rows_with_id id db) <= 1)%nat.
Proof.
  unfold session_ids_unique, rows_with_id.
  induction (Db.webauthn_sessions db) as [|s l IH]; simpl; [lia|].
  intros H. inversion H as [|x xs Hnot Hrest]; subst.
  destruct (String.eqb (Db.s_id s) id) eqn:E.
  - apply String.eqb_eq in E. subst id. rewrite (filter_absent _ _ Hnot). simpl. lia.
  - now apply IH.
Qed.

(** An expiry at or after the current instant is after [CURRENT_TIMESTAMP]. *)
Lemma expires_after_later now d : 0 <= d -> Db.expires_after (now + d) now = true.
Proof.
  intros Hd. unfold Db.expires_after, Db.CURRENT_TIMESTAMP.
  apply Z.leb_le. rewrite Z.div_div by lia.
  change (1000 * 86400) with 86400000. apply Z.div_le_mono; lia.
Qed.

Lemma find_user_exists user_id (l : list Db.User) :
  existsb (fun u => Db.u_id u =? user_id) l = true ->
  exists u, find (fun u => Db.u_id u =? user_id) l = Some u.
Proof.
  induction l as [|u l IH]; simpl; [discriminate|].
  destruct (Db.u_id u =? user_id); [now exists u | exact IH].
Qed.

Lemma find_snoc (f : Db.Session -> bool) l s :
  existsb f l = false -> f s = true -> find f (l ++ [s]) = Some s.
Proof.
  induction l as [|x l IH]; simpl; intros Hl Hs; [now rewrite Hs|].
  apply orb_false_elim in Hl as [Hx Hl]. rewrite Hx. now apply IH.
Qed.

Lemma existsb_weaken (f g : Db.Session -> bool) l :
  existsb f l = false -> existsb (fun s => f s && g s) l = false.
Proof.
  induction l as [|x l IH]; simpl; [reflexivity|].
  intros H. apply orb_false_elim in H as [Hx Hl]. now rewrite Hx, IH.
Qed.

(** * Properties of the registration routes *)

(** C4: once the registration-verify handler has answered a response (it
    then has deleted the challenge session), the challenge session is not
    found at any later time, and the same request sent again is turned down
    before any verification: with 400 [Invalid challenge] while the login
    session is alive, with 401 once it is not. The database stays as it is. *)
Theorem C4_registration_replay_rejected lib lib' env now now' cookie body db
    success message credentialId logs db1 :
  Routes.RegisterVerify.POST lib env now cookie body db
  = (Routes.json 200 (Routes.RegistrationVerifyPayload success message credentialId logs),
     db1) ->
  exists sessionId,
    Routes.present cookie = Some sessionId
    /\ Db.getSession now' (Routes.challenge_key sessionId) db1 = None
    /\ Routes.RegisterVerify.POST lib' env now' cookie body db1
       = (match Db.getSession now' sessionId db1 with
          | Some _ => Routes.json 400 (Routes.ErrorPayload "Invalid challenge" None)
          | None => Routes.json 401 (Routes.ErrorPayload "Invalid session" None)
          end, db1).
Proof.
  unfold Routes.RegisterVerify.POST at 1. unfold Routes.json.
  destruct (Routes.present cookie) as [sessionId|] eqn:Hcookie; [|discriminate].
  destruct (Db.getSession now sessionId db); [|discriminate].
  destruct (Routes.present (reg_challenge body)) as [challenge|] eqn:Hchallenge;
    [|discriminate].
  destruct (Db.getSession now (Routes.challenge_key sessionId) db); [|discriminate].
  destruct (negb _); [discriminate|].
  destruct (Webauthn.verifyPasskeyRegistration _ _ _ _ _ _ _) as [[e|result] db'];
    [discriminate|].
  intros [= _ _ _ _ <-].
  exists sessionId. split; [reflexivity|]. split; [apply getSession_after_delete|].
  unfold Routes.RegisterVerify.POST. rewrite Hcookie.
  destruct (Db.getSession now' sessionId _); [|reflexivity].
  rewrite Hchallenge, getSession_after_delete. reflexivity.
Qed.

Lemma C4_registration_replay_rejected_witness :
  fst Scenario.registered
  = Routes.json 200
      (Routes.RegistrationVerifyPayload true "Passkey registered successfully"
         Scenario.cred1
         [Webauthn.log "verification-start" Webauthn.log_info;
          Webauthn.log "verification-input" Webauthn.log_info;
          Webauthn.log "verification-params" Webauthn.log_info;
          Webauthn.log "verification-result" Webauthn.log_info;
          Webauthn.log "verification-stored" Webauthn.log_success])
  /\ Routes.RegisterVerify.POST (Scenario.lib "c-3") Scenario.dev (Scenario.t0 + 4000)
       (Some "s1") Scenario.registration (snd Scenario.registered)
     = (Routes.json 400 (Routes.ErrorPayload "Invalid challenge" None),
        snd Scenario.registered).
Proof.
  split; [vm_compute; reflexivity|].
  destruct (C4_registration_replay_rejected (Scenario.lib "c-2") (Scenario.lib "c-3")
              Scenario.dev (Scenario.t0 + 3000) (Scenario.t0 + 4000) (Some "s1")
              Scenario.registration Scenario.challenged true
              "Passkey registered successfully" Scenario.cred1
              [Webauthn.log "verification-start" Webauthn.log_info;
               Webauthn.log "verification-input" Webauthn.log_info;
               Webauthn.log "verification-params" Webauthn.log_info;
               Webauthn.log "verification-result" Webauthn.log_info;
               Webauthn.log "verification-stored" Webauthn.log_success]
              (snd Scenario.registered))
    as (sessionId & Hcookie & _ & Hreplay); [vm_compute; reflexivity|].
  injection Hcookie as <-. rewrite Hreplay.
  assert (Db.getSession (Scenario.t0 + 4000) "s1" (snd Scenario.registered) <> None) as Hlive
    by (vm_compute; discriminate).
  destruct (Db.getSession (Scenario.t0 + 4000) "s1" (snd Scenario.registered));
    [reflexivity | contradiction].
Defined.

(** The handler deletes the challenge session after the verification has
    returned. When the verification throws (here the INSERT of an id that is
    taken), the answer is 500 and the challenge session stays. *)
Example challenge_kept_when_verification_throws :
  let answered :=
    Routes.RegisterVerify.POST (Scenario.lib "c-2") Scenario.dev (Scenario.t0 + 3000)
      (Some "s1") Scenario.registration Scenario.challenged_id_taken in
  fst answered
  = Routes.json 500
      (Routes.ErrorPayload "Failed to verify passkey registration"
         (Some "UNIQUE constraint failed: passkeys.credential_id"))
  /\ snd answered = Scenario.challenged_id_taken
  /\ option_map (fun s => Db.s_challenge (Db.ss_row s))
       (Db.getSession (Scenario.t0 + 4000) (Routes.challenge_key "s1") (snd answered))
     = Some "c-1".
Proof. vm_compute. repeat split; reflexivity. Qed.

(** The second request of a login session for registration options, sent
    while its challenge row is still stored, is answered with 500 and changes
    nothing: the INSERT under the same key is refused. *)
Example register_options_again_is_refused :
  Routes.RegisterOptions.POST (Scenario.lib "c-2") Scenario.dev (Scenario.t0 + 1000)
    (Some "s1") (Some "alice") Scenario.challenged
  = (Routes.json 500
       (Routes.ErrorPayload "Failed to generate registration options"
          (Some "UNIQUE constraint failed: webauthn_sessions.id")),
     Scenario.challenged).
Proof. vm_compute. reflexivity. Qed.

(** C5, as stated, fails: Alice, logged in from two browsers, requests
    registration options in both; each request is answered with 200 and
    afterwards two live challenges are stored for her. *)
Lemma C5_two_live_challenges_for_one_user :
  Routes.status (fst Scenario.first_request) = 200
  /\ Routes.status (fst Scenario.second_request) = 200
  /\ map Db.s_challenge (live_challenges (Scenario.t0 + 3000) 1 (snd Scenario.second_request))
     = ["c-1"; "c-2"].
Proof. vm_compute. repeat split; reflexivity. Qed.

(** C5, amended: the challenge of a login session is kept under the one key
    [challenge-<sessionId>]. A registration-options request keeps the session
    ids pairwise distinct, so no key ever holds two rows, and when it answers
    200 the challenge it returned is the live row under the key of the
    session that asked. *)
Theorem C5_one_challenge_per_login_session lib env now cookie username db response db' :
  session_ids_unique db ->
  Routes.RegisterOptions.POST lib env now cookie username db = (response, db') ->
  session_ids_unique db'
  /\ (forall sessionId,
        (List.length (rows_with_id (Routes.challenge_key sessionId) db') <= 1)%nat)
  /\ (Routes.status response = 200 ->
      exists sessionId stored,
        Routes.present cookie = Some sessionId
        /\ Db.getSession now (Routes.challenge_key sessionId) db' = Some stored
        /\ match Routes.payload response with
           | Routes.RegistrationOptionsPayload _ challenge _ =>
               Db.s_challenge (Db.ss_row stored) = challenge
           | _ => False
           end).
Proof.
  intros Hu H.
  assert (session_ids_unique db') as Hu'.
  { revert H. unfold Routes.RegisterOptions.POST.
    destruct (Routes.present cookie) as [sessionId|]; [|now intros [= _ <-]].
    destruct (Db.getSession now sessionId db) as [session|]; [|now intros [= _ <-]].
    destruct (Routes.present username) as [name|]; [|now intros [= _ <-]].
    destruct (Webauthn.generatePasskeyRegistrationOptions _ _ _ _ _) as [e|result];
      [now intros [= _ <-]|].
    destruct (Db.createSession _ _ _ _ _ _) as [[e|u] db''] eqn:CS;
      intros [= _ <-]; eapply createSession_unique; eauto. }
  split; [exact Hu' | split].
  - intros sessionId. now apply at_most_one_row.
  - revert H. unfold Routes.RegisterOptions.POST, Routes.json.
    destruct (Routes.present cookie) as [sessionId|]; [|intros [= <- _]; discriminate].
    destruct (Db.getSession now sessionId db) as [session|];
      [|intros [= <- _]; discriminate].
    destruct (Routes.present username) as [name|]; [|intros [= <- _]; discriminate].
    destruct (Webauthn.generatePasskeyRegistrationOptions _ _ _ _ _) as [e|result];
      [intros [= <- _]; discriminate|].
    destruct (Db.createSession _ _ _ _ _ _) as [[e|u] db''] eqn:CS;
      [intros [= <- _]; discriminate|].
    intros [= <- <-] _. simpl.
    apply createSession_inserted in CS as (Hnew & Huser & Husers & _ & Hrows).
    apply find_user_exists in Huser as [u' Hfind].
    exists sessionId. eexists. split; [reflexivity|].
    unfold Db.getSession, Db.getUserById. rewrite Hrows, Husers.
    rewrite (find_snoc _ _ _ (existsb_weaken _ _ _ Hnew)).
    + simpl. rewrite Hfind. split; reflexivity.
    + simpl. rewrite String.eqb_refl. unfold Db.toISOString.
      now rewrite expires_after_later by lia.
Qed.

Lemma C5_one_challenge_per_login_session_witness :
  (List.length (rows_with_id (Routes.challenge_key "s1") (snd Scenario.second_request)) <= 1)%nat
  /\ (List.length (rows_with_id (Routes.challenge_key "s2") (snd Scenario.second_request)) <= 1)%nat.
Proof.
  assert (session_ids_unique (snd Scenario.first_request)) as Hu.
  { vm_compute. repeat constructor; simpl; intuition discriminate. }
  destruct (C5_one_challenge_per_login_session (Scenario.lib "c-2") Scenario.dev
              (Scenario.t0 + 2000) (Some "s2") (Some "alice") (snd Scenario.first_request)
              (fst Scenario.second_request) (snd Scenario.second_request) Hu)
    as (_ & Hrows & _); [vm_compute; reflexivity|].
  split; apply Hrows.
Defined.

(** * Properties of the authentication route *)

Lemma lookup_same_tables k db db' :
  Db.users db' = Db.users db ->
  Db.passkeys db' = Db.passkeys db ->
  Db.getPasskeyByCredentialId k db' = Db.getPasskeyByCredentialId k db.
Proof.
  intros Hu Hp. unfold Db.getPasskeyByCredentialId, Db.getUserById.
  now rewrite Hu, Hp.
Qed.

Lemma createSession_ok now id user_id challenge expires_at db :
  existsb (fun s => String.eqb (Db.s_id s) id) (Db.webauthn_sessions db) = false ->
  existsb (fun u => Db.u_id u =? user_id) (Db.users db) = true ->
  exists db',
    Db.createSession now id user_id challenge expires_at db = (inr tt, db').
Proof.
  intros Hid Huser. unfold Db.createSession. rewrite Hid, Huser. simpl.
  eexists. reflexivity.
Qed.

(** The library is asked about the stored identifier, key and counter only. *)
Lemma authenticationRequest_same env body expectedChallenge passkey passkey' :
  Db.p_credential_id (Db.pk_row passkey') = Db.p_credential_id (Db.pk_row passkey) ->
  Db.p_public_key (Db.pk_row passkey') = Db.p_public_key (Db.pk_row passkey) ->
  Db.p_counter (Db.pk_row passkey') = Db.p_counter (Db.pk_row passkey) ->
  Webauthn.authenticationRequest env body expectedChallenge passkey'
  = Webauthn.authenticationRequest env body expectedChallenge passkey.
Proof.
  unfold Webauthn.authenticationRequest. intros -> -> ->. reflexivity.
Qed.

(** C3 fails on the code: the handler takes the expected challenge from the
    request itself and keeps no record of the challenges it has seen. An
    accepted request whose counter equals the stored one (an authenticator
    that does not count reports 0 every time) is accepted again when it is
    sent a second time, at any later instant, and opens another session. *)
Theorem C3_assertion_replay_accepted lib env now1 sid1 now2 sid2 body db r1 db1 :
  Routes.AuthenticateVerify.POST lib env now1 sid1 body db = (r1, db1) ->
  Routes.AuthenticateVerify.succeeded r1 = true ->
  stored_counter (auth_id body) db1 = stored_counter (auth_id body) db ->
  existsb (fun s => String.eqb (Db.s_id s) sid2) (Db.webauthn_sessions db1) = false ->
  exists r2 db2,
    Routes.AuthenticateVerify.POST lib env now2 sid2 body db1 = (r2, db2)
    /\ Routes.AuthenticateVerify.succeeded r2 = true
    /\ Routes.session_cookie r2 = Some sid2.
Proof.
  unfold Routes.AuthenticateVerify.POST at 1.
  destruct (Routes.present (auth_challenge body)) as [challenge|] eqn:Hch;
    [|intros [= <- _]; discriminate].
  destruct (Db.getPasskeyByCredentialId (auth_id body) db) as [passkey|] eqn:Hfound.
  2: { unfold Webauthn.verifyPasskeyAuthentication,
    Webauthn.verifyPasskeyAuthentication_interleaved. rewrite Hfound.
       intros [= <- _]. discriminate. }
  rewrite (authentication_found _ _ _ _ _ _ _ Hfound).
  destruct (verifyAuthenticationResponse lib _) as [e|v] eqn:Hlib;
    [intros [= <- _]; discriminate|].
  cbv zeta. destruct (verified v) eqn:V.
  2: { destruct (authenticationInfo v); simpl; intros [= <- _]; discriminate. }
  destruct (authenticationInfo v) as [info|] eqn:I; simpl.
  - destruct (Db.createSession _ _ _ _ _ _) as [[e|u] db''] eqn:CS;
      [intros [= <- _]; discriminate|].
    intros [= _ <-] _ Hcounter Hfresh.
    apply createSession_inserted in CS as (_ & Huser & Husers & Hpasskeys & _).
    pose proof (lookup_after_update now1 (newCounter info) _ _ _ Hfound) as Hfound'.
    rewrite <- (lookup_same_tables _ _ _ Husers Hpasskeys) in Hfound'.
    unfold stored_counter in Hcounter. rewrite Hfound', Hfound in Hcounter.
    simpl in Hcounter. injection Hcounter as Hcounter.
    unfold Routes.AuthenticateVerify.POST. rewrite Hch.
    rewrite (authentication_found _ _ _ _ _ _ _ Hfound').
    rewrite (authenticationRequest_same env body challenge passkey);
      [| apply set_counter_credential_id | apply set_counter_public_key | exact Hcounter].
    rewrite Hlib. cbv zeta. rewrite V, I.
    cbn [Webauthn.ar_verified Webauthn.ar_userId Webauthn.ar_username
         Webauthn.ar_debugLogs negb Db.pk_row Db.pk_username].
    rewrite set_counter_user_id.
    destruct (createSession_ok now2 sid2 (Db.p_user_id (Db.pk_row passkey)) "passkey-login"
                (Db.toISOString (now2 + 24 * 60 * 60 * 1000))
                (Db.updatePasskeyCounter now2 (newCounter info) (auth_id body) db''))
      as [db2 Hok].
    + exact Hfresh.
    + simpl. rewrite Husers. exact Huser.
    + rewrite Hok. eexists. eexists. repeat split.
  - destruct (Db.createSession _ _ _ _ _ _) as [[e|u] db''] eqn:CS;
      [intros [= <- _]; discriminate|].
    intros [= _ <-] _ _ Hfresh.
    apply createSession_inserted in CS as (_ & Huser & Husers & Hpasskeys & _).
    pose proof Hfound as Hfound'.
    rewrite <- (lookup_same_tables _ _ _ Husers Hpasskeys) in Hfound'.
    unfold Routes.AuthenticateVerify.POST. rewrite Hch.
    rewrite (authentication_found _ _ _ _ _ _ _ Hfound').
    rewrite Hlib. cbv zeta. rewrite V, I.
    cbn [Webauthn.ar_verified Webauthn.ar_userId Webauthn.ar_username
         Webauthn.ar_debugLogs negb Db.pk_row Db.pk_username].
    destruct (createSession_ok now2 sid2 (Db.p_user_id (Db.pk_row passkey)) "passkey-login"
                (Db.toISOString (now2 + 24 * 60 * 60 * 1000)) db'') as [db2 Hok].
    + exact Hfresh.
    + rewrite Husers. exact Huser.
    + rewrite Hok. eexists. eexists. repeat split.
Qed.

Lemma C3_assertion_replay_accepted_witness :
  Routes.AuthenticateVerify.succeeded (fst Scenario.first_login) = true
  /\ exists r2 db2,
       Routes.AuthenticateVerify.POST (Scenario.lib "c-3") Scenario.dev (Scenario.t0 + 2000)
         "login-2" (Scenario.assertion 0) (snd Scenario.first_login) = (r2, db2)
       /\ Routes.AuthenticateVerify.succeeded r2 = true
       /\ Routes.session_cookie r2 = Some "login-2".
Proof.
  split; [vm_compute; reflexivity|].
  apply (C3_assertion_replay_accepted (Scenario.lib "c-3") Scenario.dev
           (Scenario.t0 + 1000) "login-1" (Scenario.t0 + 2000) "login-2"
           (Scenario.assertion 0) (Scenario.with_counter 0)
           (fst Scenario.first_login) (snd Scenario.first_login));
    vm_compute; reflexivity.
Defined.

(** A challenge that came with a rejected request is as good as new: the
    forged assertion for challenge [c-1] is turned down, the genuine one for
    the same challenge is accepted afterwards. *)
Example challenge_accepted_after_a_rejection :
  let rejected :=
    Routes.AuthenticateVerify.POST (Scenario.lib "c-2") Scenario.dev (Scenario.t0 + 1000)
      "login-1" (Scenario.forged 0) (Scenario.with_counter 0) in
  Routes.AuthenticateVerify.succeeded (fst rejected) = false
  /\ Routes.AuthenticateVerify.succeeded
       (fst (Routes.AuthenticateVerify.POST (Scenario.lib "c-2") Scenario.dev
               (Scenario.t0 + 2000) "login-1" (Scenario.assertion 0) (snd rejected)))
     = true.
Proof. vm_compute. split; reflexivity. Qed.

(** * Properties of the two verifyPasskeyRegistration *)





(** The counter the library of the specification reports for a verified
    registration is the signature counter of the authenticator data in the
    attestation. *)
Lemma spec_registration_reports_attested_counter crypto opts verification info :
  spec_verifyRegistrationResponse crypto opts = inr verification ->
  registrationInfo verification = Some info ->
  cred_counter (ri_credential info)
  = signCount (authData (attestationObject (reg_response (vr_response opts)))).
Proof.
  unfold spec_verifyRegistrationResponse. cbv zeta.
  repeat match goal with
         | |- context [if ?c then _ else _] => destruct c
         end;
    intros [= <-]; simpl; intros [= <-]; reflexivity.
Qed.






(** * The base64url text of bytes reads back *)

Lemma land_shiftl_small x y k :
  0 <= k -> 0 <= y < 2 ^ k -> Z.land (Z.shiftl x k) y = 0.
Proof.
  intros Hk Hy. apply Z.bits_inj'. intros n Hn.
  rewrite Z.land_spec, Z.bits_0.
  destruct (Z.lt_ge_cases n k) as [Hlt|Hge].
  - rewrite (Z.shiftl_spec_low x k n Hlt). reflexivity.
  - rewrite andb_comm.
    assert (Z.testbit y n = false) as ->; [|reflexivity].
    destruct (Z.eq_dec y 0) as [->|Hy0]; [apply Z.bits_0|].
    apply Z.bits_above_log2; [lia|].
    apply Z.log2_lt_pow2; [lia|].
    apply Z.lt_le_trans with (2 ^ k); [lia|]. apply Z.pow_le_mono_r; lia.
Qed.

Lemma lor_shiftl_small x y k :
  0 <= k -> 0 <= y < 2 ^ k -> Z.lor (Z.shiftl x k) y = x * 2 ^ k + y.
Proof.
  intros Hk Hy. pose proof (land_shiftl_small x y k Hk Hy) as H0.
  rewrite <- (Z.lxor_lor _ _ H0), <- (Z.add_nocarry_lxor _ _ H0).
  now rewrite Z.shiftl_mul_pow2.
Qed.

Lemma sextet_value_sextet n :
  0 <= n < 64 ->
  sextet_value (sextet n) = Some n /\ Ascii.eqb (sextet n) "="%char = false.
Proof.
  intros Hn.
  assert (forallb Properties.sextet_ok (map Z.of_nat (seq 0 64)) = true) as Hall
    by (vm_compute; reflexivity).
  rewrite forallb_forall in Hall.
  assert (Properties.sextet_ok n = true) as Hok.
  { apply Hall. rewrite in_map_iff. exists (Z.to_nat n). split; [lia|].
    apply in_seq. lia. }
  unfold Properties.sextet_ok in Hok.
  destruct (sextet_value (sextet n)) as [m|]; [|discriminate].
  apply andb_prop in Hok as [Hm Hc]. apply Z.eqb_eq in Hm. subst m.
  split; [reflexivity|]. now apply negb_true_iff.
Qed.

Lemma decode_step v rest acc nbits :
  0 <= v < 64 ->
  decode_from (String (sextet v) rest) acc nbits
  = if 8 <=? nbits + 6
    then zbyte (Z.land (Z.shiftr (Z.lor (Z.shiftl acc 6) v) (nbits + 6 - 8)) 255)
           :: decode_from rest (Z.land (Z.lor (Z.shiftl acc 6) v) (Z.ones (nbits + 6 - 8)))
                (nbits + 6 - 8)
    else decode_from rest (Z.lor (Z.shiftl acc 6) v) (nbits + 6).
Proof.
  intros Hv. destruct (sextet_value_sextet v Hv) as [Hval Hpad].
  cbn [decode_from]. rewrite Hpad, Hval. reflexivity.
Qed.

Lemma byteZ_range b : 0 <= byteZ b < 256.
Proof.
  unfold byteZ. pose proof (Byte.to_N_bounded b). lia.
Qed.

Lemma zbyte_byteZ b : zbyte (byteZ b) = b.
Proof.
  unfold zbyte, byteZ. rewrite N2Z.id, Byte.of_to_N. reflexivity.
Qed.

Lemma land63 x : Z.land x 63 = x mod 64.
Proof. change 63 with (Z.ones 6). now rewrite Z.land_ones by lia. Qed.

Lemma sextet_land n : sextet (Z.land n 63) = sextet n.
Proof.
  unfold sextet. rewrite <- Z.land_assoc. reflexivity.
Qed.

Lemma decode_sextet v rest acc nbits :
  0 <= v < 64 -> 0 <= nbits ->
  decode_from (String (sextet v) rest) acc nbits
  = if 8 <=? nbits + 6
    then zbyte (((acc * 64 + v) / 2 ^ (nbits - 2)) mod 256)
           :: decode_from rest ((acc * 64 + v) mod 2 ^ (nbits - 2)) (nbits - 2)
    else decode_from rest (acc * 64 + v) (nbits + 6).
Proof.
  intros Hv Hn. rewrite decode_step by exact Hv.
  rewrite (lor_shiftl_small acc v 6) by lia. change (2 ^ 6) with 64.
  replace (nbits + 6 - 8) with (nbits - 2) by lia.
  destruct (8 <=? nbits + 6) eqn:E; [|reflexivity].
  apply Z.leb_le in E.
  rewrite Z.shiftr_div_pow2 by lia. rewrite Z.land_ones by lia.
  change 255 with (Z.ones 8). rewrite Z.land_ones by lia. reflexivity.
Qed.

Lemma sextet_mod n : sextet n = sextet (n mod 64).
Proof. rewrite <- land63. symmetry. apply sextet_land. Qed.

Lemma pack3 A B C :
  0 <= A -> 0 <= B < 256 -> 0 <= C < 256 ->
  Z.lor (Z.lor (Z.shiftl A 16) (Z.shiftl B 8)) C = A * 65536 + B * 256 + C.
Proof.
  intros HA HB HC.
  assert (Z.shiftl B 8 = B * 256) as E1
    by (rewrite Z.shiftl_mul_pow2 by lia; reflexivity).
  rewrite (lor_shiftl_small A (Z.shiftl B 8) 16)
    by (rewrite ?E1; change (2 ^ 16) with 65536; lia).
  rewrite E1. change (2 ^ 16) with 65536.
  replace (A * 65536 + B * 256) with (Z.shiftl (A * 256 + B) 8)
    by (rewrite Z.shiftl_mul_pow2 by lia; change (2 ^ 8) with 256; lia).
  rewrite lor_shiftl_small by (change (2 ^ 8) with 256; lia).
  rewrite Z.shiftl_mul_pow2 by lia. change (2 ^ 8) with 256. lia.
Qed.

Lemma decode_chunk3 a b c rest :
  decode_from (encode [a; b; c] ++ rest)%string 0 0 = a :: b :: c :: decode_from rest 0 0.
Proof.
  cbn [encode append]. cbv zeta.
  pose proof (byteZ_range a) as Ha. pose proof (byteZ_range b) as Hb.
  pose proof (byteZ_range c) as Hc.
  rewrite pack3 by lia.
  set (n := byteZ a * 65536 + byteZ b * 256 + byteZ c).
  rewrite !Z.shiftr_div_pow2 by lia.
  rewrite (sextet_mod (n / 2 ^ 18)), (sextet_mod (n / 2 ^ 12)), (sextet_mod (n / 2 ^ 6)),
    (sextet_mod n).
  rewrite decode_sextet by (try apply Z.mod_pos_bound; lia).
  change (8 <=? 0 + 6) with false. cbv iota. change (0 + 6) with 6.
  rewrite decode_sextet by (try apply Z.mod_pos_bound; lia).
  change (8 <=? 6 + 6) with true. cbv iota. change (6 - 2) with 4.
  rewrite decode_sextet by (try apply Z.mod_pos_bound; lia).
  change (8 <=? 4 + 6) with true. cbv iota. change (4 - 2) with 2.
  rewrite decode_sextet by (try apply Z.mod_pos_bound; lia).
  change (8 <=? 2 + 6) with true. cbv iota. change (2 - 2) with 0.
  change (2 ^ 18) with 262144. change (2 ^ 12) with 4096. change (2 ^ 6) with 64.
  change (2 ^ 4) with 16. change (2 ^ 2) with 4. change (2 ^ 0) with 1.
  rewrite Z.mod_1_r.
  match goal with
  | |- zbyte ?x :: zbyte ?y :: zbyte ?z :: _ = _ =>
      replace x with (byteZ a) by (subst n; Z.div_mod_to_equations; lia);
      replace y with (byteZ b) by (subst n; Z.div_mod_to_equations; lia);
      replace z with (byteZ c) by (subst n; Z.div_mod_to_equations; lia)
  end.
  now rewrite !zbyte_byteZ.
Qed.

Lemma decode_chunk1 a : decode_from (encode [a]) 0 0 = [a].
Proof.
  cbn [encode]. cbv zeta.
  pose proof (byteZ_range a) as Ha.
  rewrite Z.shiftl_mul_pow2 by lia. change (2 ^ 16) with 65536.
  set (n := byteZ a * 65536).
  rewrite !Z.shiftr_div_pow2 by lia.
  rewrite (sextet_mod (n / 2 ^ 18)), (sextet_mod (n / 2 ^ 12)).
  rewrite decode_sextet by (try apply Z.mod_pos_bound; lia).
  change (8 <=? 0 + 6) with false. cbv iota. change (0 + 6) with 6.
  rewrite decode_sextet by (try apply Z.mod_pos_bound; lia).
  change (8 <=? 6 + 6) with true. cbv iota. change (6 - 2) with 4.
  change (2 ^ 18) with 262144. change (2 ^ 12) with 4096. change (2 ^ 4) with 16.
  cbn [decode_from].
  match goal with
  | |- [zbyte ?x] = _ =>
      replace x with (byteZ a) by (subst n; Z.div_mod_to_equations; lia)
  end.
  now rewrite zbyte_byteZ.
Qed.

Lemma decode_chunk2 a b : decode_from (encode [a; b]) 0 0 = [a; b].
Proof.
  cbn [encode]. cbv zeta.
  pose proof (byteZ_range a) as Ha. pose proof (byteZ_range b) as Hb.
  assert (Z.lor (Z.shiftl (byteZ a) 16) (Z.shiftl (byteZ b) 8)
          = byteZ a * 65536 + byteZ b * 256) as ->.
  { pose proof (pack3 (byteZ a) (byteZ b) 0) as P. rewrite Z.lor_0_r in P.
    rewrite P by lia. lia. }
  set (n := byteZ a * 65536 + byteZ b * 256).
  rewrite !Z.shiftr_div_pow2 by lia.
  rewrite (sextet_mod (n / 2 ^ 18)), (sextet_mod (n / 2 ^ 12)), (sextet_mod (n / 2 ^ 6)).
  rewrite decode_sextet by (try apply Z.mod_pos_bound; lia).
  change (8 <=? 0 + 6) with false. cbv iota. change (0 + 6) with 6.
  rewrite decode_sextet by (try apply Z.mod_pos_bound; lia).
  change (8 <=? 6 + 6) with true. cbv iota. change (6 - 2) with 4.
  rewrite decode_sextet by (try apply Z.mod_pos_bound; lia).
  change (8 <=? 4 + 6) with true. cbv iota. change (4 - 2) with 2.
  change (2 ^ 18) with 262144. change (2 ^ 12) with 4096. change (2 ^ 6) with 64.
  change (2 ^ 4) with 16. change (2 ^ 2) with 4.
  cbn [decode_from].
  match goal with
  | |- [zbyte ?x; zbyte ?y] = _ =>
      replace x with (byteZ a) by (subst n; Z.div_mod_to_equations; lia);
      replace y with (byteZ b) by (subst n; Z.div_mod_to_equations; lia)
  end.
  now rewrite !zbyte_byteZ.
Qed.

Lemma decode_encode_upto n :
  forall bs, (List.length bs <= n)%nat -> decode (encode bs) = bs.
Proof.
  unfold decode. induction n as [|n IH]; intros bs Hn.
  - destruct bs; [reflexivity | simpl in Hn; lia].
  - destruct bs as [|a [|b [|c rest]]].
    + reflexivity.
    + apply decode_chunk1.
    + apply decode_chunk2.
    + change (encode (a :: b :: c :: rest)) with (encode [a; b; c] ++ encode rest)%string.
      rewrite decode_chunk3. rewrite IH; [reflexivity|]. simpl in Hn. lia.
Qed.

(** What [toString('base64url')] writes, [Buffer.from(text, 'base64url')]
    reads back: no byte of a key or an identifier is lost in the column. *)
Lemma decode_encode bs : decode (encode bs) = bs.
Proof. apply (decode_encode_upto (List.length bs)). lia. Qed.

(** * Insert and lookup of a credential *)

Lemma find_snoc_hit {A} (f : A -> bool) l x :
  existsb f l = false -> f x = true -> find f (l ++ [x]) = Some x.
Proof.
  induction l as [|y l IH]; simpl; intros Hl Hx; [now rewrite Hx|].
  apply orb_false_elim in Hl as [Hy Hl]. rewrite Hy. now apply IH.
Qed.

Lemma find_snoc_miss {A} (f : A -> bool) l x :
  f x = false -> find f (l ++ [x]) = find f l.
Proof.
  intros Hx. induction l as [|y l IH]; simpl; [now rewrite Hx|].
  destruct (f y); [reflexivity | exact IH].
Qed.

(** The database an INSERT into [passkeys] leaves when it succeeds. *)
Lemma createPasskey_success now user_id credential_id public_key counter device_type
    backed_up transports db out db' :
  Db.createPasskey now user_id credential_id public_key counter device_type backed_up
    transports db = (inr out, db') ->
  stored credential_id db = false
  /\ existsb (fun u => Db.u_id u =? user_id) (Db.users db) = true
  /\ db' = {| Db.users := Db.users db;
              Db.passkeys :=
                Db.passkeys db
                ++ [{| Db.p_id := Db.passkeys_seq db + 1;
                       Db.p_user_id := user_id;
                       Db.p_credential_id := credential_id;
                       Db.p_public_key := public_key;
                       Db.p_counter := counter;
                       Db.p_device_type := device_type;
                       Db.p_backed_up := backed_up;
                       Db.p_transports := transports;
                       Db.p_created_at := Db.CURRENT_TIMESTAMP now;
                       Db.p_last_used_at := None |}];
              Db.webauthn_sessions := Db.webauthn_sessions db;
              Db.passkeys_seq := Db.passkeys_seq db + 1 |}.
Proof.
  unfold Db.createPasskey, stored.
  destruct (existsb _ (Db.passkeys db)); [discriminate|].
  destruct (existsb _ (Db.users db)); [|discriminate]. simpl.
  intros [= _ <-]. repeat split; reflexivity.
Qed.

(** The row an INSERT has written is found under its credential id. *)
Lemma inserted_row_is_found now user_id credential_id public_key counter device_type
    backed_up transports db out db' :
  Db.createPasskey now user_id credential_id public_key counter device_type backed_up
    transports db = (inr out, db') ->
  exists owner,
    Db.getPasskeyByCredentialId credential_id db'
    = Some {| Db.pk_row :=
                {| Db.p_id := Db.passkeys_seq db + 1;
                   Db.p_user_id := user_id;
                   Db.p_credential_id := credential_id;
                   Db.p_public_key := public_key;
                   Db.p_counter := counter;
                   Db.p_device_type := device_type;
                   Db.p_backed_up := backed_up;
                   Db.p_transports := transports;
                   Db.p_created_at := Db.CURRENT_TIMESTAMP now;
                   Db.p_last_used_at := None |};
              Db.pk_username := Db.u_username owner |}.
Proof.
  intros H. apply createPasskey_success in H as (Hnew & Huser & ->).
  apply find_user_exists in Huser as [owner Hfind]. exists owner.
  unfold Db.getPasskeyByCredentialId, Db.getUserById. simpl.
  rewrite find_snoc_hit; [| exact Hnew | simpl; apply String.eqb_refl].
  simpl. now rewrite Hfind.
Qed.

(** X1: a credential that was inserted is found under its id, as the row
    that was written (the next row id, the values given, no last use) joined
    with the username of its owner; the lookup of every other id is as
    before. *)
Theorem createPasskey_then_lookup now user_id credential_id public_key counter
    device_type backed_up transports db out db' :
  Db.createPasskey now user_id credential_id public_key counter device_type backed_up
    transports db = (inr out, db') ->
  (exists owner,
     Db.getUserById user_id db = Some owner
     /\ Db.getPasskeyByCredentialId credential_id db'
        = Some {| Db.pk_row :=
                    {| Db.p_id := Db.passkeys_seq db + 1;
                       Db.p_user_id := user_id;
                       Db.p_credential_id := credential_id;
                       Db.p_public_key := public_key;
                       Db.p_counter := counter;
                       Db.p_device_type := device_type;
                       Db.p_backed_up := backed_up;
                       Db.p_transports := transports;
                       Db.p_created_at := Db.CURRENT_TIMESTAMP now;
                       Db.p_last_used_at := None |};
                  Db.pk_username := Db.u_username owner |})
  /\ (forall k, k <> credential_id ->
        Db.getPasskeyByCredentialId k db' = Db.getPasskeyByCredentialId k db).
Proof.
  intros H. apply createPasskey_success in H as (Hnew & Huser & ->).
  split.
  - apply find_user_exists in Huser as [owner Hfind].
    exists owner. split; [exact Hfind|].
    unfold Db.getPasskeyByCredentialId, Db.getUserById. simpl.
    rewrite find_snoc_hit; [| exact Hnew | simpl; apply String.eqb_refl].
    simpl. now rewrite Hfind.
  - intros k Hk. unfold Db.getPasskeyByCredentialId, Db.getUserById. simpl.
    rewrite find_snoc_miss; [reflexivity|]. simpl.
    apply String.eqb_neq. congruence.
Qed.

Lemma createPasskey_then_lookup_witness :
  option_map (fun p => (Db.p_counter (Db.pk_row p), Db.pk_username p))
    (Db.getPasskeyByCredentialId Scenario.cred1 (Scenario.with_counter 5))
  = Some (5, "alice").
Proof.
  destruct (createPasskey_then_lookup Scenario.t0 1 Scenario.cred1 (encode Scenario.key) 5
              "platform" 0 (Some ["internal"]) Scenario.empty tt (Scenario.with_counter 5))
    as [(owner & Howner & Hfound) _]; [vm_compute; reflexivity|].
  rewrite Hfound. simpl. f_equal. f_equal.
  assert (Some owner = Some Scenario.alice) as E by (rewrite <- Howner; reflexivity).
  now injection E as ->.
Defined.

(** X2: registration and authentication compose. When webauthn.ts has
    stored a verified registration, an authentication response that names the
    registered id makes the function ask the library about exactly the
    registered credential: the id the client declared, the bytes of the
    public key the library reported at registration (written as base64url
    text and read back), and the counter reported at registration; the
    credential belongs to the user who registered it. *)
Theorem registered_credential_is_presented lib env now body expectedChallenge userId db
    verification info result db' assertion challenge' :
  verifyRegistrationResponse lib (Webauthn.registrationRequest env body expectedChallenge)
  = inr verification ->
  reg_verified verification = true ->
  registrationInfo verification = Some info ->
  Webauthn.verifyPasskeyRegistration lib env now body expectedChallenge userId db
  = (inr result, db') ->
  auth_id assertion = reg_id body ->
  exists passkey,
    Db.getPasskeyByCredentialId (auth_id assertion) db' = Some passkey
    /\ Db.p_user_id (Db.pk_row passkey) = userId
    /\ va_credential (Webauthn.authenticationRequest env assertion challenge' passkey)
       = {| cred_id := OfString (reg_id body);
            cred_publicKey := OfBytes (Buffer_from (cred_publicKey (ri_credential info)));
            cred_counter := cred_counter (ri_credential info) |}.
Proof.
  intros Hlib Hv Hi. unfold Webauthn.verifyPasskeyRegistration,
    Webauthn.verifyPasskeyRegistration_interleaved.
  rewrite Hlib. cbv zeta. rewrite Hv, Hi.
  destruct (Db.createPasskey _ _ _ _ _ _ _ _ _) as [[e|u] d] eqn:CP; [discriminate|].
  intros [= _ <-] Hid.
  apply inserted_row_is_found in CP as (owner & Hfound).
  rewrite Hid, Hfound. eexists. split; [reflexivity|]. split; [reflexivity|].
  unfold Webauthn.authenticationRequest. simpl. now rewrite decode_encode.
Qed.

Lemma registered_credential_is_presented_witness :
  exists passkey,
    Db.getPasskeyByCredentialId Scenario.cred1 (snd Scenario.counted_by_webauthn)
    = Some passkey
    /\ va_credential (Webauthn.authenticationRequest Scenario.prod (Scenario.assertion 8)
                        "c-5" passkey)
       = {| cred_id := OfString Scenario.cred1;
            cred_publicKey := OfBytes Scenario.key;
            cred_counter := 7 |}.
Proof.
  edestruct (registered_credential_is_presented (Scenario.lib "c-2") Scenario.prod
               Scenario.t0 Scenario.counted "c-1" 1 Scenario.empty)
    with (assertion := Scenario.assertion 8) (challenge' := "c-5")
    as (passkey & Hfound & _ & Hcred).
  1-5: vm_compute; reflexivity.
  exists passkey. split; [exact Hfound | exact Hcred].
Defined.

(** * The counter update touches one credential *)

Lemma set_counter_miss now counter credential_id p :
  String.eqb (Db.p_credential_id p) credential_id = false ->
  Db.set_counter now counter credential_id p = p.
Proof. intros H. unfold Db.set_counter. now rewrite H. Qed.

Lemma find_after_update_other now counter credential_id k l :
  k <> credential_id ->
  find (fun p => String.eqb (Db.p_credential_id p) k)
       (map (Db.set_counter now counter credential_id) l)
  = find (fun p => String.eqb (Db.p_credential_id p) k) l.
Proof.
  intros Hk. induction l as [|p l IH]; simpl; [reflexivity|].
  rewrite set_counter_credential_id.
  destruct (String.eqb (Db.p_credential_id p) k) eqn:E; [|exact IH].
  apply String.eqb_eq in E. rewrite set_counter_miss; [reflexivity|].
  apply String.eqb_neq. congruence.
Qed.

Lemma update_absent now counter credential_id l :
  existsb (fun p => String.eqb (Db.p_credential_id p) credential_id) l = false ->
  map (Db.set_counter now counter credential_id) l = l.
Proof.
  induction l as [|p l IH]; simpl; [reflexivity|].
  intros H. apply orb_false_elim in H as [Hp Hl].
  now rewrite set_counter_miss, IH.
Qed.

(** X3: [updatePasskeyCounter] changes the counter and the last use of the
    credential it names and nothing else: every other credential is looked up
    as before, the ids, owners and keys of all rows stay, users and sessions
    are untouched, and for an id that is not stored the statement is a no-op. *)
Theorem updatePasskeyCounter_only_its_target now counter credential_id db :
  (forall k, k <> credential_id ->
     Db.getPasskeyByCredentialId k (Db.updatePasskeyCounter now counter credential_id db)
     = Db.getPasskeyByCredentialId k db)
  /\ map (fun p => (Db.p_id p, Db.p_user_id p, Db.p_credential_id p, Db.p_public_key p))
       (Db.passkeys (Db.updatePasskeyCounter now counter credential_id db))
     = map (fun p => (Db.p_id p, Db.p_user_id p, Db.p_credential_id p, Db.p_public_key p))
         (Db.passkeys db)
  /\ Db.users (Db.updatePasskeyCounter now counter credential_id db) = Db.users db
  /\ Db.webauthn_sessions (Db.updatePasskeyCounter now counter credential_id db)
     = Db.webauthn_sessions db
  /\ (stored credential_id db = false ->
      Db.updatePasskeyCounter now counter credential_id db = db).
Proof.
  split; [|split; [|split; [|split]]]; try reflexivity.
  - intros k Hk. unfold Db.getPasskeyByCredentialId, Db.getUserById. simpl.
    now rewrite find_after_update_other.
  - simpl. rewrite map_map. apply map_ext. intros p.
    unfold Db.set_counter. destruct (String.eqb _ _); reflexivity.
  - unfold stored, Db.updatePasskeyCounter. intros H.
    rewrite (update_absent _ _ _ _ H). now destruct db.
Qed.

(** * Deleting a passkey *)

Lemma filter_none_keeps_all {A} (f : A -> bool) l :
  List.length (filter f l) = 0%nat -> filter (fun x => negb (f x)) l = l.
Proof.
  induction l as [|x l IH]; simpl; [reflexivity|].
  destruct (f x); simpl; [discriminate|]. intros H. now rewrite IH.
Qed.

Lemma find_filter_same {A} (f g : A -> bool) l :
  (forall x, In x l -> f x = true -> g x = true) ->
  find f (filter g l) = find f l.
Proof.
  induction l as [|x l IH]; simpl; intros H; [reflexivity|].
  destruct (g x) eqn:G; simpl.
  - destruct (f x); [reflexivity|]. apply IH. intros y Hy. apply H. now right.
  - destruct (f x) eqn:F.
    + rewrite (H x (or_introl eq_refl) F) in G. discriminate.
    + apply IH. intros y Hy. apply H. now right.
Qed.

Lemma find_filter_none {A} (f g : A -> bool) l :
  (forall x, In x l -> f x = true -> g x = false) ->
  find f (filter g l) = None.
Proof.
  induction l as [|x l IH]; simpl; intros H; [reflexivity|].
  destruct (g x) eqn:G; simpl.
  - destruct (f x) eqn:F.
    + rewrite (H x (or_introl eq_refl) F) in G. discriminate.
    + apply IH. intros y Hy. apply H. now right.
  - apply IH. intros y Hy. apply H. now right.
Qed.

Lemma nodup_map_inj {A B} (f : A -> B) l x y :
  NoDup (map f l) -> In x l -> In y l -> f x = f y -> x = y.
Proof.
  induction l as [|z l IH]; simpl; [tauto|].
  intros Hn Hx Hy E. inversion Hn as [|? ? Hz Hl]; subst.
  destruct Hx as [->|Hx], Hy as [->|Hy].
  - reflexivity.
  - exfalso. apply Hz. rewrite E. now apply in_map.
  - exfalso. apply Hz. rewrite <- E. now apply in_map.
  - now apply IH.
Qed.

Lemma filter_length_pos {A} (f : A -> bool) l x :
  In x l -> f x = true -> (0 < List.length (filter f l))%nat.
Proof.
  induction l as [|y l IH]; simpl; [tauto|].
  intros [->|Hx] Hf.
  - rewrite Hf. simpl. lia.
  - destruct (f y); simpl; [lia | now apply IH].
Qed.

(** X4: the delete handler removes nothing but passkeys of the user of the
    session: a row that is gone afterwards belonged to that user, had the
    requested id, and the answer was 200; no row is added, users and sessions
    stay, and every answer other than 200 (401, 400, or 404 for a passkey of
    somebody else) leaves the database as it was. *)
Theorem delete_only_own_passkeys now cookie passkeyId db response db' :
  Routes.Delete.DELETE now cookie passkeyId db = (response, db') ->
  (forall p, In p (Db.passkeys db) ->
     In p (Db.passkeys db')
     \/ exists sessionId session,
          Routes.present cookie = Some sessionId
          /\ Db.getSession now sessionId db = Some session
          /\ Db.p_user_id p = Db.s_user_id (Db.ss_row session)
          /\ passkeyId = Some (Db.p_id p)
          /\ Routes.a_status response = 200)
  /\ (forall p, In p (Db.passkeys db') -> In p (Db.passkeys db))
  /\ Db.users db' = Db.users db
  /\ Db.webauthn_sessions db' = Db.webauthn_sessions db
  /\ (Routes.a_status response <> 200 -> db' = db).
Proof.
  unfold Routes.Delete.DELETE.
  destruct (Routes.present cookie) as [sessionId|] eqn:Hcookie;
    [|intros [= <- <-]; repeat split; auto; discriminate].
  destruct (Db.getSession now sessionId db) as [session|] eqn:Hsession;
    [|intros [= <- <-]; repeat split; auto; discriminate].
  destruct passkeyId as [id|]; [|intros [= <- <-]; repeat split; auto; discriminate].
  destruct (id =? 0); [intros [= <- <-]; repeat split; auto; discriminate|].
  unfold Db.deletePasskey. cbv zeta.
  set (doomed := fun p => (Db.p_id p =? id)
                          && (Db.p_user_id p =? Db.s_user_id (Db.ss_row session))).
  destruct (Z.of_nat (List.length (filter doomed (Db.passkeys db))) =? 0) eqn:Hchanges;
    intros [= <- <-];
    cbn [Db.users Db.passkeys Db.webauthn_sessions Routes.a_status Routes.answer].
  - apply Z.eqb_eq in Hchanges.
    rewrite (filter_none_keeps_all doomed) by lia.
    repeat split; auto. intros _. now destruct db.
  - repeat split; auto.
    + intros p Hp. destruct (doomed p) eqn:D.
      * right. exists sessionId, session. unfold doomed in D.
        apply andb_prop in D as [Hid Huser].
        apply Z.eqb_eq in Hid. apply Z.eqb_eq in Huser. subst id. repeat split; auto.
      * left. apply filter_In. split; [exact Hp|]. change (negb (doomed p) = true).
        now rewrite D.
    + intros p Hp. now apply filter_In in Hp.
    + congruence.
Qed.

Lemma delete_only_own_passkeys_witness :
  Routes.Delete.DELETE (Scenario.t0 + 1000) (Some "s1") (Some 2) Scenario.shared
  = (Routes.answer 404 (Routes.AccountError "Passkey not found or not owned by user"),
     Scenario.shared).
Proof.
  destruct (Routes.Delete.DELETE (Scenario.t0 + 1000) (Some "s1") (Some 2) Scenario.shared)
    as [response db'] eqn:E.
  destruct (delete_only_own_passkeys _ _ _ _ _ _ E) as (_ & _ & _ & _ & Hsame).
  assert (response
          = Routes.answer 404 (Routes.AccountError "Passkey not found or not owned by user"))
    as -> by (apply (f_equal fst) in E; vm_compute in E; now rewrite <- E).
  rewrite Hsame; [reflexivity | discriminate].
Defined.

(** X5: a passkey its owner deletes cannot sign in any more. With row ids
    and credential ids unique, the handler answers 200, the credential id of
    the deleted row is not found afterwards, authentication with it fails with
    [Passkey not found] whatever the library would say, and every other
    credential is looked up as before. *)
Theorem deleted_passkey_cannot_authenticate now sessionId session p db :
  credential_ids_unique db ->
  NoDup (map Db.p_id (Db.passkeys db)) ->
  Routes.present (Some sessionId) = Some sessionId ->
  Db.getSession now sessionId db = Some session ->
  In p (Db.passkeys db) ->
  Db.p_user_id p = Db.s_user_id (Db.ss_row session) ->
  Db.p_id p <> 0 ->
  exists db',
    Routes.Delete.DELETE now (Some sessionId) (Some (Db.p_id p)) db
    = (Routes.answer 200 (Routes.AccountMessage "Passkey deleted successfully"), db')
    /\ Db.getPasskeyByCredentialId (Db.p_credential_id p) db' = None
    /\ (forall lib env now' body expectedChallenge,
          auth_id body = Db.p_credential_id p ->
          Webauthn.verifyPasskeyAuthentication lib env now' body expectedChallenge db'
          = (inl (Error "Passkey not found"), db'))
    /\ (forall k, k <> Db.p_credential_id p ->
          Db.getPasskeyByCredentialId k db' = Db.getPasskeyByCredentialId k db).
Proof.
  intros Hcred Hids Hcookie Hsession Hp Howner Hnz.
  unfold Routes.Delete.DELETE. rewrite Hcookie, Hsession.
  apply Z.eqb_neq in Hnz. rewrite Hnz.
  unfold Db.deletePasskey. cbv zeta.
  set (doomed := fun q => (Db.p_id q =? Db.p_id p)
                          && (Db.p_user_id q =? Db.s_user_id (Db.ss_row session))).
  assert (doomed p = true) as Dp
    by (unfold doomed; rewrite Z.eqb_refl, Howner, Z.eqb_refl; reflexivity).
  assert (forall q, In q (Db.passkeys db) -> doomed q = true -> q = p) as Donly.
  { intros q Hq D. unfold doomed in D. apply andb_prop in D as [Hid _].
    apply Z.eqb_eq in Hid. apply (nodup_map_inj Db.p_id (Db.passkeys db)); auto. }
  pose proof (filter_length_pos doomed _ p Hp Dp) as Hpos.
  destruct (Z.of_nat (List.length (filter doomed (Db.passkeys db))) =? 0) eqn:Hchanges;
    [apply Z.eqb_eq in Hchanges; lia|].
  exists {| Db.users := Db.users db;
            Db.passkeys := filter (fun q => negb (doomed q)) (Db.passkeys db);
            Db.webauthn_sessions := Db.webauthn_sessions db;
            Db.passkeys_seq := Db.passkeys_seq db |}.
  split; [reflexivity|].
  assert (Db.getPasskeyByCredentialId (Db.p_credential_id p)
            {| Db.users := Db.users db;
               Db.passkeys := filter (fun q => negb (doomed q)) (Db.passkeys db);
               Db.webauthn_sessions := Db.webauthn_sessions db;
               Db.passkeys_seq := Db.passkeys_seq db |} = None) as Hgone.
  { unfold Db.getPasskeyByCredentialId. simpl.
    rewrite find_filter_none; [reflexivity|].
    intros q Hq E. apply String.eqb_eq in E.
    assert (q = p) as ->
      by (apply (nodup_map_inj Db.p_credential_id (Db.passkeys db)); auto).
    now rewrite Dp. }
  split; [exact Hgone | split].
  - intros lib env now' body expectedChallenge Hid.
    unfold Webauthn.verifyPasskeyAuthentication,
    Webauthn.verifyPasskeyAuthentication_interleaved. now rewrite Hid, Hgone.
  - intros k Hk. unfold Db.getPasskeyByCredentialId, Db.getUserById. simpl.
    rewrite find_filter_same; [reflexivity|].
    intros q Hq E. apply String.eqb_eq in E.
    destruct (doomed q) eqn:D; [|reflexivity].
    rewrite (Donly q Hq D) in E. congruence.
Qed.

Lemma deleted_passkey_cannot_authenticate_witness :
  exists db',
    Routes.Delete.DELETE (Scenario.t0 + 1000) (Some "s1") (Some 1) Scenario.shared
    = (Routes.answer 200 (Routes.AccountMessage "Passkey deleted successfully"), db')
    /\ Db.getPasskeyByCredentialId Scenario.cred1 db' = None.
Proof.
  edestruct (deleted_passkey_cannot_authenticate (Scenario.t0 + 1000) "s1")
    with (db := Scenario.shared)
         (p := {| Db.p_id := 1; Db.p_user_id := 1; Db.p_credential_id := Scenario.cred1;
                  Db.p_public_key := encode Scenario.key; Db.p_counter := 5;
                  Db.p_device_type := "platform"; Db.p_backed_up := 0;
                  Db.p_transports := Some ["internal"];
                  Db.p_created_at := 1700000000; Db.p_last_used_at := None |})
    as (db' & Hanswer & Hgone & _).
  - vm_compute. repeat constructor; simpl; intuition discriminate.
  - vm_compute. repeat constructor; simpl; intuition discriminate.
  - reflexivity.
  - vm_compute. reflexivity.
  - vm_compute. now left.
  - vm_compute. reflexivity.
  - vm_compute. discriminate.
  - exists db'. split; [exact Hanswer | exact Hgone].
Defined.

(** * Sweeping expired sessions *)

Lemma expires_after_earlier expires_at now now' :
  now <= now' -> Db.expires_after expires_at now' = true ->
  Db.expires_after expires_at now = true.
Proof.
  unfold Db.expires_after, Db.CURRENT_TIMESTAMP. intros Hle H.
  apply Z.leb_le in H. apply Z.leb_le.
  assert (now / 1000 / 86400 <= now' / 1000 / 86400); [|lia].
  apply Z.div_le_mono; [lia|]. apply Z.div_le_mono; lia.
Qed.

(** X6: [cleanupExpiredSessions] removes only sessions no lookup would
    return any more: at the instant of the sweep and at every later one
    [getSession] answers the same for every id; the rows that stay were there
    before and are unexpired; users and passkeys are untouched. *)
Theorem cleanup_keeps_every_live_session now db :
  (forall now' id, now <= now' ->
     Db.getSession now' id (Db.cleanupExpiredSessions now db) = Db.getSession now' id db)
  /\ (forall s, In s (Db.webauthn_sessions (Db.cleanupExpiredSessions now db)) <->
        In s (Db.webauthn_sessions db) /\ Db.expires_after (Db.s_expires_at s) now = true)
  /\ Db.users (Db.cleanupExpiredSessions now db) = Db.users db
  /\ Db.passkeys (Db.cleanupExpiredSessions now db) = Db.passkeys db.
Proof.
  split; [|split; [|split]]; try reflexivity.
  - intros now' id Hle. unfold Db.getSession, Db.getUserById. simpl.
    rewrite find_filter_same; [reflexivity|].
    intros s _ H. apply andb_prop in H as [_ H].
    eapply expires_after_earlier; eauto.
  - intros s. simpl. apply filter_In.
Qed.

(** * The constraints of the schema are kept *)

Lemma nodup_map_filter {A B} (f : A -> B) (g : A -> bool) l :
  NoDup (map f l) -> NoDup (map f (filter g l)).
Proof.
  induction l as [|x l IH]; simpl; intros H; [constructor|].
  inversion H as [|? ? Hx Hl]; subst.
  destruct (g x); simpl; [|now apply IH].
  constructor; [|now apply IH].
  intros I. apply Hx. apply in_map_iff in I as (y & E & Hy).
  apply filter_In in Hy as [Hy _]. rewrite <- E. now apply in_map.
Qed.

Lemma map_set_counter_keeps {B} (f : Db.Passkey -> B) now counter credential_id l :
  (forall p, f (Db.set_counter now counter credential_id p) = f p) ->
  map f (map (Db.set_counter now counter credential_id) l) = map f l.
Proof. intros H. rewrite map_map. now apply map_ext. Qed.

Lemma wf_createPasskey now user_id credential_id public_key counter device_type backed_up
    transports db out db' :
  well_formed db ->
  Db.createPasskey now user_id credential_id public_key counter device_type backed_up
    transports db = (out, db') ->
  well_formed db'.
Proof.
  intros (Hc & Hs & (Hids & Hseq) & (Hfp & Hfs)) H. destruct out as [e|u].
  - assert (db' = db) as ->; [|repeat split; assumption].
    revert H. unfold Db.createPasskey.
    destruct (existsb _ (Db.passkeys db)); [now intros [= _ <-]|].
    destruct (negb _); [now intros [= _ <-] | discriminate].
  - apply createPasskey_success in H as (Hnew & Huser & ->).
    unfold well_formed, credential_ids_unique, session_ids_unique, passkey_ids_fresh,
      owners_exist. simpl. rewrite !map_app. simpl.
    split; [|split; [|split; [split|split]]].
    + apply nodup_snoc; [exact Hc|]. now apply existsb_false_not_in.
    + exact Hs.
    + apply nodup_snoc; [exact Hids|]. intros I.
      apply in_map_iff in I as (p & E & Hp). apply Hseq in Hp. lia.
    + intros p Hp. apply in_app_iff in Hp as [Hp|[<-|[]]]; simpl; [|lia].
      apply Hseq in Hp. lia.
    + intros p Hp. apply in_app_iff in Hp as [Hp|[<-|[]]]; [now apply Hfp | exact Huser].
    + exact Hfs.
Qed.

Lemma wf_updatePasskeyCounter now counter credential_id db :
  well_formed db -> well_formed (Db.updatePasskeyCounter now counter credential_id db).
Proof.
  intros (Hc & Hs & (Hids & Hseq) & (Hfp & Hfs)).
  unfold well_formed, credential_ids_unique, session_ids_unique, passkey_ids_fresh,
    owners_exist. simpl.
  rewrite (map_set_counter_keeps Db.p_credential_id)
    by (intros; apply set_counter_credential_id).
  rewrite (map_set_counter_keeps Db.p_id)
    by (intros p; unfold Db.set_counter; destruct (String.eqb _ _); reflexivity).
  repeat split; try assumption.
  - intros p Hp. apply in_map_iff in Hp as (q & <- & Hq).
    assert (Db.p_id (Db.set_counter now counter credential_id q) = Db.p_id q) as ->
      by (unfold Db.set_counter; destruct (String.eqb _ _); reflexivity).
    now apply Hseq.
  - intros p Hp. apply in_map_iff in Hp as (q & <- & Hq).
    rewrite set_counter_user_id. now apply Hfp.
Qed.

Lemma wf_deletePasskey id user_id db :
  well_formed db -> well_formed (snd (Db.deletePasskey id user_id db)).
Proof.
  intros (Hc & Hs & (Hids & Hseq) & (Hfp & Hfs)).
  unfold well_formed, credential_ids_unique, session_ids_unique, passkey_ids_fresh,
    owners_exist. simpl.
  repeat split; try assumption; try (now apply nodup_map_filter).
  - intros p Hp. apply filter_In in Hp as [Hp _]. now apply Hseq.
  - intros p Hp. apply filter_In in Hp as [Hp _]. now apply Hfp.
Qed.

(** The database an INSERT into [webauthn_sessions] leaves when it
    succeeds. *)
Lemma createSession_success now id user_id challenge expires_at db out db' :
  Db.createSession now id user_id challenge expires_at db = (inr out, db') ->
  existsb (fun s => String.eqb (Db.s_id s) id) (Db.webauthn_sessions db) = false
  /\ existsb (fun u => Db.u_id u =? user_id) (Db.users db) = true
  /\ db' = {| Db.users := Db.users db;
              Db.passkeys := Db.passkeys db;
              Db.webauthn_sessions :=
                Db.webauthn_sessions db
                ++ [{| Db.s_id := id; Db.s_user_id := user_id;
                       Db.s_challenge := challenge;
                       Db.s_created_at := Db.CURRENT_TIMESTAMP now;
                       Db.s_expires_at := expires_at |}];
              Db.passkeys_seq := Db.passkeys_seq db |}.
Proof.
  unfold Db.createSession.
  destruct (existsb _ (Db.webauthn_sessions db)); [discriminate|].
  destruct (existsb _ (Db.users db)); [|discriminate]. simpl.
  intros [= _ <-]. repeat split; reflexivity.
Qed.

Lemma wf_createSession now id user_id challenge expires_at db out db' :
  well_formed db ->
  Db.createSession now id user_id challenge expires_at db = (out, db') ->
  well_formed db'.
Proof.
  intros (Hc & Hs & Hids & (Hfp & Hfs)) H.
  pose proof (createSession_unique _ _ _ _ _ _ _ _ Hs H) as Hs'.
  destruct out as [e|u].
  - apply createSession_refused in H. subst. unfold well_formed, owners_exist. tauto.
  - apply createSession_success in H as (_ & Huser & ->).
    unfold well_formed, owners_exist.
    split; [exact Hc | split; [exact Hs' | split; [exact Hids | split; [exact Hfp|]]]].
    simpl. intros s Hin.
    apply in_app_iff in Hin as [Hin|[<-|[]]]; [now apply Hfs | exact Huser].
Qed.

Lemma wf_deleteSession id db : well_formed db -> well_formed (Db.deleteSession id db).
Proof.
  intros (Hc & Hs & (Hids & Hseq) & (Hfp & Hfs)).
  unfold well_formed, credential_ids_unique, session_ids_unique, passkey_ids_fresh,
    owners_exist. simpl.
  repeat split; try assumption; try (now apply nodup_map_filter).
  intros s Hin. apply filter_In in Hin as [Hin _]. now apply Hfs.
Qed.

Lemma wf_cleanupExpiredSessions now db :
  well_formed db -> well_formed (Db.cleanupExpiredSessions now db).
Proof.
  intros (Hc & Hs & (Hids & Hseq) & (Hfp & Hfs)).
  unfold well_formed, credential_ids_unique, session_ids_unique, passkey_ids_fresh,
    owners_exist. simpl.
  repeat split; try assumption; try (now apply nodup_map_filter).
  intros s Hin. apply filter_In in Hin as [Hin _]. now apply Hfs.
Qed.

(** Under the foreign keys the JOIN of the credential lookup never drops a
    row: a stored credential id is found. *)
Lemma stored_is_found credential_id db :
  owners_exist db ->
  stored credential_id db = true ->
  exists passkey, Db.getPasskeyByCredentialId credential_id db = Some passkey.
Proof.
  intros [Hfp _] H. unfold stored in H. unfold Db.getPasskeyByCredentialId.
  destruct (find _ (Db.passkeys db)) as [p|] eqn:F.
  - apply find_some in F as [Hp _]. apply Hfp in Hp.
    apply find_user_exists in Hp as [u Hu]. unfold Db.getUserById. rewrite Hu.
    eexists. reflexivity.
  - apply existsb_exists in H as (p & Hp & E).
    pose proof (find_none _ _ F p Hp) as N. simpl in N. congruence.
Qed.

(** X7: the prepared statements that write keep the constraints of the
    schema: after any of them the credential ids and the session ids are
    pairwise distinct, the row ids of the passkeys are distinct and not above
    the AUTOINCREMENT sequence, and every passkey and session belongs to a
    stored user, whether the statement succeeded or was refused. *)
Theorem statements_keep_the_schema db :
  well_formed db ->
  (forall now user_id credential_id public_key counter device_type backed_up transports,
     well_formed (snd (Db.createPasskey now user_id credential_id public_key counter
                         device_type backed_up transports db)))
  /\ (forall now counter credential_id,
        well_formed (Db.updatePasskeyCounter now counter credential_id db))
  /\ (forall id user_id, well_formed (snd (Db.deletePasskey id user_id db)))
  /\ (forall now id user_id challenge expires_at,
        well_formed (snd (Db.createSession now id user_id challenge expires_at db)))
  /\ (forall id, well_formed (Db.deleteSession id db))
  /\ (forall now, well_formed (Db.cleanupExpiredSessions now db)).
Proof.
  intros H. split; [|split; [|split; [|split; [|split]]]]; intros.
  - eapply wf_createPasskey; [exact H | apply surjective_pairing].
  - now apply wf_updatePasskeyCounter.
  - now apply wf_deletePasskey.
  - eapply wf_createSession; [exact H | apply surjective_pairing].
  - now apply wf_deleteSession.
  - now apply wf_cleanupExpiredSessions.
Qed.

Lemma empty_well_formed : well_formed Scenario.empty.
Proof.
  unfold well_formed, credential_ids_unique, session_ids_unique, passkey_ids_fresh,
    owners_exist. simpl. repeat split; try constructor; intros ? [].
Qed.

Lemma statements_keep_the_schema_witness :
  well_formed (Scenario.with_counter 5) /\ well_formed Scenario.logged_in.
Proof.
  pose proof (statements_keep_the_schema Scenario.empty empty_well_formed)
    as (Hcreate & _ & _ & Hsession & _).
  split; [apply Hcreate | apply Hsession].
Defined.

Lemma wf_verifyPasskeyRegistration lib env now body expectedChallenge userId db :
  well_formed db ->
  well_formed (snd (Webauthn.verifyPasskeyRegistration lib env now body expectedChallenge
                      userId db)).
Proof.
  intros H. unfold Webauthn.verifyPasskeyRegistration,
    Webauthn.verifyPasskeyRegistration_interleaved.
  destruct (verifyRegistrationResponse lib _) as [e|v]; [exact H|]. cbv zeta.
  destruct (reg_verified v); [|exact H].
  destruct (registrationInfo v) as [info|]; [|exact H].
  destruct (Db.createPasskey _ _ _ _ _ _ _ _ _) as [[e|u] db'] eqn:CP;
    simpl; eapply wf_createPasskey; eauto.
Qed.

Lemma wf_verifyPasskeyAuthentication lib env now body expectedChallenge db :
  well_formed db ->
  well_formed (snd (Webauthn.verifyPasskeyAuthentication lib env now body expectedChallenge
                      db)).
Proof.
  intros H. unfold Webauthn.verifyPasskeyAuthentication,
    Webauthn.verifyPasskeyAuthentication_interleaved.
  destruct (Db.getPasskeyByCredentialId _ _) as [passkey|]; [|exact H].
  destruct (verifyAuthenticationResponse lib _) as [e|v]; [exact H|]. cbv zeta.
  destruct (verified v); [|exact H].
  destruct (authenticationInfo v) as [info|]; [|exact H].
  simpl. now apply wf_updatePasskeyCounter.
Qed.

Lemma wf_handle request db : well_formed db -> well_formed (Traffic.handle request db).
Proof.
  intros H. destruct request; simpl.
  - unfold Routes.Login.POST.
    destruct (Routes.present username), (Routes.present password); try exact H.
    destruct (Db.getUserByUsername _ _) as [user|]; [|exact H].
    destruct (negb _); [exact H|].
    destruct (Db.createSession _ _ _ _ _ _) as [[e|u] db'] eqn:CS;
      simpl; eapply wf_createSession; eauto.
  - destruct (Routes.present cookie); [now apply wf_deleteSession | exact H].
  - unfold Routes.RegisterOptions.POST.
    destruct (Routes.present cookie) as [sessionId|]; [|exact H].
    destruct (Db.getSession now sessionId db) as [session|]; [|exact H].
    destruct (Routes.present username); [|exact H].
    destruct (Webauthn.generatePasskeyRegistrationOptions _ _ _ _ _) as [e|result];
      [exact H|].
    destruct (Db.createSession _ _ _ _ _ _) as [[e|u] db'] eqn:CS;
      simpl; eapply wf_createSession; eauto.
  - unfold Routes.RegisterVerify.POST.
    destruct (Routes.present cookie) as [sessionId|]; [|exact H].
    destruct (Db.getSession now sessionId db) as [session|]; [|exact H].
    destruct (Routes.present (reg_challenge body)) as [challenge|]; [|exact H].
    destruct (Db.getSession now (Routes.challenge_key sessionId) db); [|exact H].
    destruct (negb _); [exact H|].
    pose proof (wf_verifyPasskeyRegistration lib env now body challenge
                  (Db.s_user_id (Db.ss_row session)) db H) as Hv.
    destruct (Webauthn.verifyPasskeyRegistration _ _ _ _ _ _ _) as [[e|result] db'];
      simpl in *; [exact Hv | now apply wf_deleteSession].
  - unfold Routes.AuthenticateVerify.POST.
    destruct (Routes.present (auth_challenge body)) as [challenge|]; [|exact H].
    pose proof (wf_verifyPasskeyAuthentication lib env now body challenge db H) as Hv.
    destruct (Webauthn.verifyPasskeyAuthentication _ _ _ _ _ _) as [[e|result] db'];
      simpl in Hv; [exact Hv|].
    destruct (negb _); [exact Hv|].
    destruct (Db.createSession _ _ _ _ _ _) as [[e|u] db''] eqn:CS;
      simpl; eapply wf_createSession; eauto.
  - unfold Routes.Delete.DELETE.
    destruct (Routes.present cookie) as [sessionId|]; [|exact H].
    destruct (Db.getSession now sessionId db) as [session|]; [|exact H].
    destruct passkeyId as [id|]; [|exact H].
    destruct (id =? 0); [exact H|].
    pose proof (wf_deletePasskey id (Db.s_user_id (Db.ss_row session)) db H) as Hd.
    destruct (Db.deletePasskey _ _ _) as [changes db']. simpl in Hd.
    destruct (changes =? 0); exact Hd.
Qed.

Lemma users_handle request db : Db.users (Traffic.handle request db) = Db.users db.
Proof.
  destruct request; simpl.
  - unfold Routes.Login.POST.
    destruct (Routes.present username), (Routes.present password); try reflexivity.
    destruct (Db.getUserByUsername _ _) as [user|]; [|reflexivity].
    destruct (negb _); [reflexivity|].
    unfold Db.createSession.
    destruct (existsb _ (Db.webauthn_sessions db)); [reflexivity|].
    destruct (negb _); reflexivity.
  - destruct (Routes.present cookie); reflexivity.
  - unfold Routes.RegisterOptions.POST.
    destruct (Routes.present cookie) as [sessionId|]; [|reflexivity].
    destruct (Db.getSession now sessionId db) as [session|]; [|reflexivity].
    destruct (Routes.present username); [|reflexivity].
    destruct (Webauthn.generatePasskeyRegistrationOptions _ _ _ _ _) as [e|result];
      [reflexivity|].
    unfold Db.createSession.
    destruct (existsb _ (Db.webauthn_sessions db)); [reflexivity|].
    destruct (negb _); reflexivity.
  - unfold Routes.RegisterVerify.POST.
    destruct (Routes.present cookie) as [sessionId|]; [|reflexivity].
    destruct (Db.getSession now sessionId db) as [session|]; [|reflexivity].
    destruct (Routes.present (reg_challenge body)) as [challenge|]; [|reflexivity].
    destruct (Db.getSession now (Routes.challenge_key sessionId) db); [|reflexivity].
    destruct (negb _); [reflexivity|].
    unfold Webauthn.verifyPasskeyRegistration,
    Webauthn.verifyPasskeyRegistration_interleaved.
    destruct (verifyRegistrationResponse lib _) as [e|v]; [reflexivity|]. cbv zeta.
    destruct (reg_verified v); [|reflexivity].
    destruct (registrationInfo v) as [info|]; [|reflexivity].
    unfold Db.createPasskey.
    destruct (existsb _ (Db.passkeys db)); [reflexivity|].
    destruct (negb _); reflexivity.
  - unfold Routes.AuthenticateVerify.POST.
    destruct (Routes.present (auth_challenge body)) as [challenge|]; [|reflexivity].
    unfold Webauthn.verifyPasskeyAuthentication,
    Webauthn.verifyPasskeyAuthentication_interleaved.
    destruct (Db.getPasskeyByCredentialId _ _) as [passkey|]; [|reflexivity].
    destruct (verifyAuthenticationResponse lib _) as [e|v]; [reflexivity|]. cbv zeta.
    destruct (verified v); [|reflexivity].
    destruct (authenticationInfo v) as [info|]; simpl;
      unfold Db.createSession; simpl;
      destruct (existsb _ (Db.webauthn_sessions db)); try reflexivity;
      destruct (negb _); reflexivity.
  - unfold Routes.Delete.DELETE.
    destruct (Routes.present cookie) as [sessionId|]; [|reflexivity].
    destruct (Db.getSession now sessionId db) as [session|]; [|reflexivity].
    destruct passkeyId as [id|]; [|reflexivity].
    destruct (id =? 0); [reflexivity|].
    unfold Db.deletePasskey. cbv zeta.
    destruct (_ =? 0); reflexivity.
Qed.

(** X8: the handlers keep the constraints of the schema and never touch the
    table of users. Whatever requests are served one after the other on a
    well-formed store (any bodies and cookies, any behaviour of the library
    and of the password check, any clock), the store that results is
    well-formed and holds the same users. *)
Theorem requests_keep_the_schema requests db :
  well_formed db ->
  well_formed (Traffic.serve requests db)
  /\ Db.users (Traffic.serve requests db) = Db.users db.
Proof.
  unfold Traffic.serve. revert db.
  induction requests as [|request requests IH]; intros db H; simpl; [now split|].
  destruct (IH (Traffic.handle request db) (wf_handle request db H)) as [Hwf Husers].
  split; [exact Hwf|]. rewrite Husers. apply users_handle.
Qed.

Lemma requests_keep_the_schema_witness :
  well_formed
    (Traffic.serve
       [Traffic.LoginRequest (fun _ _ => true) Scenario.t0 "s1" (Some "alice") (Some "pw");
        Traffic.RegisterOptionsRequest (Scenario.lib "c-1") Scenario.dev Scenario.t0
          (Some "s1") (Some "alice");
        Traffic.RegisterVerifyRequest (Scenario.lib "c-2") Scenario.dev (Scenario.t0 + 3000)
          (Some "s1") Scenario.registration;
        Traffic.AuthenticateVerifyRequest (Scenario.lib "c-3") Scenario.dev
          (Scenario.t0 + 4000) "s9" (Scenario.assertion 8);
        Traffic.DeleteRequest (Scenario.t0 + 5000) (Some "s9") (Some 1);
        Traffic.LogoutRequest (Some "s1")]
       Scenario.empty).
Proof. apply requests_keep_the_schema. exact empty_well_formed. Defined.

(** * Requests without a session *)

(** X9: the handlers behind the session guard answer 401 exactly when the
    request carries no cookie of a live session. When it carries none they
    answer before the library, the body or the store matter: the store is
    unchanged and nothing is listed; the session check reports no user. *)
Theorem session_guard now cookie db :
  (authenticated now cookie db = false ->
   (forall lib env username,
      exists error,
        Routes.RegisterOptions.POST lib env now cookie username db
        = (Routes.json 401 (Routes.ErrorPayload error None), db))
   /\ (forall lib env body,
         exists error,
           Routes.RegisterVerify.POST lib env now cookie body db
           = (Routes.json 401 (Routes.ErrorPayload error None), db))
   /\ (forall passkeyId,
         exists error,
           Routes.Delete.DELETE now cookie passkeyId db
           = (Routes.answer 401 (Routes.AccountError error), db))
   /\ (exists error,
         Routes.ListPasskeys.GET now cookie db
         = Routes.answer 401 (Routes.AccountError error))
   /\ Routes.SessionCheck.GET now cookie db = Routes.answer 200 (Routes.SessionUser None))
  /\ (authenticated now cookie db = true ->
      (forall lib env username,
         Routes.status (fst (Routes.RegisterOptions.POST lib env now cookie username db))
         <> 401)
      /\ (forall lib env body,
            Routes.status (fst (Routes.RegisterVerify.POST lib env now cookie body db))
            <> 401)
      /\ (forall passkeyId,
            Routes.a_status (fst (Routes.Delete.DELETE now cookie passkeyId db)) <> 401)
      /\ Routes.a_status (Routes.ListPasskeys.GET now cookie db) = 200).
Proof.
  unfold authenticated, Routes.RegisterOptions.POST, Routes.RegisterVerify.POST,
    Routes.Delete.DELETE, Routes.ListPasskeys.GET, Routes.SessionCheck.GET.
  destruct (Routes.present cookie) as [sessionId|].
  - destruct (Db.getSession now sessionId db) as [session|].
    + split; [discriminate|]. intros _. repeat split.
      * intros lib env username.
        destruct (Routes.present username); [|discriminate].
        destruct (Webauthn.generatePasskeyRegistrationOptions _ _ _ _ _); [discriminate|].
        destruct (Db.createSession _ _ _ _ _ _) as [[e|u] d]; discriminate.
      * intros lib env body.
        destruct (Routes.present (reg_challenge body)); [|discriminate].
        destruct (Db.getSession now (Routes.challenge_key sessionId) db); [|discriminate].
        destruct (negb _); [discriminate|].
        destruct (Webauthn.verifyPasskeyRegistration _ _ _ _ _ _ _) as [[e|r] d];
          discriminate.
      * intros [id|]; [|discriminate].
        destruct (id =? 0); [discriminate|].
        destruct (Db.deletePasskey _ _ _) as [changes d].
        destruct (changes =? 0); discriminate.
    + split; [|discriminate]. intros _.
      repeat split; intros; try (eexists; reflexivity).
  - split; [|discriminate]. intros _.
    repeat split; intros; try (eexists; reflexivity).
Qed.

Lemma session_guard_witness :
  Routes.Delete.DELETE (Scenario.t0 + 1000) (Some "s7") (Some 1) Scenario.shared
  = (Routes.answer 401 (Routes.AccountError "Invalid session"), Scenario.shared)
  /\ Routes.a_status (Routes.ListPasskeys.GET (Scenario.t0 + 1000) (Some "s1") Scenario.shared)
     = 200.
Proof.
  destruct (session_guard (Scenario.t0 + 1000) (Some "s7") Scenario.shared) as [Hno _].
  destruct (session_guard (Scenario.t0 + 1000) (Some "s1") Scenario.shared) as [_ Hyes].
  split.
  - destruct (Hno eq_refl) as (_ & _ & Hdelete & _).
    destruct (Hdelete (Some 1)) as [error E]. rewrite E.
    assert (error = "Invalid session") as ->; [|reflexivity].
    apply (f_equal fst) in E. vm_compute in E. now injection E.
  - now apply Hyes.
Defined.

(** * A credential is stored only against the stored challenge *)

(** X10: when the registration-verify handler leaves a new row in
    [passkeys], the request came with the cookie of a live session, the
    challenge in its body is the one stored under the key of that session,
    the library verified the response against that challenge, the row is
    the only new one, it belongs to the user of the session and carries the
    id the client declared, and the challenge session is deleted. *)
Theorem credential_stored_only_against_the_stored_challenge lib env now cookie body db
    response db' :
  Routes.RegisterVerify.POST lib env now cookie body db = (response, db') ->
  Db.passkeys db' <> Db.passkeys db ->
  exists sessionId session challengeSession verification info row,
    Routes.present cookie = Some sessionId
    /\ Db.getSession now sessionId db = Some session
    /\ Db.getSession now (Routes.challenge_key sessionId) db = Some challengeSession
    /\ Routes.present (reg_challenge body)
       = Some (Db.s_challenge (Db.ss_row challengeSession))
    /\ verifyRegistrationResponse lib
         (Webauthn.registrationRequest env body (Db.s_challenge (Db.ss_row challengeSession)))
       = inr verification
    /\ reg_verified verification = true
    /\ registrationInfo verification = Some info
    /\ Db.passkeys db' = Db.passkeys db ++ [row]
    /\ Db.p_user_id row = Db.s_user_id (Db.ss_row session)
    /\ Db.p_credential_id row = reg_id body
    /\ (forall now', Db.getSession now' (Routes.challenge_key sessionId) db' = None).
Proof.
  unfold Routes.RegisterVerify.POST.
  destruct (Routes.present cookie) as [sessionId|] eqn:Hcookie;
    [|intros [= _ <-] N; now elim N].
  destruct (Db.getSession now sessionId db) as [session|] eqn:Hsession;
    [|intros [= _ <-] N; now elim N].
  destruct (Routes.present (reg_challenge body)) as [challenge|] eqn:Hchallenge;
    [|intros [= _ <-] N; now elim N].
  destruct (Db.getSession now (Routes.challenge_key sessionId) db) as [cs|] eqn:Hcs;
    [|intros [= _ <-] N; now elim N].
  destruct (String.eqb (Db.s_challenge (Db.ss_row cs)) challenge) eqn:Heq; simpl;
    [|intros [= _ <-] N; now elim N].
  apply String.eqb_eq in Heq. subst challenge.
  unfold Webauthn.verifyPasskeyRegistration,
    Webauthn.verifyPasskeyRegistration_interleaved.
  destruct (verifyRegistrationResponse lib _) as [e|v] eqn:Hlib;
    [intros [= _ <-] N; now elim N|].
  cbv zeta.
  destruct (reg_verified v) eqn:Hv; [|intros [= _ <-] N; now elim N].
  destruct (registrationInfo v) as [info|] eqn:Hi; [|intros [= _ <-] N; now elim N].
  destruct (Db.createPasskey _ _ _ _ _ _ _ _ _) as [[e|u] d] eqn:CP.
  - intros [= _ <-] N. exfalso. apply N.
    revert CP. unfold Db.createPasskey.
    destruct (existsb _ (Db.passkeys db)); [now intros [= _ <-]|].
    destruct (negb _); [now intros [= _ <-] | discriminate].
  - intros [= _ <-] _.
    apply createPasskey_inserted in CP as (_ & row & Hrows & Hid & Huser & _).
    exists sessionId, session, cs, v, info, row.
    repeat split; auto. intros now'. apply getSession_after_delete.
Qed.

Lemma credential_stored_only_against_the_stored_challenge_witness :
  exists sessionId challengeSession,
    Routes.present (Some "s1") = Some sessionId
    /\ Db.getSession (Scenario.t0 + 3000) (Routes.challenge_key sessionId)
         Scenario.challenged = Some challengeSession
    /\ Db.s_challenge (Db.ss_row challengeSession) = "c-1".
Proof.
  edestruct (credential_stored_only_against_the_stored_challenge (Scenario.lib "c-2")
               Scenario.dev (Scenario.t0 + 3000) (Some "s1") Scenario.registration
               Scenario.challenged (fst Scenario.registered) (snd Scenario.registered))
    as (sessionId & session & cs & v & info & row & Hcookie & _ & Hcs & Hch & _).
  - apply surjective_pairing.
  - vm_compute. discriminate.
  - exists sessionId, cs. split; [exact Hcookie | split; [exact Hcs|]].
    assert (Routes.present (reg_challenge Scenario.registration) = Some "c-1") as E
      by reflexivity.
    rewrite E in Hch. now injection Hch.
Defined.

(** * The exclusion list of registration *)

(** X11: whatever the library does with them, the options that
    [generatePasskeyRegistrationOptions] hands to it exclude exactly the
    stored credentials of the user, each under its stored id with its stored
    transports, name the configured relying party and carry the user id as
    the bytes of its decimal text; the challenge returned next to the options
    is the one inside them. *)
Theorem registration_options_exclude_own_credentials lib env userId username db result :
  Webauthn.generatePasskeyRegistrationOptions lib env userId username db = inr result ->
  exists opts,
    generateRegistrationOptions lib opts = inr (Webauthn.ro_options result)
    /\ Permutation (gr_excludeCredentials opts)
         (map (fun p => {| desc_id := Db.p_credential_id p;
                           desc_type := "public-key";
                           desc_transports := Db.p_transports p |})
              (filter (fun p => Db.p_user_id p =? userId) (Db.passkeys db)))
    /\ gr_rpID opts = Webauthn.RP_ID env
    /\ gr_userID opts
       = list_byte_of_string (DecimalString.NilZero.string_of_int (Z.to_int userId))
    /\ Webauthn.ro_challenge result = creation_challenge (Webauthn.ro_options result).
Proof.
  unfold Webauthn.generatePasskeyRegistrationOptions. cbv zeta.
  destruct (generateRegistrationOptions lib _) as [e|o] eqn:Hlib; [discriminate|].
  intros [= <-]. eexists. split; [exact Hlib|]. simpl.
  repeat split.
  apply (Permutation_map
           (fun p => {| desc_id := Db.p_credential_id p;
                        desc_type := "public-key";
                        desc_transports := Db.p_transports p |})).
  apply getPasskeysByUserId_perm.
Qed.

Lemma registration_options_exclude_own_credentials_witness :
  exists result,
    Webauthn.generatePasskeyRegistrationOptions (Scenario.lib "c-4") Scenario.dev 1 "alice"
      Scenario.two_credentials = inr result
    /\ Permutation (creation_excludeCredentials (Webauthn.ro_options result))
         [{| desc_id := "Y3JlZC0x"; desc_type := "public-key";
             desc_transports := Some ["internal"] |};
          {| desc_id := "Y3JlZC0y"; desc_type := "public-key";
             desc_transports := None |}].
Proof.
  destruct (Webauthn.generatePasskeyRegistrationOptions (Scenario.lib "c-4") Scenario.dev 1
              "alice" Scenario.two_credentials) as [e|result] eqn:E;
    [vm_compute in E; discriminate|].
  exists result. split; [reflexivity|].
  destruct (registration_options_exclude_own_credentials _ _ _ _ _ _ E)
    as (opts & Hlib & Hperm & _).
  simpl in Hlib. injection Hlib as <-. simpl.
  exact Hperm.
Defined.

(** * Sessions: insert, lookup, login and logout *)

Lemma expires_after_until expires_at now :
  now <= expires_at -> Db.expires_after expires_at now = true.
Proof.
  intros H. replace expires_at with (now + (expires_at - now)) by lia.
  apply expires_after_later. lia.
Qed.

Lemma find_user_id user_id (l : list Db.User) u :
  find (fun u => Db.u_id u =? user_id) l = Some u -> Db.u_id u = user_id.
Proof. intros H. apply find_some in H as [_ H]. now apply Z.eqb_eq. Qed.

(** The row an INSERT has written into [webauthn_sessions] is found under
    its id while its expiry is above [CURRENT_TIMESTAMP]. *)
Lemma inserted_session_is_found now id user_id challenge expires_at db out db' :
  Db.createSession now id user_id challenge expires_at db = (inr out, db') ->
  exists owner,
    Db.getUserById user_id db = Some owner
    /\ forall now',
         Db.expires_after expires_at now' = true ->
         Db.getSession now' id db'
         = Some {| Db.ss_row :=
                     {| Db.s_id := id; Db.s_user_id := user_id;
                        Db.s_challenge := challenge;
                        Db.s_created_at := Db.CURRENT_TIMESTAMP now;
                        Db.s_expires_at := expires_at |};
                   Db.ss_username := Db.u_username owner |}.
Proof.
  intros H. apply createSession_success in H as (Hnew & Huser & ->).
  apply find_user_exists in Huser as [owner Hfind].
  exists owner. split; [exact Hfind|]. intros now' Hlive.
  unfold Db.getSession, Db.getUserById. simpl.
  rewrite find_snoc_hit;
    [| now apply existsb_weaken | simpl; now rewrite String.eqb_refl, Hlive].
  simpl. now rewrite Hfind.
Qed.

(** X12: a session that was inserted is found under its id for as long as
    its expiry is above [CURRENT_TIMESTAMP], as the row that was written
    joined with the username of its user, and is not found afterwards; the
    lookup of every other id is as before. *)
Theorem createSession_then_getSession now id user_id challenge expires_at db out db' :
  Db.createSession now id user_id challenge expires_at db = (inr out, db') ->
  (exists owner,
     Db.getUserById user_id db = Some owner
     /\ forall now',
          Db.getSession now' id db'
          = if Db.expires_after expires_at now'
            then Some {| Db.ss_row :=
                           {| Db.s_id := id; Db.s_user_id := user_id;
                              Db.s_challenge := challenge;
                              Db.s_created_at := Db.CURRENT_TIMESTAMP now;
                              Db.s_expires_at := expires_at |};
                         Db.ss_username := Db.u_username owner |}
            else None)
  /\ (forall now' k, k <> id -> Db.getSession now' k db' = Db.getSession now' k db).
Proof.
  intros H. apply createSession_success in H as (Hnew & Huser & ->).
  split.
  - apply find_user_exists in Huser as [owner Hfind].
    exists owner. split; [exact Hfind|]. intros now'.
    unfold Db.getSession, Db.getUserById. simpl.
    destruct (Db.expires_after expires_at now') eqn:Hlive.
    + rewrite find_snoc_hit;
        [| now apply existsb_weaken | simpl; now rewrite String.eqb_refl, Hlive].
      simpl. now rewrite Hfind.
    + rewrite find_snoc_miss by (simpl; now rewrite Hlive, andb_false_r).
      assert (find (fun s => String.eqb (Db.s_id s) id
                             && Db.expires_after (Db.s_expires_at s) now')
                (Db.webauthn_sessions db) = None) as ->; [|reflexivity].
      destruct (find _ (Db.webauthn_sessions db)) as [s|] eqn:F; [|reflexivity].
      apply find_some in F as [Hs E]. apply andb_prop in E as [E _].
      assert (existsb (fun s => String.eqb (Db.s_id s) id) (Db.webauthn_sessions db) = true)
        as Hex by (apply existsb_exists; eauto).
      congruence.
  - intros now' k Hk. unfold Db.getSession, Db.getUserById. simpl.
    rewrite find_snoc_miss; [reflexivity|]. simpl.
    assert (String.eqb id k = false) as -> by (apply String.eqb_neq; congruence).
    reflexivity.
Qed.

Lemma createSession_then_getSession_witness :
  option_map Db.ss_username (Db.getSession (Scenario.t0 + 1000) "s1" Scenario.logged_in)
  = Some "alice".
Proof.
  destruct (createSession_then_getSession Scenario.t0 "s1" 1 "password-login"
              (Db.toISOString (Scenario.t0 + 24 * 60 * 60 * 1000)) Scenario.empty tt
              Scenario.logged_in) as [(owner & Howner & Hfound) _];
    [vm_compute; reflexivity|].
  rewrite Hfound.
  assert (Some owner = Some Scenario.alice) as E by (rewrite <- Howner; reflexivity).
  injection E as ->. reflexivity.
Defined.

Lemma lookup_owner k db passkey :
  Db.getPasskeyByCredentialId k db = Some passkey ->
  exists u,
    Db.getUserById (Db.p_user_id (Db.pk_row passkey)) db = Some u
    /\ Db.pk_username passkey = Db.u_username u.
Proof.
  unfold Db.getPasskeyByCredentialId.
  destruct (find _ (Db.passkeys db)) as [p|]; [|discriminate].
  destruct (Db.getUserById (Db.p_user_id p) db) as [u|] eqn:Hu; [|discriminate].
  intros [= <-]. simpl. now exists u.
Qed.

(** X13: a successful passkey sign-in opens a session for the owner of the
    credential. The answer names the owner's id and username and sets the
    cookie to the drawn session id, and for the next 24 hours the session
    check answers with that user for this cookie. *)
Theorem passkey_login_opens_a_session lib env now sessionId body db response db' :
  Routes.AuthenticateVerify.POST lib env now sessionId body db = (response, db') ->
  Routes.AuthenticateVerify.succeeded response = true ->
  truthy sessionId = true ->
  exists passkey logs,
    Db.getPasskeyByCredentialId (auth_id body) db = Some passkey
    /\ response
       = {| Routes.status := 200;
            Routes.payload :=
              Routes.AuthenticationPayload "Passkey authentication successful"
                (Db.p_user_id (Db.pk_row passkey)) (Db.pk_username passkey) logs;
            Routes.session_cookie := Some sessionId |}
    /\ forall now',
         now' <= now + 24 * 60 * 60 * 1000 ->
         Routes.SessionCheck.GET now' (Some sessionId) db'
         = Routes.answer 200
             (Routes.SessionUser (Some (Db.p_user_id (Db.pk_row passkey),
                                        Db.pk_username passkey))).
Proof.
  unfold Routes.AuthenticateVerify.POST.
  destruct (Routes.present (auth_challenge body)) as [challenge|];
    [|intros [= <- _]; discriminate].
  destruct (Db.getPasskeyByCredentialId (auth_id body) db) as [passkey|] eqn:Hfound.
  2: { unfold Webauthn.verifyPasskeyAuthentication,
    Webauthn.verifyPasskeyAuthentication_interleaved. rewrite Hfound.
       intros [= <- _]. discriminate. }
  rewrite (authentication_found _ _ _ _ _ _ _ Hfound).
  destruct (verifyAuthenticationResponse lib _) as [e|v];
    [intros [= <- _]; discriminate|].
  cbv zeta. destruct (verified v).
  2: { destruct (authenticationInfo v); simpl; intros [= <- _]; discriminate. }
  destruct (lookup_owner _ _ _ Hfound) as (u & Hu & Hname).
  assert (forall d out d',
            Db.users d = Db.users db ->
            Db.createSession now sessionId (Db.p_user_id (Db.pk_row passkey))
              "passkey-login" (Db.toISOString (now + 24 * 60 * 60 * 1000)) d
            = (inr out, d') ->
            forall now', now' <= now + 24 * 60 * 60 * 1000 ->
            Db.getSession now' sessionId d'
            = Some {| Db.ss_row :=
                        {| Db.s_id := sessionId;
                           Db.s_user_id := Db.p_user_id (Db.pk_row passkey);
                           Db.s_challenge := "passkey-login";
                           Db.s_created_at := Db.CURRENT_TIMESTAMP now;
                           Db.s_expires_at := Db.toISOString (now + 24 * 60 * 60 * 1000) |};
                      Db.ss_username := Db.pk_username passkey |}) as Hopen.
  { intros d out d' Husers CS now' Hnow'.
    apply inserted_session_is_found in CS as (owner & Howner & Hget).
    rewrite Hget by (unfold Db.toISOString; now apply expires_after_until).
    unfold Db.getUserById in *. rewrite Husers, Hu in Howner.
    injection Howner as <-. now rewrite Hname. }
  intros Hpost Hsucc Htruthy.
  assert (Routes.present (Some sessionId) = Some sessionId) as Hcookie
    by (simpl; now rewrite Htruthy).
  destruct (authenticationInfo v) as [info|];
    cbn [Webauthn.ar_verified Webauthn.ar_userId Webauthn.ar_username
         Webauthn.ar_debugLogs negb] in Hpost;
    destruct (Db.createSession _ _ _ _ _ _) as [[e|out] d'] eqn:CS;
    try (injection Hpost as <- _; discriminate Hsucc);
    injection Hpost as <- <-;
    exists passkey; eexists; (split; [reflexivity|]); (split; [reflexivity|]);
    intros now' Hnow'; unfold Routes.SessionCheck.GET; rewrite Hcookie;
    rewrite (fun H => Hopen _ _ _ H CS now' Hnow') by reflexivity; reflexivity.
Qed.

Lemma passkey_login_opens_a_session_witness :
  Routes.SessionCheck.GET (Scenario.t0 + 5000) (Some "login-1") (snd Scenario.first_login)
  = Routes.answer 200 (Routes.SessionUser (Some (1, "alice"))).
Proof.
  edestruct (passkey_login_opens_a_session (Scenario.lib "c-2") Scenario.dev
               (Scenario.t0 + 1000) "login-1" (Scenario.assertion 0)
               (Scenario.with_counter 0) (fst Scenario.first_login)
               (snd Scenario.first_login))
    as (passkey & logs & Hfound & _ & Hcheck).
  - apply surjective_pairing.
  - vm_compute. reflexivity.
  - reflexivity.
  - rewrite Hcheck by (vm_compute; discriminate).
    assert (Db.getPasskeyByCredentialId (auth_id (Scenario.assertion 0))
              (Scenario.with_counter 0)
            = Some {| Db.pk_row :=
                        {| Db.p_id := 1; Db.p_user_id := 1;
                           Db.p_credential_id := Scenario.cred1;
                           Db.p_public_key := encode Scenario.key; Db.p_counter := 0;
                           Db.p_device_type := "platform"; Db.p_backed_up := 0;
                           Db.p_transports := Some ["internal"];
                           Db.p_created_at := 1700000000; Db.p_last_used_at := None |};
                      Db.pk_username := "alice" |}) as E by (vm_compute; reflexivity).
    rewrite E in Hfound. injection Hfound as <-. reflexivity.
Defined.

Lemma find_after_delete_other (f : Db.Session -> bool) id k l :
  k <> id ->
  find (fun s => String.eqb (Db.s_id s) k && f s)
       (filter (fun s => negb (String.eqb (Db.s_id s) id)) l)
  = find (fun s => String.eqb (Db.s_id s) k && f s) l.
Proof.
  intros Hk. apply find_filter_same. intros s _ H.
  apply andb_prop in H as [H _]. apply String.eqb_eq in H.
  apply negb_true_iff, String.eqb_neq. congruence.
Qed.

(** X14: logout ends the session of the cookie and no other. Afterwards,
    at any time, the session is not found, the session check reports no user
    and the guarded handlers see an unauthenticated request; every other
    session row (the registration challenge of the session among them) is
    looked up as before, and users and passkeys are untouched. *)
Theorem logout_ends_the_session cookie sessionId db :
  Routes.present cookie = Some sessionId ->
  exists db',
    Routes.Logout.POST cookie db
    = ({| Routes.a_status := 200;
          Routes.a_payload := Routes.AccountMessage "Logged out successfully";
          Routes.a_cookie := Routes.CookieDeleted |}, db')
    /\ (forall now,
          Db.getSession now sessionId db' = None
          /\ authenticated now cookie db' = false
          /\ Routes.SessionCheck.GET now cookie db'
             = Routes.answer 200 (Routes.SessionUser None))
    /\ (forall now k, k <> sessionId -> Db.getSession now k db' = Db.getSession now k db)
    /\ Db.passkeys db' = Db.passkeys db
    /\ Db.users db' = Db.users db.
Proof.
  intros Hcookie. unfold Routes.Logout.POST. rewrite Hcookie.
  eexists. split; [reflexivity|]. split; [|split; [|split; reflexivity]].
  - intros now. unfold authenticated, Routes.SessionCheck.GET.
    rewrite Hcookie, getSession_after_delete. repeat split.
  - intros now k Hk. unfold Db.getSession, Db.getUserById. simpl.
    now rewrite find_after_delete_other.
Qed.

Lemma logout_ends_the_session_witness :
  Routes.SessionCheck.GET (Scenario.t0 + 1000) (Some "s1")
    (snd (Routes.Logout.POST (Some "s1") Scenario.challenged))
  = Routes.answer 200 (Routes.SessionUser None)
  /\ option_map (fun s => Db.s_challenge (Db.ss_row s))
       (Db.getSession (Scenario.t0 + 1000) (Routes.challenge_key "s1")
          (snd (Routes.Logout.POST (Some "s1") Scenario.challenged)))
     = Some "c-1".
Proof.
  destruct (logout_ends_the_session (Some "s1") "s1" Scenario.challenged eq_refl)
    as (db' & Hpost & Hgone & Hothers & _).
  rewrite Hpost. simpl snd. split.
  - apply Hgone.
  - rewrite Hothers by discriminate. vm_compute. reflexivity.
Defined.

(** X15: the password login. An unknown username and a wrong password get
    the same answer, 401 [Invalid username or password], and change nothing;
    a right password with a session id that is not in use answers 200 with
    the user's id and name, sets the cookie, and opens a session that the
    session check reports for the next 24 hours. *)
Theorem password_login verifyPassword now sessionId username password db name pw :
  Routes.present username = Some name ->
  Routes.present password = Some pw ->
  (match Db.getUserByUsername name db with
   | Some user => verifyPassword pw (Db.u_password_hash user) = false
   | None => True
   end ->
   Routes.Login.POST verifyPassword now sessionId username password db
   = (Routes.answer 401 (Routes.AccountError "Invalid username or password"), db))
  /\ (forall user,
        Db.getUserByUsername name db = Some user ->
        verifyPassword pw (Db.u_password_hash user) = true ->
        truthy sessionId = true ->
        existsb (fun s => String.eqb (Db.s_id s) sessionId) (Db.webauthn_sessions db)
        = false ->
        exists db',
          Routes.Login.POST verifyPassword now sessionId username password db
          = ({| Routes.a_status := 200;
                Routes.a_payload :=
                  Routes.LoginPayload "Login successful" (Db.u_id user)
                    (Db.u_username user);
                Routes.a_cookie := Routes.CookieSet sessionId |}, db')
          /\ forall now',
               now' <= now + 24 * 60 * 60 * 1000 ->
               exists owner,
                 Db.getUserById (Db.u_id user) db = Some owner
                 /\ Routes.SessionCheck.GET now' (Some sessionId) db'
                    = Routes.answer 200
                        (Routes.SessionUser (Some (Db.u_id user, Db.u_username owner)))).
Proof.
  intros Hname Hpw. unfold Routes.Login.POST. rewrite Hname, Hpw. split.
  - intros Hrej.
    destruct (Db.getUserByUsername name db) as [user|]; [|reflexivity].
    now rewrite Hrej.
  - intros user Huser Hok Htruthy Hfresh. rewrite Huser, Hok. simpl negb. cbv iota.
    assert (existsb (fun u => Db.u_id u =? Db.u_id user) (Db.users db) = true) as Hexists.
    { unfold Db.getUserByUsername in Huser. apply find_some in Huser as [Hin _].
      apply existsb_exists. exists user. split; [exact Hin | apply Z.eqb_refl]. }
    destruct (createSession_ok now sessionId (Db.u_id user) "password-login"
                (Db.toISOString (now + 24 * 60 * 60 * 1000)) db Hfresh Hexists)
      as [db' CS].
    rewrite CS. exists db'. split; [reflexivity|].
    intros now' Hnow'.
    apply inserted_session_is_found in CS as (owner & Howner & Hget).
    exists owner. split; [exact Howner|].
    unfold Routes.SessionCheck.GET. simpl Routes.present. rewrite Htruthy.
    now rewrite Hget by (unfold Db.toISOString; now apply expires_after_until).
Qed.

Lemma password_login_witness :
  Routes.Login.POST (fun pw hash => String.eqb hash (String.append "$2a$12$" pw))
    Scenario.t0 "s3" (Some "alice") (Some "bob") Scenario.empty
  = (Routes.answer 401 (Routes.AccountError "Invalid username or password"), Scenario.empty)
  /\ Routes.Login.POST (fun pw hash => String.eqb hash (String.append "$2a$12$" pw))
       Scenario.t0 "s3" (Some "carol") (Some "bob") Scenario.empty
     = (Routes.answer 401 (Routes.AccountError "Invalid username or password"),
        Scenario.empty).
Proof.
  split.
  - apply (password_login (fun pw hash => String.eqb hash (String.append "$2a$12$" pw))
             Scenario.t0 "s3" (Some "alice") (Some "bob") Scenario.empty "alice" "bob"
             eq_refl eq_refl).
    vm_compute. reflexivity.
  - apply (password_login (fun pw hash => String.eqb hash (String.append "$2a$12$" pw))
             Scenario.t0 "s3" (Some "carol") (Some "bob") Scenario.empty "carol" "bob"
             eq_refl eq_refl).
    vm_compute. exact I.
Defined.

(** * verifyPasskeyAuthentication of the part_000 copy *)

(** X16: the part_000 copy looks the credential up under the re-encoded
    [rawId], which for the base64url text of any bytes is that text, and
    counts by itself: whenever the library verifies the response, whatever
    counter the response reports and whether or not the library returns
    authentication info, the stored counter becomes the stored counter plus
    one; an unverified response or an exception changes nothing. *)
Theorem part000_authentication_adds_one lib env now body expectedChallenge db raw passkey :
  auth_rawId body = encode raw ->
  Db.getPasskeyByCredentialId (encode raw) db = Some passkey ->
  match verifyAuthenticationResponse lib
          (Part000.authenticationRequest env body expectedChallenge passkey) with
  | inl e =>
      Part000.verifyPasskeyAuthentication lib env now body expectedChallenge db
      = (inl e, db)
  | inr verification =>
      exists result db',
        Part000.verifyPasskeyAuthentication lib env now body expectedChallenge db
        = (inr result, db')
        /\ Webauthn.ar_verified result = verified verification
        /\ Webauthn.ar_userId result = Db.p_user_id (Db.pk_row passkey)
        /\ Webauthn.ar_username result = Db.pk_username passkey
        /\ if verified verification
           then stored_counter (encode raw) db'
                = Some (Db.p_counter (Db.pk_row passkey) + 1)
                /\ db' = Db.updatePasskeyCounter now (Db.p_counter (Db.pk_row passkey) + 1)
                           (encode raw) db
           else db' = db
  end.
Proof.
  intros Hraw Hfound. unfold Part000.verifyPasskeyAuthentication. cbv zeta.
  rewrite Hraw, decode_encode, Hfound.
  destruct (verifyAuthenticationResponse lib _) as [e|v]; [reflexivity|].
  destruct (verified v) eqn:V; eexists; eexists; (split; [reflexivity|]); simpl;
    repeat split.
  eapply stored_counter_after_update; eassumption.
Qed.

Lemma part000_authentication_adds_one_witness :
  stored_counter Scenario.cred1
    (snd (Part000.verifyPasskeyAuthentication
            {| generateRegistrationOptions := generateRegistrationOptions (Scenario.lib "c");
               verifyRegistrationResponse := verifyRegistrationResponse (Scenario.lib "c");
               generateAuthenticationOptions := generateAuthenticationOptions (Scenario.lib "c");
               verifyAuthenticationResponse :=
                 fun _ => inr {| verified := true;
                                 authenticationInfo := Some {| newCounter := 9 |} |} |}
            Scenario.prod (Scenario.t0 + 1000) (Scenario.assertion 9) "c-1"
            (Scenario.with_counter 5)))
  = Some 6.
Proof.
  pose proof (part000_authentication_adds_one
                {| generateRegistrationOptions := generateRegistrationOptions (Scenario.lib "c");
                   verifyRegistrationResponse := verifyRegistrationResponse (Scenario.lib "c");
                   generateAuthenticationOptions :=
                     generateAuthenticationOptions (Scenario.lib "c");
                   verifyAuthenticationResponse :=
                     fun _ => inr {| verified := true;
                                     authenticationInfo := Some {| newCounter := 9 |} |} |}
                Scenario.prod (Scenario.t0 + 1000) (Scenario.assertion 9) "c-1"
                (Scenario.with_counter 5) (list_byte_of_string "cred-1")
                {| Db.pk_row :=
                     {| Db.p_id := 1; Db.p_user_id := 1;
                        Db.p_credential_id := Scenario.cred1;
                        Db.p_public_key := encode Scenario.key; Db.p_counter := 5;
                        Db.p_device_type := "platform"; Db.p_backed_up := 0;
                        Db.p_transports := Some ["internal"];
                        Db.p_created_at := 1700000000; Db.p_last_used_at := None |};
                   Db.pk_username := "alice" |} eq_refl eq_refl) as H.
  simpl verifyAuthenticationResponse in H.
  destruct H as (result & db' & Hcall & _ & _ & _ & Hcounter & _).
  change (encode (list_byte_of_string "cred-1")) with Scenario.cred1 in Hcounter.
  rewrite Hcall. exact Hcounter.
Defined.

(** * The debugger and the logs of a result *)

Lemma last_error_snoc logs entry :
  Webauthn.getLastError (logs ++ [entry])
  = if Webauthn.is_error entry then Some entry else Webauthn.getLastError logs.
Proof.
  unfold Webauthn.getLastError. rewrite filter_app. simpl.
  destruct (Webauthn.is_error entry).
  - rewrite rev_app_distr. reflexivity.
  - now rewrite app_nil_r.
Qed.

(** X17: [getLastError] of the debugger is the entry of the latest [log]
    call of type error since the logs were cleared, and null when there was
    none: cleared logs have no last error, an error entry that is pushed
    becomes the last error, an entry of another type leaves it as it was, and
    the entry returned is an error entry of the logs after which no error
    entry follows. *)
Theorem debugger_last_error logs :
  Webauthn.getLastError (Webauthn.clearLogs logs) = None
  /\ (forall step type,
        Webauthn.getLastError (Webauthn.push step type logs)
        = match type with
          | Webauthn.log_error => Some (Webauthn.log step type)
          | _ => Webauthn.getLastError logs
          end)
  /\ (Webauthn.getLastError logs = None <->
      forall entry, In entry (Webauthn.getLogs logs) -> Webauthn.is_error entry = false)
  /\ (forall entry,
        Webauthn.getLastError logs = Some entry ->
        exists before after,
          Webauthn.getLogs logs = before ++ entry :: after
          /\ Webauthn.is_error entry = true
          /\ forall later, In later after -> Webauthn.is_error later = false).
Proof.
  split; [reflexivity | split; [|split]].
  - intros step type. unfold Webauthn.push. rewrite last_error_snoc.
    destruct type; reflexivity.
  - unfold Webauthn.getLogs.
    induction logs as [|entry logs IH] using rev_ind.
    + split; [intros _ entry [] | reflexivity].
    + rewrite last_error_snoc. destruct (Webauthn.is_error entry) eqn:E.
      * split; [discriminate|]. intros H.
        rewrite (H entry) in E; [discriminate|]. apply in_or_app. right. now left.
      * rewrite IH. split.
        -- intros H x Hx. apply in_app_or in Hx as [Hx|[<-|[]]]; [now apply H | exact E].
        -- intros H x Hx. apply H. apply in_or_app. now left.
  - unfold Webauthn.getLogs.
    induction logs as [|last logs IH] using rev_ind; intros entry.
    + discriminate.
    + rewrite last_error_snoc. destruct (Webauthn.is_error last) eqn:E.
      * intros [= <-]. exists logs, []. repeat split; [exact E | intros ? []].
      * intros H. destruct (IH entry H) as (before & after & -> & Herr & Hafter).
        exists before, (after ++ [last]). rewrite <- app_assoc. simpl.
        repeat split; [exact Herr|].
        intros later Hl. apply in_app_or in Hl as [Hl|[<-|[]]]; [now apply Hafter | exact E].
Qed.






(** * Listing and displaying passkeys *)

(** X19: the list handler shows an authenticated user the stored passkeys
    of that user and no others: the views are those of exactly the rows whose
    owner is the user of the session. *)
Theorem list_shows_own_passkeys now cookie db sessionId session :
  Routes.present cookie = Some sessionId ->
  Db.getSession now sessionId db = Some session ->
  exists views,
    Routes.ListPasskeys.GET now cookie db = Routes.answer 200 (Routes.PasskeyList views)
    /\ Permutation views
         (map Routes.ListPasskeys.view
            (credentials_of (Db.s_user_id (Db.ss_row session)) db))
    /\ forall p,
         In (Routes.ListPasskeys.view p) views ->
         exists q,
           In q (Db.passkeys db)
           /\ Db.p_user_id q = Db.s_user_id (Db.ss_row session)
           /\ Routes.ListPasskeys.view q = Routes.ListPasskeys.view p.
Proof.
  intros Hcookie Hsession. unfold Routes.ListPasskeys.GET. rewrite Hcookie, Hsession.
  eexists. split; [reflexivity|].
  pose proof (Permutation_map Routes.ListPasskeys.view
                (getPasskeysByUserId_perm (Db.s_user_id (Db.ss_row session)) db)) as P.
  split; [exact P|].
  intros p Hp. apply (Permutation_in _ P) in Hp.
  apply in_map_iff in Hp as (q & E & Hq).
  unfold credentials_of in Hq. apply filter_In in Hq as [Hq Hu].
  exists q. repeat split; auto. now apply Z.eqb_eq.
Qed.

Lemma list_shows_own_passkeys_witness :
  exists views,
    Routes.ListPasskeys.GET (Scenario.t0 + 1000) (Some "s1") Scenario.shared
    = Routes.answer 200 (Routes.PasskeyList views)
    /\ map Routes.pv_credentialId views = [Scenario.cred1].
Proof.
  edestruct (list_shows_own_passkeys (Scenario.t0 + 1000) (Some "s1") Scenario.shared "s1")
    as (views & Hget & _).
  - reflexivity.
  - vm_compute. reflexivity.
  - exists views. split; [exact Hget|].
    assert (Routes.ListPasskeys.GET (Scenario.t0 + 1000) (Some "s1") Scenario.shared
            = Routes.answer 200
                (Routes.PasskeyList
                   (map Routes.ListPasskeys.view
                      (Db.getPasskeysByUserId 1 Scenario.shared)))) as E
      by (vm_compute; reflexivity).
    rewrite E in Hget. injection Hget as <-. vm_compute. reflexivity.
Defined.

Lemma toHex_length bs : String.length (Webauthn.toHex bs) = (2 * List.length bs)%nat.
Proof. induction bs as [|b bs IH]; simpl; [reflexivity | rewrite IH; lia]. Qed.

(** X20: [formatCredentialId] of the base64url text of an identifier is the
    hexadecimal text of its bytes, two digits for each byte. *)
Theorem formatCredentialId_of_encoded raw :
  Webauthn.formatCredentialId (encode raw) = Webauthn.toHex raw
  /\ String.length (Webauthn.formatCredentialId (encode raw)) = (2 * List.length raw)%nat.
Proof.
  unfold Webauthn.formatCredentialId. rewrite decode_encode.
  split; [reflexivity | apply toHex_length].
Qed.

Example formatCredentialId_cred1 :
  Webauthn.formatCredentialId Scenario.cred1 = "637265642d31".
Proof. vm_compute. reflexivity. Qed.
